(** * MFRC522 reader driver and the RC522 acquisition task

    A shallow embedding of [Hardware/rc522/RC522.c] (SPI transport, register
    access, the generic card exchange [MFRC522_ToCard], [MFRC522_Request],
    [MFRC522_Anticoll]) and of the acquisition loop of
    [Core/Src/rc522_rtos_task.c], with the message queue created in
    [Core/Src/oled_rtos_task.c].

    The chip is an oracle: the byte it drives on MISO during the k-th SPI
    transfer.  Everything the firmware does to the outside (chip-select
    level, SPI bytes, UART lines, queue puts, delays) is appended to a trace,
    so that statements about framing and about what a cycle does are
    statements about that trace. *)

From Stdlib Require Import ZArith List Bool Lia.
Import ListNotations.
Local Open Scope Z_scope.

(** ** C integer types

    [uchar] is [unsigned char] (8 bits), [uint] is [unsigned int] (32 bits on
    the Cortex-M4 target).  A conversion to either type reduces modulo. *)

Definition uchar (z : Z) : Z := z mod 256.
Definition uint (z : Z) : Z := z mod 4294967296.

(** C truth value of an integer used as a condition. *)
Definition truthy (z : Z) : bool := negb (z =? 0).

(** ** Constants of [RC522.h]

    The header is not part of the tree; its status codes, command words,
    register addresses and [MAX_LEN] are parameters of the development. *)

Class RC522_h : Type := {
  MI_OK : Z;
  MI_NOTAGERR : Z;
  MI_ERR : Z;
  MAX_LEN : Z;
  PCD_IDLE : Z;
  PCD_AUTHENT : Z;
  PCD_TRANSCEIVE : Z;
  PCD_RESETPHASE : Z;
  PICC_REQIDL : Z;
  PICC_ANTICOLL : Z;
  CommandReg : Z;
  CommIEnReg : Z;
  CommIrqReg : Z;
  ErrorReg : Z;
  FIFODataReg : Z;
  FIFOLevelReg : Z;
  ControlReg : Z;
  BitFramingReg : Z;
  ModeReg : Z;
  TxControlReg : Z;
  TxAutoReg : Z;
  TModeReg : Z;
  TPrescalerReg : Z;
  TReloadRegH : Z;
  TReloadRegL : Z
}.

(** What the C code needs of the header to mean what it says: the status
    codes are three different [uchar] values, the two command words of the
    [switch] in [MFRC522_ToCard] are different case labels, and [MAX_LEN] is a
    buffer length that fits the [uchar] counter [n]. *)
Record header_ok {hdr : RC522_h} : Prop := {
  ok_ne_err : MI_OK <> MI_ERR;
  ok_ne_notag : MI_OK <> MI_NOTAGERR;
  notag_ne_err : MI_NOTAGERR <> MI_ERR;
  ok_byte : 0 <= MI_OK <= 255;
  notag_byte : 0 <= MI_NOTAGERR <= 255;
  err_byte : 0 <= MI_ERR <= 255;
  authent_ne_transceive : PCD_AUTHENT <> PCD_TRANSCEIVE;
  transceive_byte : 0 <= PCD_TRANSCEIVE <= 255;
  authent_byte : 0 <= PCD_AUTHENT <= 255;
  max_len_range : 1 <= MAX_LEN <= 255
}.

(** The values of the MFRC522 data sheet (register map, command set) and of
    the customary driver header; the concrete evaluations below use them. *)
Definition mfrc522_h : RC522_h := {|
  MI_OK := 0;
  MI_NOTAGERR := 1;
  MI_ERR := 2;
  MAX_LEN := 16;
  PCD_IDLE := 0x00;
  PCD_AUTHENT := 0x0E;
  PCD_TRANSCEIVE := 0x0C;
  PCD_RESETPHASE := 0x0F;
  PICC_REQIDL := 0x26;
  PICC_ANTICOLL := 0x93;
  CommandReg := 0x01;
  CommIEnReg := 0x02;
  CommIrqReg := 0x04;
  ErrorReg := 0x06;
  FIFODataReg := 0x09;
  FIFOLevelReg := 0x0A;
  ControlReg := 0x0C;
  BitFramingReg := 0x0D;
  ModeReg := 0x11;
  TxControlReg := 0x14;
  TxAutoReg := 0x15;
  TModeReg := 0x2A;
  TPrescalerReg := 0x2B;
  TReloadRegH := 0x2C;
  TReloadRegL := 0x2D
|}.

(** The constants of [RC522.h] that only the CRC and block-access functions
    use, parameters like the others. *)
Class RC522_h_block : Type := {
  PCD_CALCCRC : Z;
  PICC_SElECTTAG : Z;
  PICC_READ : Z;
  PICC_WRITE : Z;
  PICC_HALT : Z;
  DivIrqReg : Z;
  CRCResultRegL : Z;
  CRCResultRegH : Z;
  Status2Reg : Z
}.

(** Their data sheet values. *)
Definition mfrc522_h_block : RC522_h_block := {|
  PCD_CALCCRC := 0x03;
  PICC_SElECTTAG := 0x93;
  PICC_READ := 0x30;
  PICC_WRITE := 0xA0;
  PICC_HALT := 0x50;
  DivIrqReg := 0x05;
  CRCResultRegL := 0x22;
  CRCResultRegH := 0x21;
  Status2Reg := 0x08
|}.

(** ** [rc522_rtos_task.h] *)

Definition RC522_QUEUE_SIZE : nat := 3.
Definition RC522_STATUS_SUCCESS : Z := 1.
Definition RC522_STATUS_UNSUCCESSFUL : Z := 0.

Record RC522_Data_t : Type := {
  uid : list Z;        (* uint8_t uid[10] *)
  uid_length : Z;
  tagType : Z * Z;     (* uint8_t tagType[2] *)
  status : Z
}.

(** ** The outside world *)

(** The text of a debug line is kept as the format it was printed with and
    the values printed. *)
Inductive debug_msg : Type :=
| Dbg_request (status t0 t1 : Z)
| Dbg_anticoll (anticoll_status u0 u1 u2 u3 uid_len : Z)
| Dbg_detected (u0 u1 u2 u3 t0 t1 : Z)
| Dbg_no_card.

Inductive osStatus_t : Type := osOK | osErrorTimeout | osErrorResource.

Inductive event : Type :=
| CS (level : bool)                  (* HAL_GPIO_WritePin on MFRC522_CS_PIN *)
| RST (level : bool)                 (* HAL_GPIO_WritePin on MFRC522_RST_PIN *)
| SPI (mosi miso : Z)                (* one byte out, one byte in *)
| UART (msg : debug_msg)             (* HAL_UART_Transmit on huart3 *)
| Put (msg : RC522_Data_t) (timeout : Z) (st : osStatus_t)
| Blocked (timeout : Z)              (* the caller waited on a full queue *)
| Delay (ms : Z).                    (* osDelay *)

(** A CMSIS-RTOS v2 message queue of [RC522_Data_t]: its capacity and the
    pending messages, oldest first. *)
Record osMessageQueue : Type := {
  msg_count : nat;
  pending : list RC522_Data_t
}.

Record world : Type := World {
  miso : nat -> Z;          (* what the chip answers to the k-th transfer *)
  ticks : nat;              (* SPI transfers done so far *)
  trace : list event;       (* newest event first *)
  garbage : Z;              (* content of an uninitialised automatic variable *)
  display_rc522_info_queue : osMessageQueue
}.

(** ** State monad over the world *)

Definition M (A : Type) : Type := world -> A * world.

Definition ret {A} (a : A) : M A := fun w => (a, w).
Definition bind {A B} (m : M A) (k : A -> M B) : M B :=
  fun w => let (a, w') := m w in k a w'.

Notation "x <- m ;; k" := (bind m (fun x => k))
  (at level 61, m at next level, right associativity).
Notation "' pat <- m ;; k" := (bind m (fun x => match x with pat => k end))
  (at level 61, pat pattern, m at next level, right associativity).
Notation "m ;; k" := (bind m (fun _ => k))
  (at level 61, right associativity).

Definition eval {A} (m : M A) (w : world) : A := fst (m w).
Definition exec {A} (m : M A) (w : world) : world := snd (m w).

Definition emit (e : event) : M unit :=
  fun w => (tt, World (miso w) (ticks w) (e :: trace w) (garbage w)
                      (display_rc522_info_queue w)).

(** ** HAL and RTOS services used by the code

    The HAL and the RTOS are not in the tree; the code only calls them. *)

(** Modelled from the spec: the bus-select signal that brackets a register
    access; the HAL call that drives the pin is recorded as an event. *)
Definition HAL_GPIO_WritePin_CS (level : bool) : M unit := emit (CS level).
Definition HAL_GPIO_WritePin_RST (level : bool) : M unit := emit (RST level).

(** Modelled from the spec: the transport primitive, one full-duplex bus
    transfer that sends one byte and returns the chip's simultaneous response
    byte.  Whatever ends up in [rx_data], including what a failed transfer
    leaves there, is what the oracle says. *)
Definition HAL_SPI_TransmitReceive (data : Z) : M Z :=
  fun w =>
    let rx := uchar (miso w (ticks w)) in
    (rx, World (miso w) (S (ticks w)) (SPI data rx :: trace w) (garbage w)
               (display_rc522_info_queue w)).

(** The diagnostics collaborator: fire and forget. *)
Definition HAL_UART_Transmit (msg : debug_msg) : M unit := emit (UART msg).

Definition osDelay (ms : Z) : M unit := emit (Delay ms).

(** Modelled from the spec: the result channel is a bounded FIFO whose
    elements are copied by value; [osMessageQueueNew] creates it empty with
    the given capacity. *)
Definition osMessageQueueNew (count : nat) : osMessageQueue :=
  {| msg_count := count; pending := [] |}.

(** Modelled from the spec: an enqueue on [display_rc522_info_queue].  The
    message is copied behind the pending ones when there is room (all
    messages of this program have priority 0, so the order is the order of
    arrival).  On a full queue a non-blocking enqueue (timeout 0) discards the
    message and returns at once, with [osErrorResource]; with any other
    timeout the caller would be suspended, and as nothing else runs in this
    model that wait ends in [osErrorTimeout]. *)
Definition osMessageQueuePut (msg : RC522_Data_t) (msg_prio timeout : Z)
  : M osStatus_t :=
  fun w =>
    let q := display_rc522_info_queue w in
    if (length (pending q) <? msg_count q)%nat then
      (osOK, World (miso w) (ticks w) (Put msg timeout osOK :: trace w) (garbage w)
                   {| msg_count := msg_count q; pending := pending q ++ [msg] |})
    else if timeout =? 0 then
      (osErrorResource,
       World (miso w) (ticks w) (Put msg timeout osErrorResource :: trace w)
             (garbage w) q)
    else
      (osErrorTimeout,
       World (miso w) (ticks w)
             (Put msg timeout osErrorTimeout :: Blocked timeout :: trace w)
             (garbage w) q).

(** The value an uninitialised local starts with. *)
Definition uninitialised : M Z := fun w => (garbage w, w).

(** ** Buffers

    A [uchar *] argument is the list of the bytes of the object it points to.
    [peek] is [buf[i]], [poke] is [buf[i] = v].  A store past the end of the
    object is undefined in C; the model has no neighbouring objects and drops
    it. *)

Definition peek (buf : list Z) (i : nat) : Z := nth i buf 0.

Fixpoint poke (i : nat) (v : Z) (buf : list Z) : list Z :=
  match buf, i with
  | [], _ => []
  | _ :: tl, O => v :: tl
  | x :: tl, S j => x :: poke j v tl
  end.

Section Driver.

Context {hdr : RC522_h}.

(** ** Transport and register access ([RC522.c]) *)

Definition RC522_SPI_Transfer (data : Z) : M Z :=
  HAL_SPI_TransmitReceive (uchar data).

Definition Write_MFRC522 (addr val : Z) : M unit :=
  let addr := uchar addr in
  let val := uchar val in
  HAL_GPIO_WritePin_CS false ;;
  RC522_SPI_Transfer (Z.land (Z.shiftl addr 1) 0x7E) ;;
  RC522_SPI_Transfer val ;;
  HAL_GPIO_WritePin_CS true.

Definition Read_MFRC522 (addr : Z) : M Z :=
  let addr := uchar addr in
  HAL_GPIO_WritePin_CS false ;;
  RC522_SPI_Transfer (Z.lor (Z.land (Z.shiftl addr 1) 0x7E) 0x80) ;;
  val <- RC522_SPI_Transfer 0x00 ;;
  HAL_GPIO_WritePin_CS true ;;
  ret val.

Definition SetBitMask (reg mask : Z) : M unit :=
  tmp <- Read_MFRC522 reg ;;
  Write_MFRC522 reg (Z.lor tmp (uchar mask)).

Definition ClearBitMask (reg mask : Z) : M unit :=
  tmp <- Read_MFRC522 reg ;;
  Write_MFRC522 reg (Z.land tmp (Z.lnot (uchar mask))).

Definition AntennaOn : M unit :=
  Read_MFRC522 TxControlReg ;;
  SetBitMask TxControlReg 0x03.

Definition MFRC522_Reset : M unit :=
  Write_MFRC522 CommandReg PCD_RESETPHASE.

Definition MFRC522_Init : M unit :=
  HAL_GPIO_WritePin_CS true ;;
  HAL_GPIO_WritePin_RST true ;;
  MFRC522_Reset ;;
  Write_MFRC522 TModeReg 0x8D ;;
  Write_MFRC522 TPrescalerReg 0x3E ;;
  Write_MFRC522 TReloadRegL 30 ;;
  Write_MFRC522 TReloadRegH 0 ;;
  Write_MFRC522 TxAutoReg 0x40 ;;
  Write_MFRC522 ModeReg 0x3D ;;
  AntennaOn.

(** ** The card exchange [MFRC522_ToCard] *)

(** The [switch] on the command word: interrupt-enable mask [irqEn] and the
    completion flags [waitIRq] the wait loop looks for. *)
Definition ToCard_irq (command : Z) : Z * Z :=
  if command =? PCD_AUTHENT then (0x12, 0x10)
  else if command =? PCD_TRANSCEIVE then (0x77, 0x30)
  else (0x00, 0x00).

(** [for (i=0; i<sendLen; i++) Write_MFRC522(FIFODataReg, sendData[i]);]
    with [todo] passes left. *)
Fixpoint ToCard_fill (sendData : list Z) (todo i : nat) : M unit :=
  match todo with
  | O => ret tt
  | S todo' =>
      Write_MFRC522 FIFODataReg (peek sendData i) ;;
      ToCard_fill sendData todo' (S i)
  end.

(** Interrupt set-up, FIFO load and command start: everything from the write
    of [CommIEnReg] to the [StartSend] bit. *)
Definition ToCard_issue (command irqEn : Z) (sendData : list Z) (sendLen : Z)
  : M unit :=
  Write_MFRC522 CommIEnReg (Z.lor irqEn 0x80) ;;
  ClearBitMask CommIrqReg 0x80 ;;
  SetBitMask FIFOLevelReg 0x80 ;;
  Write_MFRC522 CommandReg PCD_IDLE ;;
  ToCard_fill sendData (Z.to_nat sendLen) 0 ;;
  Write_MFRC522 CommandReg command ;;
  if command =? PCD_TRANSCEIVE then SetBitMask BitFramingReg 0x80 else ret tt.

(** The iteration ceiling of the wait loop: [i = 2000;]. *)
Definition ToCard_budget : nat := 2000.

(** [do { n = Read_MFRC522(CommIrqReg); i--; }
     while ((i!=0) && !(n&0x01) && !(n&waitIRq));]
    One call is one pass of the body; the argument is the value [i] has after
    the decrement of that pass, so the loop is entered with
    [ToCard_budget - 1].  The result is the pair of [i] and [n] at the exit. *)
Fixpoint ToCard_wait (waitIRq : Z) (i : nat) : M (Z * Z) :=
  n <- Read_MFRC522 CommIrqReg ;;
  match i with
  | O => ret (0, n)
  | S j =>
      if negb (truthy (Z.land n 0x01)) && negb (truthy (Z.land n waitIRq))
      then ToCard_wait waitIRq j
      else ret (Z.of_nat i, n)
  end.

(** [for (i=0; i<n; i++) backData[i] = Read_MFRC522(FIFODataReg);]
    with [todo] passes left. *)
Fixpoint ToCard_drain (todo i : nat) (backData : list Z) : M (list Z) :=
  match todo with
  | O => ret backData
  | S todo' =>
      v <- Read_MFRC522 FIFODataReg ;;
      ToCard_drain todo' (S i) (poke i v backData)
  end.

(** The part after the loop: [if (i != 0) { ... } return status;].  It is
    entered with [status == MI_ERR]. *)
Definition ToCard_collect (command irqEn i n : Z) (backData : list Z) (backLen : Z)
  : M (Z * list Z * Z) :=
  if negb (i =? 0) then
    err <- Read_MFRC522 ErrorReg ;;
    if negb (truthy (Z.land err 0x1B)) then
      let status :=
        if truthy (Z.land (Z.land n irqEn) 0x01) then MI_NOTAGERR else MI_OK in
      if command =? PCD_TRANSCEIVE then
        n <- Read_MFRC522 FIFOLevelReg ;;
        ctl <- Read_MFRC522 ControlReg ;;
        let lastBits := Z.land ctl 0x07 in
        let backLen :=
          if truthy lastBits then uint ((n - 1) * 8 + lastBits)
          else uint (n * 8) in
        let n := if n =? 0 then 1 else n in
        let n := if MAX_LEN <? n then uchar MAX_LEN else n in
        backData <- ToCard_drain (Z.to_nat n) 0 backData ;;
        ret (status, backData, backLen)
      else ret (status, backData, backLen)
    else ret (MI_ERR, backData, backLen)
  else ret (MI_ERR, backData, backLen).

(** [sendData] and [backData] may be the same object, as in every caller of
    this file: all of [sendData] is read before anything is stored to
    [backData].  [backLen] is the content of the caller's variable on entry;
    the third component of the result is its content on return. *)
Definition MFRC522_ToCard (command : Z) (sendData : list Z) (sendLen : Z)
    (backData : list Z) (backLen : Z) : M (Z * list Z * Z) :=
  let command := uchar command in
  let sendLen := uchar sendLen in
  let '(irqEn, waitIRq) := ToCard_irq command in
  ToCard_issue command irqEn sendData sendLen ;;
  '(i, n) <- ToCard_wait waitIRq (Nat.pred ToCard_budget) ;;
  ClearBitMask BitFramingReg 0x80 ;;
  ToCard_collect command irqEn i n backData backLen.

(** ** Card discovery *)

Definition MFRC522_Request (reqMode : Z) (TagType : list Z) : M (Z * list Z) :=
  backBits <- uninitialised ;;
  Write_MFRC522 BitFramingReg 0x07 ;;
  let TagType := poke 0 (uchar reqMode) TagType in
  ' (status, TagType, backBits) <-
      MFRC522_ToCard PCD_TRANSCEIVE TagType 1 TagType backBits ;;
  let status :=
    if negb (status =? MI_OK) || negb (backBits =? 0x10) then MI_ERR
    else status in
  ret (status, TagType).

(** [for (i=0; i<4; i++) serNumCheck ^= serNum[i];] from [serNumCheck = 0]. *)
Definition Anticoll_check (serNum : list Z) : Z :=
  fold_left (fun chk i => uchar (Z.lxor chk (peek serNum i))) (seq 0 4) 0.

Definition MFRC522_Anticoll (serNum : list Z) : M (Z * list Z) :=
  unLen <- uninitialised ;;
  Write_MFRC522 BitFramingReg 0x00 ;;
  let serNum := poke 0 (uchar PICC_ANTICOLL) serNum in
  let serNum := poke 1 0x20 serNum in
  ' (status, serNum, unLen) <-
      MFRC522_ToCard PCD_TRANSCEIVE serNum 2 serNum unLen ;;
  let status :=
    if status =? MI_OK then
      if negb (Anticoll_check serNum =? peek serNum 4) then MI_ERR else status
    else status in
  ret (status, serNum).

(** ** The acquisition task ([rc522_rtos_task.c]) and its queue *)


(** [memset(&rc522_data, 0, sizeof(rc522_data))] *)
Definition rc522_data_zero : RC522_Data_t :=
  {| uid := repeat 0 10; uid_length := 0; tagType := (0, 0); status := 0 |}.

(** One pass of the body of [while (1)] in [RC522_Task]. *)
Definition RC522_Task_cycle : M unit :=
  let rc522_data := rc522_data_zero in
  let tagType0 := [0; 0] in
  ' (status0, tagType0) <- MFRC522_Request PICC_REQIDL tagType0 ;;
  HAL_UART_Transmit (Dbg_request status0 (peek tagType0 0) (peek tagType0 1)) ;;
  ' (anticoll_status, uid0) <- MFRC522_Anticoll (uid rc522_data) ;;
  let uid_length0 := if anticoll_status =? MI_OK then 4 else 0 in
  let tagType1 := (peek tagType0 0, peek tagType0 1) in
  HAL_UART_Transmit
    (Dbg_anticoll anticoll_status (peek uid0 0) (peek uid0 1) (peek uid0 2)
                  (peek uid0 3) uid_length0) ;;
  rc522_data <-
    (if (status0 =? MI_OK) && (anticoll_status =? MI_OK) then
       HAL_UART_Transmit
         (Dbg_detected (peek uid0 0) (peek uid0 1) (peek uid0 2) (peek uid0 3)
                       (fst tagType1) (snd tagType1)) ;;
       ret {| uid := uid0; uid_length := uid_length0; tagType := tagType1;
              status := RC522_STATUS_SUCCESS |}
     else
       HAL_UART_Transmit Dbg_no_card ;;
       ret {| uid := uid0; uid_length := 0; tagType := tagType1;
              status := RC522_STATUS_UNSUCCESSFUL |}) ;;
  osMessageQueuePut rc522_data 0 0 ;;
  osDelay 2000.

(** [RC522_Task] up to the end of its [cycles]-th pass. *)
Fixpoint RC522_Task_loop (cycles : nat) : M unit :=
  match cycles with
  | O => ret tt
  | S c => RC522_Task_cycle ;; RC522_Task_loop c
  end.

Definition RC522_Task (cycles : nat) : M unit :=
  MFRC522_Init ;; RC522_Task_loop cycles.

End Driver.

(** * The rest of the driver and the display task *)

(** Modelled from the spec: the dequeue of the presentation task blocks with
    unbounded wait until a record is available.  [None] stands for the task
    staying suspended on an empty queue; otherwise the oldest record is
    copied out and removed. *)
Definition osMessageQueueGet : M (option RC522_Data_t) :=
  fun w =>
    let q := display_rc522_info_queue w in
    match pending q with
    | [] => (None, w)
    | msg :: rest =>
        (Some msg,
         World (miso w) (ticks w) (trace w) (garbage w)
               {| msg_count := msg_count q; pending := rest |})
    end.

(** An uninitialised automatic array of [n] bytes. *)
Definition uninitialised_array (n : nat) : M (list Z) :=
  fun w => (repeat (uchar (garbage w)) n, w).

(** [for (i=0; i<n; i++) dst[i+at] = src[i];] *)
Definition copy_bytes (n at_ : nat) (src dst : list Z) : list Z :=
  fold_left (fun b i => poke (i + at_) (peek src i) b) (seq 0 n) dst.

(** What the display task draws and drives, in the order of its calls. *)
Inductive oled_text : Type :=
| Txt_tag (u0 u1 u2 u3 : Z)         (* "Tag/Card: %02X%02X%02X%02X" *)
| Txt_not_detected                  (* "Tag/Card: Not Detected" *)
| Txt_success                       (* "Status: Success" *)
| Txt_unsuccessful                  (* "Status: Unsuccessful" *)
| Txt_project_name.                 (* OLED_SHOW_PROJECT_NAME *)

Inductive oled_call : Type :=
| u8g2_ClearBuffer
| u8g2_DrawStr (x y : Z) (text : oled_text)
| LED_PB14 (level : bool)           (* HAL_GPIO_WritePin on LED_PB14_Pin *)
| u8g2_SendBuffer.

Section Block_access.

Context {hdr : RC522_h} {blk : RC522_h_block}.

Definition AntennaOff : M unit :=
  ClearBitMask TxControlReg 0x03.

(** ** [CalulateCRC] *)

(** [for (i=0; i<len; i++) Write_MFRC522(FIFODataReg, *(pIndata+i));]
    with [todo] passes left. *)
Fixpoint CalulateCRC_fill (pIndata : list Z) (todo i : nat) : M unit :=
  match todo with
  | O => ret tt
  | S todo' =>
      Write_MFRC522 FIFODataReg (peek pIndata i) ;;
      CalulateCRC_fill pIndata todo' (S i)
  end.

(** The ceiling of the CRC wait loop: [i = 0xFF;]. *)
Definition CalulateCRC_budget : nat := 255.

(** [do { n = Read_MFRC522(DivIrqReg); i--; } while ((i!=0) && !(n&0x04));]
    One call is one pass; the argument is [i] after the decrement of that
    pass.  The result is the pair of [i] and [n] at the exit. *)
Fixpoint CalulateCRC_wait (i : nat) : M (Z * Z) :=
  n <- Read_MFRC522 DivIrqReg ;;
  match i with
  | O => ret (0, n)
  | S j =>
      if negb (truthy (Z.land n 0x04)) then CalulateCRC_wait j
      else ret (Z.of_nat i, n)
  end.

(** [pIndata] is the buffer, [pOutData] points into the same buffer at index
    [out], as in every call of this file ([&buffer[7]], [&recvData[2]], ...).
    The result is the buffer with the two result bytes stored. *)
Definition CalulateCRC (pIndata : list Z) (len : Z) (out : nat) : M (list Z) :=
  let len := uchar len in
  ClearBitMask DivIrqReg 0x04 ;;
  SetBitMask FIFOLevelReg 0x80 ;;
  CalulateCRC_fill pIndata (Z.to_nat len) 0 ;;
  Write_MFRC522 CommandReg PCD_CALCCRC ;;
  CalulateCRC_wait (Nat.pred CalulateCRC_budget) ;;
  lo <- Read_MFRC522 CRCResultRegL ;;
  let pIndata := poke out lo pIndata in
  hi <- Read_MFRC522 CRCResultRegH ;;
  ret (poke (S out) hi pIndata).

(** ** Select, authenticate, block read and write, halt *)

Definition MFRC522_SelectTag (serNum : list Z) : M Z :=
  recvBits <- uninitialised ;;
  buffer <- uninitialised_array 9 ;;
  let buffer := poke 0 (uchar PICC_SElECTTAG) buffer in
  let buffer := poke 1 0x70 buffer in
  let buffer := copy_bytes 5 2 serNum buffer in
  buffer <- CalulateCRC buffer 7 7 ;;
  ' (status, buffer, recvBits) <-
      MFRC522_ToCard PCD_TRANSCEIVE buffer 9 buffer recvBits ;;
  ret (if (status =? MI_OK) && (recvBits =? 0x18) then peek buffer 0 else 0).

Definition MFRC522_Auth (authMode BlockAddr : Z) (Sectorkey serNum : list Z)
  : M Z :=
  recvBits <- uninitialised ;;
  buff <- uninitialised_array 12 ;;
  let buff := poke 0 (uchar authMode) buff in
  let buff := poke 1 (uchar BlockAddr) buff in
  let buff := copy_bytes 6 2 Sectorkey buff in
  let buff := copy_bytes 4 8 serNum buff in
  ' (status, buff, recvBits) <-
      MFRC522_ToCard PCD_AUTHENT buff 12 buff recvBits ;;
  if negb (status =? MI_OK) then ret MI_ERR
  else
    s2 <- Read_MFRC522 Status2Reg ;;
    if negb (truthy (Z.land s2 0x08)) then ret MI_ERR else ret status.

Definition MFRC522_Read (blockAddr : Z) (recvData : list Z) : M (Z * list Z) :=
  unLen <- uninitialised ;;
  let recvData := poke 0 (uchar PICC_READ) recvData in
  let recvData := poke 1 (uchar blockAddr) recvData in
  recvData <- CalulateCRC recvData 2 2 ;;
  ' (status, recvData, unLen) <-
      MFRC522_ToCard PCD_TRANSCEIVE recvData 4 recvData unLen ;;
  let status :=
    if negb (status =? MI_OK) || negb (unLen =? 0x90) then MI_ERR else status in
  ret (status, recvData).

(** The acknowledge test of both phases of [MFRC522_Write]:
    [(status != MI_OK) || (recvBits != 4) || ((buff[0] & 0x0F) != 0x0A)]. *)
Definition Write_nack (status recvBits : Z) (buff : list Z) : bool :=
  negb (status =? MI_OK) || negb (recvBits =? 4)
  || negb (Z.land (peek buff 0) 0x0F =? 0x0A).

Definition MFRC522_Write (blockAddr : Z) (writeData : list Z) : M Z :=
  recvBits <- uninitialised ;;
  buff <- uninitialised_array 18 ;;
  let buff := poke 0 (uchar PICC_WRITE) buff in
  let buff := poke 1 (uchar blockAddr) buff in
  buff <- CalulateCRC buff 2 2 ;;
  ' (status, buff, recvBits) <-
      MFRC522_ToCard PCD_TRANSCEIVE buff 4 buff recvBits ;;
  let status := if Write_nack status recvBits buff then MI_ERR else status in
  if status =? MI_OK then
    let buff := copy_bytes 16 0 writeData buff in
    buff <- CalulateCRC buff 16 16 ;;
    ' (status, buff, recvBits) <-
        MFRC522_ToCard PCD_TRANSCEIVE buff 18 buff recvBits ;;
    ret (if Write_nack status recvBits buff then MI_ERR else status)
  else ret status.

Definition MFRC522_Halt : M unit :=
  unLen <- uninitialised ;;
  buff <- uninitialised_array 4 ;;
  let buff := poke 0 (uchar PICC_HALT) buff in
  let buff := poke 1 0 buff in
  buff <- CalulateCRC buff 2 2 ;;
  MFRC522_ToCard PCD_TRANSCEIVE buff 4 buff unLen ;;
  ret tt.

End Block_access.

(** ** The display task ([oled_rtos_task.c]) *)

(** One pass of the body of [while (1)] in [OLED_Display_Task]: the calls it
    makes on the display and the LED, or [None] while it is suspended in
    [osMessageQueueGet(..., osWaitForever)]. *)
Definition OLED_Display_pass : M (option (list oled_call)) :=
  got <- osMessageQueueGet ;;
  match got with
  | None => ret None
  | Some rc522_data =>
      let shown :=
        if status rc522_data =? RC522_STATUS_SUCCESS then
          [u8g2_DrawStr 0 28
             (Txt_tag (peek (uid rc522_data) 0) (peek (uid rc522_data) 1)
                      (peek (uid rc522_data) 2) (peek (uid rc522_data) 3));
           u8g2_DrawStr 0 46 Txt_success;
           LED_PB14 true]
        else
          [u8g2_DrawStr 0 28 Txt_not_detected;
           u8g2_DrawStr 0 46 Txt_unsuccessful;
           LED_PB14 false] in
      osDelay 100 ;;
      ret (Some (u8g2_ClearBuffer :: shown
                 ++ [u8g2_DrawStr 0 10 Txt_project_name; u8g2_SendBuffer]))
  end.

(** [OLED_Display_Task] for up to [passes] passes of its loop, stopping where
    it stays suspended: the calls of each pass made, oldest first. *)
Fixpoint OLED_Display_Task_loop (passes : nat) : M (list (list oled_call)) :=
  match passes with
  | O => ret []
  | S p =>
      got <- OLED_Display_pass ;;
      match got with
      | None => ret []
      | Some calls =>
          rest <- OLED_Display_Task_loop p ;;
          ret (calls :: rest)
      end
  end.

(** * Vocabulary of the statements *)

(** ** Bus frames

    [reply w k] is the byte received in the k-th transfer made from [w] on.
    A register access is one frame of four events: chip-select low, the
    address byte, the data byte, chip-select high. *)

Definition reply (w : world) (k : nat) : Z := uchar (miso w (k + ticks w)%nat).

Definition write_address (addr : Z) : Z := Z.land (Z.shiftl addr 1) 0x7E.
Definition read_address (addr : Z) : Z :=
  Z.lor (Z.land (Z.shiftl addr 1) 0x7E) 0x80.

(** The frame of [Write_MFRC522(addr, val)] whose first transfer is the k-th
    after [w]. *)
Definition write_frame (addr val : Z) (w : world) (k : nat) : list event :=
  [CS false; SPI (uchar (write_address (uchar addr))) (reply w k);
   SPI (uchar val) (reply w (S k)); CS true].

(** The frame of [Read_MFRC522(addr)]; the value read is [reply w (S k)]. *)
Definition read_frame (addr : Z) (w : world) (k : nat) : list event :=
  [CS false; SPI (uchar (read_address (uchar addr))) (reply w k);
   SPI 0 (reply w (S k)); CS true].

(** [since w w' evs]: going from [w] to [w'] added exactly the events [evs],
    oldest first. *)
Definition since (w w' : world) (evs : list event) : Prop :=
  trace w' = rev evs ++ trace w.

(** [advance w k evs] is [w] after [k] more transfers that added the events
    [evs] (newest first). *)
Definition advance (w : world) (k : nat) (evs : list event) : world :=
  World (miso w) (k + ticks w) (evs ++ trace w) (garbage w)
        (display_rc522_info_queue w).

(** The value of [CommIrqReg] that pass [k] (from 0) of a wait loop entered
    in [w] reads. *)
Definition irq_sample (w : world) (k : nat) : Z := reply w (1 + 2 * k).

(** A buffer that holds [uchar] values. *)
Definition bytes (buf : list Z) : Prop := Forall (fun b => 0 <= b <= 255) buf.

(** ** What a piece of code leaves alone

    [only P w w']: from [w] to [w'] the oracle, the uninitialised storage and
    the queue are the same, no transfer was undone, and every event added
    satisfies [P].  [keeps P m]: running [m] is such a step from any world. *)

Definition bus_event (e : event) : Prop :=
  match e with
  | CS _ | SPI _ _ => True
  | _ => False
  end.

(** Events that do not touch the queue and do not suspend the task. *)
Definition quiet_event (e : event) : Prop :=
  match e with
  | Put _ _ _ | Blocked _ | Delay _ => False
  | _ => True
  end.

Record only (P : event -> Prop) (w w' : world) : Prop := {
  only_miso : miso w' = miso w;
  only_garbage : garbage w' = garbage w;
  only_queue : display_rc522_info_queue w' = display_rc522_info_queue w;
  only_ticks : (ticks w <= ticks w')%nat;
  only_trace : exists evs, trace w' = evs ++ trace w /\ Forall P evs
}.

Definition keeps (P : event -> Prop) {A} (m : M A) : Prop :=
  forall w, only P w (exec m w).

(** ** The channel *)

(** [offered w w' r]: between [w] and [w'] the task made one attempt to put a
    message, the record [r] with priority 0 and timeout 0, went into its
    2000 ms delay right after it, and before that did nothing to the queue
    and never waited. *)
Definition offered (w w' : world) (r : RC522_Data_t) : Prop :=
  exists st evs,
    trace w' = Delay 2000 :: Put r 0 st :: evs ++ trace w
    /\ Forall quiet_event evs.

(** What the data model allows on the channel. *)
Definition record_ok (r : RC522_Data_t) : Prop :=
  (status r = RC522_STATUS_SUCCESS /\ uid_length r = 4)
  \/ (status r = RC522_STATUS_UNSUCCESSFUL /\ uid_length r = 0).

Definition published (w : world) : list RC522_Data_t :=
  pending (display_rc522_info_queue w).

(** ** Concrete chips and worlds *)

(** The world at power-on, with the queue created and empty. *)
Definition power_on (chip : nat -> Z) : world :=
  World chip 0 [] 0 (osMessageQueueNew RC522_QUEUE_SIZE).

(** A bus on which nothing ever answers: every reply is [0x00]. *)
Definition silent : nat -> Z := fun _ => 0.

(** A chip that answers as scripted: [(k, v)] makes it drive [v] in transfer
    [k]; every transfer not listed gets [0x00]. *)
Fixpoint answers (script : list (Z * Z)) (k : nat) : Z :=
  match script with
  | [] => 0
  | (j, v) :: rest => if Z.of_nat k =? j then v else answers rest k
  end.

(** A card in the field, seen from power-on by one [RC522_Task_cycle]: the
    request completes (RxIRq) with 2 FIFO bytes [04 00], the anticollision
    completes with 5 FIFO bytes [12 34 56 78 08]. *)
Definition card_12345678 : nat -> Z :=
  answers [(23, 0x30); (31, 2); (35, 0x04); (37, 0x00);
           (63, 0x30); (71, 5); (75, 0x12); (77, 0x34); (79, 0x56);
           (81, 0x78); (83, 0x08)].

(** The same card with a corrupted checksum byte. *)
Definition card_bad_checksum : nat -> Z :=
  answers [(23, 0x30); (31, 2); (35, 0x04); (37, 0x00);
           (63, 0x30); (71, 5); (75, 0x12); (77, 0x34); (79, 0x56);
           (81, 0x78); (83, 0x09)].

(** A queue with its three slots taken. *)
Definition three_pending : osMessageQueue :=
  {| msg_count := RC522_QUEUE_SIZE;
     pending :=
       [ {| uid := [1; 2; 3; 4; 5; 0; 0; 0; 0; 0]; uid_length := 4;
            tagType := (4, 0); status := RC522_STATUS_SUCCESS |};
         {| uid := [0x93; 0x20; 0; 0; 0; 0; 0; 0; 0; 0]; uid_length := 0;
            tagType := (0x26, 0); status := RC522_STATUS_UNSUCCESSFUL |};
         {| uid := [9; 8; 7; 6; 0; 0; 0; 0; 0; 0]; uid_length := 4;
            tagType := (4, 0); status := RC522_STATUS_SUCCESS |} ] |}.

(** ** Phases and traffic of the driver *)

Section Vocabulary.

Context {hdr : RC522_h}.

(** The code of [MFRC522_ToCard] up to the test [if (i != 0)]: what it has
    in [i] and [n] there. *)
Definition ToCard_reach_collect (command : Z) (sendData : list Z) (sendLen : Z)
  : M (Z * Z) :=
  let cmd := uchar command in
  ToCard_issue cmd (fst (ToCard_irq cmd)) sendData (uchar sendLen) ;;
  r <- ToCard_wait (snd (ToCard_irq cmd)) (Nat.pred ToCard_budget) ;;
  ClearBitMask BitFramingReg 0x80 ;;
  ret r.

(** The number of bytes the receive loop of an exchange run from [w] stores,
    to [backData[0]], [backData[1]], ...: the FIFO level read after the wait
    loop, raised to 1 and cut to [MAX_LEN], when the command is
    [PCD_TRANSCEIVE], the loop left budget and [ErrorReg] shows no fault;
    none otherwise.  The exchange is not told how long the array behind
    [backData] is. *)
Definition ToCard_stores (command : Z) (sendData : list Z) (sendLen : Z)
    (w : world) : nat :=
  let reach := ToCard_reach_collect command sendData sendLen in
  let w1 := exec reach w in
  let w2 := exec (Read_MFRC522 ErrorReg) w1 in
  let n := eval (Read_MFRC522 FIFOLevelReg) w2 in
  if (uchar command =? PCD_TRANSCEIVE)
     && negb (fst (eval reach w) =? 0)
     && negb (truthy (Z.land (eval (Read_MFRC522 ErrorReg) w1) 0x1B))
  then
    let n := if n =? 0 then 1 else n in
    let n := if MAX_LEN <? n then uchar MAX_LEN else n in
    Z.to_nat n
  else 0%nat.

(** The stores of the exchange of [MFRC522_Request] run from [w] stay inside
    the array [TagType]; those of [MFRC522_Anticoll] inside [serNum].  A
    store past the end of the array is undefined in C and is not modelled:
    statements about what the caller finds afterwards are made for runs that
    fit. *)
Definition Request_fits (reqMode : Z) (TagType : list Z) (w : world) : Prop :=
  let frame := poke 0 (uchar reqMode) TagType in
  (ToCard_stores PCD_TRANSCEIVE frame 1
     (exec (Write_MFRC522 BitFramingReg 0x07) w)
   <= length TagType)%nat.

Definition Anticoll_fits (serNum : list Z) (w : world) : Prop :=
  let frame := poke 1 0x20 (poke 0 (uchar PICC_ANTICOLL) serNum) in
  (ToCard_stores PCD_TRANSCEIVE frame 2
     (exec (Write_MFRC522 BitFramingReg 0x00) w)
   <= length serNum)%nat.

(** The frames of [count] successive reads of the FIFO started in [w]. *)
Definition drain_frames (w : world) (count : nat) : list event :=
  flat_map (fun k => read_frame FIFODataReg w (2 * k)) (seq 0 count).

(** The frames of the FIFO load: bytes [i .. i + todo - 1] of [sendData]. *)
Fixpoint fill_frames (sendData : list Z) (todo i : nat) (w : world) (k : nat)
  : list event :=
  match todo with
  | O => []
  | S todo' =>
      write_frame FIFODataReg (peek sendData i) w k
      ++ fill_frames sendData todo' (S i) w (2 + k)
  end.

(** Everything [ToCard_issue] puts on the bus, starting at transfer [k]. *)
Definition issue_frames (command irqEn : Z) (sendData : list Z) (sendLen : nat)
    (w : world) (k : nat) : list event :=
  write_frame CommIEnReg (Z.lor irqEn 0x80) w k
  ++ read_frame CommIrqReg w (2 + k)
  ++ write_frame CommIrqReg (Z.land (reply w (3 + k)) (Z.lnot (uchar 0x80))) w (4 + k)
  ++ read_frame FIFOLevelReg w (6 + k)
  ++ write_frame FIFOLevelReg (Z.lor (reply w (7 + k)) (uchar 0x80)) w (8 + k)
  ++ write_frame CommandReg PCD_IDLE w (10 + k)
  ++ fill_frames sendData sendLen 0 w (12 + k)
  ++ write_frame CommandReg command w (2 * sendLen + (12 + k))
  ++ (if command =? PCD_TRANSCEIVE then
        read_frame BitFramingReg w (2 + (2 * sendLen + (12 + k)))
        ++ write_frame BitFramingReg
             (Z.lor (reply w (3 + (2 * sendLen + (12 + k)))) (uchar 0x80))
             w (4 + (2 * sendLen + (12 + k)))
      else []).

(** The bus traffic with which [MFRC522_Request] begins: the framing register
    is set to 7 bits, interrupts are armed and the FIFO flushed, the command
    is cancelled, the FIFO receives one byte, [reqMode], the transceive
    command is started and [StartSend] is set. *)
Definition Request_opening (reqMode : Z) (w : world) : list event :=
  write_frame BitFramingReg 0x07 w 0
  ++ write_frame CommIEnReg 0xF7 w 2
  ++ read_frame CommIrqReg w 4
  ++ write_frame CommIrqReg (Z.land (reply w 5) (Z.lnot 0x80)) w 6
  ++ read_frame FIFOLevelReg w 8
  ++ write_frame FIFOLevelReg (Z.lor (reply w 9) 0x80) w 10
  ++ write_frame CommandReg PCD_IDLE w 12
  ++ write_frame FIFODataReg reqMode w 14
  ++ write_frame CommandReg PCD_TRANSCEIVE w 16
  ++ read_frame BitFramingReg w 18
  ++ write_frame BitFramingReg (Z.lor (reply w 19) 0x80) w 20.

(** The same for [MFRC522_Anticoll]: full-byte framing and the two command
    bytes [PICC_ANTICOLL], [0x20] in the FIFO. *)
Definition Anticoll_opening (w : world) : list event :=
  write_frame BitFramingReg 0x00 w 0
  ++ write_frame CommIEnReg 0xF7 w 2
  ++ read_frame CommIrqReg w 4
  ++ write_frame CommIrqReg (Z.land (reply w 5) (Z.lnot 0x80)) w 6
  ++ read_frame FIFOLevelReg w 8
  ++ write_frame FIFOLevelReg (Z.lor (reply w 9) 0x80) w 10
  ++ write_frame CommandReg PCD_IDLE w 12
  ++ write_frame FIFODataReg PICC_ANTICOLL w 14
  ++ write_frame FIFODataReg 0x20 w 16
  ++ write_frame CommandReg PCD_TRANSCEIVE w 18
  ++ read_frame BitFramingReg w 20
  ++ write_frame BitFramingReg (Z.lor (reply w 21) 0x80) w 22.

(** The record a cycle builds from the outcomes of its two discovery steps. *)
Definition cycle_record (rq ac : Z * list Z) : RC522_Data_t :=
  let detected := (fst rq =? MI_OK) && (fst ac =? MI_OK) in
  {| uid := snd ac;
     uid_length := if detected then 4 else 0;
     tagType := (peek (snd rq) 0, peek (snd rq) 1);
     status := if detected then RC522_STATUS_SUCCESS
               else RC522_STATUS_UNSUCCESSFUL |}.

End Vocabulary.

Section Vocabulary_block.

Context {hdr : RC522_h} {blk : RC522_h_block}.

(** The frames [CalulateCRC] puts on the bus up to the start of the
    coprocessor, over the first [len] bytes of [pIndata]; the first transfer
    is the k-th after [w]. *)
Definition CalulateCRC_opening (pIndata : list Z) (len : nat) (w : world)
    (k : nat) : list event :=
  read_frame DivIrqReg w k
  ++ write_frame DivIrqReg (Z.land (reply w (1 + k)) (Z.lnot (uchar 0x04))) w (2 + k)
  ++ read_frame FIFOLevelReg w (4 + k)
  ++ write_frame FIFOLevelReg (Z.lor (reply w (5 + k)) (uchar 0x80)) w (6 + k)
  ++ fill_frames pIndata len 0 w (8 + k)
  ++ write_frame CommandReg PCD_CALCCRC w (2 * len + (8 + k)).

End Vocabulary_block.

(** ** Counting and bounding *)

Definition is_put (e : event) : bool :=
  match e with Put _ _ _ => true | _ => false end.

Definition is_delay_2000 (e : event) : bool :=
  match e with Delay ms => ms =? 2000 | _ => false end.

Definition is_blocked (e : event) : bool :=
  match e with Blocked _ => true | _ => false end.

Definition count_events (p : event -> bool) (evs : list event) : nat :=
  length (filter p evs).

(** The records of the put attempts among [evs], in the order of [evs]. *)
Definition put_records (evs : list event) : list RC522_Data_t :=
  flat_map (fun e => match e with Put r _ _ => [r] | _ => [] end) evs.

(** [within lo hi m]: whatever the chip answers, running [m] makes at least
    [lo] and at most [hi] SPI transfers. *)
Definition within (lo hi : nat) {A} (m : M A) : Prop :=
  forall w, (ticks w + lo <= ticks (exec m w) <= ticks w + hi)%nat.

(** A poll sample that shows the timer flag or one of the awaited flags. *)
Definition flagged (waitIRq n : Z) : Prop :=
  Z.land n 0x01 <> 0 \/ Z.land n waitIRq <> 0.

(** The LED level a display pass drives, if it drives one. *)
Definition led_level (calls : list oled_call) : option bool :=
  match filter (fun c => match c with LED_PB14 _ => true | _ => false end) calls with
  | [LED_PB14 level] => Some level
  | _ => None
  end.

(** The text a display pass draws on the line at height [y]. *)
Definition text_at (y : Z) (calls : list oled_call) : list oled_text :=
  flat_map (fun c => match c with
                     | u8g2_DrawStr _ y' t => if y' =? y then [t] else []
                     | _ => []
                     end) calls.

(** What one pass of the display task shows for a record. *)
Definition shows (r : RC522_Data_t) (calls : list oled_call) : Prop :=
  led_level calls = Some (status r =? RC522_STATUS_SUCCESS)
  /\ text_at 28 calls
     = [if status r =? RC522_STATUS_SUCCESS
        then Txt_tag (peek (uid r) 0) (peek (uid r) 1) (peek (uid r) 2)
                     (peek (uid r) 3)
        else Txt_not_detected]
  /\ text_at 46 calls
     = [if status r =? RC522_STATUS_SUCCESS then Txt_success
        else Txt_unsuccessful]
  /\ text_at 10 calls = [Txt_project_name].

(** * Properties *)

(** ** Integer facts *)

Lemma uchar_small (z : Z) : 0 <= z <= 255 -> uchar z = z.
Proof. intros Hz. unfold uchar. apply Z.mod_small. lia. Qed.

Lemma uchar_range (z : Z) : 0 <= uchar z <= 255.
Proof. unfold uchar. pose proof (Z.mod_pos_bound z 256). lia. Qed.

Lemma uchar_idem (z : Z) : uchar (uchar z) = uchar z.
Proof. apply uchar_small, uchar_range. Qed.

(** A mask never yields more than the mask. *)
Lemma land_mask_le (a m : Z) : 0 <= m -> 0 <= Z.land a m <= m.
Proof.
  intros Hm. split.
  - apply Z.land_nonneg. now right.
  - assert (Hd : Z.ldiff (Z.land a m) m = 0).
    { apply Z.bits_inj'. intros n Hn.
      rewrite Z.ldiff_spec, Z.land_spec, Z.bits_0.
      destruct (Z.testbit a n), (Z.testbit m n); reflexivity. }
    pose proof (Z.sub_nocarry_ldiff m (Z.land a m) Hd) as Hs.
    assert (0 <= Z.ldiff m (Z.land a m)) by (apply Z.ldiff_nonneg; now left).
    lia.
Qed.

Lemma lxor_byte (a b : Z) :
  0 <= a <= 255 -> 0 <= b <= 255 -> 0 <= Z.lxor a b <= 255.
Proof.
  intros Ha Hb.
  assert (Hnn : 0 <= Z.lxor a b) by (apply Z.lxor_nonneg; lia).
  split; [exact Hnn|].
  destruct (Z.eq_dec (Z.lxor a b) 0) as [->|Hne]; [lia|].
  assert (Hlog : forall x, 0 <= x <= 255 -> Z.log2 x < 8).
  { intros x Hx. destruct (Z.eq_dec x 0) as [->|Hx0]; [reflexivity|].
    apply Z.log2_lt_pow2; lia. }
  assert (Z.lxor a b < 2 ^ 8); [|lia].
  apply Z.log2_lt_pow2; [lia|].
  pose proof (Z.log2_lxor a b ltac:(lia) ltac:(lia)).
  pose proof (Hlog a Ha). pose proof (Hlog b Hb). lia.
Qed.

(** ** Buffers *)

Lemma length_poke (i : nat) (v : Z) (buf : list Z) :
  length (poke i v buf) = length buf.
Proof.
  revert i. induction buf as [|x tl IH]; intros [|i]; simpl; auto.
Qed.

Lemma peek_poke (i j : nat) (v : Z) (buf : list Z) :
  peek (poke i v buf) j
  = if ((j =? i) && (j <? length buf))%nat then v else peek buf j.
Proof.
  unfold peek. revert i j.
  induction buf as [|x tl IH]; intros [|i] [|j]; simpl; try reflexivity.
  - now rewrite Bool.andb_false_r.
  - rewrite IH. reflexivity.
Qed.

Lemma Forall_poke (P : Z -> Prop) (i : nat) (v : Z) (buf : list Z) :
  P v -> Forall P buf -> Forall P (poke i v buf).
Proof.
  intros Hv. revert i.
  induction buf as [|x tl IH]; intros [|i] HF; simpl; auto;
    inversion HF; subst; constructor; auto.
Qed.

(** ** Register accesses as frames *)

Lemma Write_MFRC522_eq (addr val : Z) (w : world) :
  Write_MFRC522 addr val w =
  (tt, World (miso w) (2 + ticks w) (rev (write_frame addr val w 0) ++ trace w)
             (garbage w) (display_rc522_info_queue w)).
Proof.
  unfold write_frame. rewrite <- (uchar_idem val). reflexivity.
Qed.

Lemma Read_MFRC522_eq (addr : Z) (w : world) :
  Read_MFRC522 addr w =
  (reply w 1,
   World (miso w) (2 + ticks w) (rev (read_frame addr w 0) ++ trace w)
         (garbage w) (display_rc522_info_queue w)).
Proof. reflexivity. Qed.

Lemma write_address_byte (a : Z) : uchar (write_address a) = write_address a.
Proof.
  apply uchar_small. unfold write_address.
  pose proof (land_mask_le (Z.shiftl a 1) 0x7E). lia.
Qed.

Lemma read_address_byte (a : Z) : uchar (read_address a) = read_address a.
Proof.
  apply uchar_small. unfold read_address.
  pose proof (land_mask_le (Z.shiftl a 1) 0x7E ltac:(lia)) as Hm.
  split.
  - apply Z.lor_nonneg. lia.
  - assert (Hlt : Z.lor (Z.land (Z.shiftl a 1) 126) 128 < 2 ^ 8); [|lia].
    destruct (Z.eq_dec (Z.lor (Z.land (Z.shiftl a 1) 126) 128) 0) as [->|Hne];
      [reflexivity|].
    apply Z.log2_lt_pow2.
    + assert (0 <= Z.lor (Z.land (Z.shiftl a 1) 126) 128)
        by (apply Z.lor_nonneg; lia). lia.
    + rewrite Z.log2_lor by lia.
      assert (Z.log2 (Z.land (Z.shiftl a 1) 126) < 8).
      { destruct (Z.eq_dec (Z.land (Z.shiftl a 1) 126) 0) as [->|Hz];
          [reflexivity|]. apply Z.log2_lt_pow2; lia. }
      change (Z.log2 128) with 7. lia.
Qed.

(** C6. For every register address [a] in [0, 0x3F], a register write puts
    the address byte [(a << 1) & 0x7E] on the bus followed by the value byte,
    and a register read puts [((a << 1) & 0x7E) | 0x80] on the bus followed by
    a [0x00] dummy byte (whose reply is the value read); both are bracketed
    by chip-select low and high. *)
Theorem C6_register_framing (a val : Z) (w : world) :
  0 <= a <= 0x3F ->
  since w (exec (Write_MFRC522 a val) w)
        [CS false;
         SPI (Z.land (Z.shiftl a 1) 0x7E) (reply w 0);
         SPI (uchar val) (reply w 1);
         CS true]
  /\ since w (exec (Read_MFRC522 a) w)
        [CS false;
         SPI (Z.lor (Z.land (Z.shiftl a 1) 0x7E) 0x80) (reply w 0);
         SPI 0x00 (reply w 1);
         CS true]
  /\ eval (Read_MFRC522 a) w = reply w 1.
Proof.
  intros Ha.
  assert (Hu : uchar a = a) by (apply uchar_small; lia).
  unfold since, exec, eval.
  rewrite Write_MFRC522_eq, Read_MFRC522_eq. cbn [fst snd trace].
  unfold write_frame, read_frame.
  rewrite Hu, write_address_byte, read_address_byte.
  repeat split.
Qed.

Lemma C6_register_framing_witness :
  since (World (fun _ => 0x5A) 0 [] 0 (osMessageQueueNew RC522_QUEUE_SIZE))
        (exec (Write_MFRC522 0x0D 0x07)
              (World (fun _ => 0x5A) 0 [] 0 (osMessageQueueNew RC522_QUEUE_SIZE)))
        [CS false; SPI 0x1A 0x5A; SPI 0x07 0x5A; CS true].
Proof.
  apply (C6_register_framing 0x0D 0x07
           (World (fun _ => 0x5A) 0 [] 0 (osMessageQueueNew RC522_QUEUE_SIZE))).
  lia.
Defined.

(** ** Running monadic code *)

Lemma run_bind {A B} (m : M A) (k : A -> M B) (w : world) :
  bind m k w = k (eval m w) (exec m w).
Proof. unfold bind, eval, exec. destruct (m w). reflexivity. Qed.

Lemma exec_bind {A B} (m : M A) (k : A -> M B) (w : world) :
  exec (bind m k) w = exec (k (eval m w)) (exec m w).
Proof. unfold exec at 1. rewrite run_bind. reflexivity. Qed.

Lemma eval_bind {A B} (m : M A) (k : A -> M B) (w : world) :
  eval (bind m k) w = eval (k (eval m w)) (exec m w).
Proof. unfold eval at 1. rewrite run_bind. reflexivity. Qed.

Lemma eval_of_run {A} (m : M A) (w w' : world) (a : A) :
  m w = (a, w') -> eval m w = a.
Proof. intros E. unfold eval. rewrite E. reflexivity. Qed.

Lemma exec_of_run {A} (m : M A) (w w' : world) (a : A) :
  m w = (a, w') -> exec m w = w'.
Proof. intros E. unfold exec. rewrite E. reflexivity. Qed.

Lemma eval_ret {A} (a : A) (w : world) : eval (ret a) w = a.
Proof. reflexivity. Qed.

Lemma exec_ret {A} (a : A) (w : world) : exec (ret a) w = w.
Proof. reflexivity. Qed.

(** ** What each piece of code leaves alone *)

Lemma only_refl (P : event -> Prop) (w : world) : only P w w.
Proof. split; try reflexivity. exists []. split; [reflexivity|constructor]. Qed.

Lemma only_trans (P : event -> Prop) (w1 w2 w3 : world) :
  only P w1 w2 -> only P w2 w3 -> only P w1 w3.
Proof.
  intros [m1 g1 q1 t1 (e1 & He1 & F1)] [m2 g2 q2 t2 (e2 & He2 & F2)].
  split.
  - congruence.
  - congruence.
  - congruence.
  - lia.
  - exists (e2 ++ e1). split.
    + rewrite He2, He1. apply app_assoc.
    + apply Forall_app. split; assumption.
Qed.

Lemma only_weaken (P Q : event -> Prop) (w w' : world) :
  (forall e, P e -> Q e) -> only P w w' -> only Q w w'.
Proof.
  intros HPQ [m1 g1 q1 t1 (e1 & He1 & F1)]. split; try assumption.
  exists e1. split; [assumption|]. eapply Forall_impl; eauto.
Qed.

Lemma bus_event_quiet (e : event) : bus_event e -> quiet_event e.
Proof. destruct e; simpl; tauto. Qed.

Lemma keeps_ret (P : event -> Prop) {A} (a : A) : keeps P (ret a).
Proof. intros w. apply only_refl. Qed.

Lemma keeps_bind (P : event -> Prop) {A B} (m : M A) (k : A -> M B) :
  keeps P m -> (forall a, keeps P (k a)) -> keeps P (bind m k).
Proof.
  intros Hm Hk w. rewrite exec_bind.
  eapply only_trans; [apply Hm | apply Hk].
Qed.

Lemma keeps_run (P : event -> Prop) {A} (m : M A) (w w' : world) (a : A) :
  keeps P m -> m w = (a, w') -> only P w w'.
Proof.
  intros K E. specialize (K w). unfold exec in K. rewrite E in K. exact K.
Qed.

Lemma keeps_weaken (P Q : event -> Prop) {A} (m : M A) :
  (forall e, P e -> Q e) -> keeps P m -> keeps Q m.
Proof. intros HPQ Hm w. eapply only_weaken; eauto. Qed.

Lemma keeps_emit (P : event -> Prop) (e : event) : P e -> keeps P (emit e).
Proof.
  intros He w. split; try reflexivity.
  exists [e]. split; [reflexivity|]. constructor; [assumption|constructor].
Qed.

Lemma keeps_uninitialised (P : event -> Prop) : keeps P uninitialised.
Proof. intros w. apply only_refl. Qed.

Lemma keeps_Write_MFRC522 (addr val : Z) : keeps bus_event (Write_MFRC522 addr val).
Proof.
  intros w. unfold exec. rewrite Write_MFRC522_eq. split; try reflexivity.
  - simpl. lia.
  - exists (rev (write_frame addr val w 0)). split; [reflexivity|].
    simpl. repeat constructor.
Qed.

Lemma keeps_Read_MFRC522 (addr : Z) : keeps bus_event (Read_MFRC522 addr).
Proof.
  intros w. unfold exec. rewrite Read_MFRC522_eq. split; try reflexivity.
  - simpl. lia.
  - exists (rev (read_frame addr w 0)). split; [reflexivity|].
    simpl. repeat constructor.
Qed.

Lemma keeps_SetBitMask (reg mask : Z) : keeps bus_event (SetBitMask reg mask).
Proof.
  apply keeps_bind; [apply keeps_Read_MFRC522|].
  intros tmp. apply keeps_Write_MFRC522.
Qed.

Lemma keeps_ClearBitMask (reg mask : Z) : keeps bus_event (ClearBitMask reg mask).
Proof.
  apply keeps_bind; [apply keeps_Read_MFRC522|].
  intros tmp. apply keeps_Write_MFRC522.
Qed.

Create HintDb keeps.
#[export] Hint Resolve keeps_ret keeps_uninitialised keeps_Write_MFRC522
  keeps_Read_MFRC522 keeps_SetBitMask keeps_ClearBitMask : keeps.

Ltac keeps_step :=
  repeat first
    [ solve [auto with keeps]
    | match goal with |- keeps _ (bind _ _) => apply keeps_bind; [|intros ?] end
    | match goal with |- keeps _ (match ?x with _ => _ end) => destruct x end
    | match goal with |- keeps _ (if ?b then _ else _) => destruct b end ].

Section Driver_facts.

Context {hdr : RC522_h}.

Lemma keeps_ToCard_fill (sendData : list Z) (todo i : nat) :
  keeps bus_event (ToCard_fill sendData todo i).
Proof.
  revert i. induction todo as [|todo IH]; intros i; cbn [ToCard_fill].
  - apply keeps_ret.
  - apply keeps_bind; [apply keeps_Write_MFRC522|]. intros _. apply IH.
Qed.

Lemma keeps_ToCard_wait (waitIRq : Z) (i : nat) :
  keeps bus_event (ToCard_wait waitIRq i).
Proof.
  induction i as [|i IH]; cbn [ToCard_wait].
  - apply keeps_bind; [apply keeps_Read_MFRC522|]. intros n. apply keeps_ret.
  - apply keeps_bind; [apply keeps_Read_MFRC522|]. intros n.
    destruct (_ && _); [apply IH | apply keeps_ret].
Qed.

Lemma keeps_ToCard_drain (todo i : nat) (backData : list Z) :
  keeps bus_event (ToCard_drain todo i backData).
Proof.
  revert i backData.
  induction todo as [|todo IH]; intros i backData; cbn [ToCard_drain].
  - apply keeps_ret.
  - apply keeps_bind; [apply keeps_Read_MFRC522|]. intros v. apply IH.
Qed.

Hint Resolve keeps_ToCard_fill keeps_ToCard_wait keeps_ToCard_drain : keeps.

Lemma keeps_ToCard_issue (command irqEn : Z) (sendData : list Z) (sendLen : Z) :
  keeps bus_event (ToCard_issue command irqEn sendData sendLen).
Proof. unfold ToCard_issue. keeps_step. Qed.

Lemma keeps_ToCard_collect (command irqEn i n : Z) (backData : list Z)
    (backLen : Z) :
  keeps bus_event (ToCard_collect command irqEn i n backData backLen).
Proof. unfold ToCard_collect. keeps_step. Qed.

Hint Resolve keeps_ToCard_issue keeps_ToCard_collect : keeps.

Lemma keeps_MFRC522_ToCard (command : Z) (sendData : list Z) (sendLen : Z)
    (backData : list Z) (backLen : Z) :
  keeps bus_event (MFRC522_ToCard command sendData sendLen backData backLen).
Proof. unfold MFRC522_ToCard. keeps_step. Qed.

Hint Resolve keeps_MFRC522_ToCard : keeps.

Lemma keeps_MFRC522_Request (reqMode : Z) (TagType : list Z) :
  keeps bus_event (MFRC522_Request reqMode TagType).
Proof. unfold MFRC522_Request. keeps_step. Qed.

Lemma keeps_MFRC522_Anticoll (serNum : list Z) :
  keeps bus_event (MFRC522_Anticoll serNum).
Proof. unfold MFRC522_Anticoll. keeps_step. Qed.

Hint Resolve keeps_MFRC522_Request keeps_MFRC522_Anticoll : keeps.

(** ** The exchange, phase by phase *)

Lemma MFRC522_ToCard_eq (command : Z) (sendData : list Z) (sendLen : Z)
    (backData : list Z) (backLen : Z) (w : world) :
  MFRC522_ToCard command sendData sendLen backData backLen w =
  ToCard_collect (uchar command) (fst (ToCard_irq (uchar command)))
    (fst (eval (ToCard_reach_collect command sendData sendLen) w))
    (snd (eval (ToCard_reach_collect command sendData sendLen) w))
    backData backLen
    (exec (ToCard_reach_collect command sendData sendLen) w).
Proof.
  unfold MFRC522_ToCard, ToCard_reach_collect.
  generalize (Nat.pred ToCard_budget) as b. intros b.
  destruct (ToCard_irq (uchar command)) as [irqEn waitIRq]. cbn [fst snd].
  rewrite run_bind. rewrite eval_bind, exec_bind.
  set (w1 := exec (ToCard_issue _ _ _ _) w).
  rewrite run_bind. rewrite eval_bind, exec_bind.
  destruct (eval (ToCard_wait waitIRq b) w1) as [i n] eqn:E.
  rewrite run_bind. rewrite eval_bind, exec_bind.
  rewrite !eval_ret, !exec_ret. reflexivity.
Qed.

Lemma eval_MFRC522_ToCard (command : Z) (sendData : list Z) (sendLen : Z)
    (backData : list Z) (backLen : Z) (w : world) :
  eval (MFRC522_ToCard command sendData sendLen backData backLen) w =
  eval (ToCard_collect (uchar command) (fst (ToCard_irq (uchar command)))
          (fst (eval (ToCard_reach_collect command sendData sendLen) w))
          (snd (eval (ToCard_reach_collect command sendData sendLen) w))
          backData backLen)
       (exec (ToCard_reach_collect command sendData sendLen) w).
Proof. unfold eval at 1. rewrite MFRC522_ToCard_eq. unfold eval. reflexivity. Qed.

Lemma exec_MFRC522_ToCard (command : Z) (sendData : list Z) (sendLen : Z)
    (backData : list Z) (backLen : Z) (w : world) :
  exec (MFRC522_ToCard command sendData sendLen backData backLen) w =
  exec (ToCard_collect (uchar command) (fst (ToCard_irq (uchar command)))
          (fst (eval (ToCard_reach_collect command sendData sendLen) w))
          (snd (eval (ToCard_reach_collect command sendData sendLen) w))
          backData backLen)
       (exec (ToCard_reach_collect command sendData sendLen) w).
Proof. unfold exec at 1. rewrite MFRC522_ToCard_eq. unfold exec. reflexivity. Qed.

Lemma irq_sample_after_read (addr : Z) (w : world) (k : nat) :
  irq_sample (exec (Read_MFRC522 addr) w) k = irq_sample w (S k).
Proof.
  unfold exec. rewrite Read_MFRC522_eq. unfold irq_sample, reply. cbn [snd miso ticks].
  do 2 f_equal. lia.
Qed.

(** A wait loop that never sees the timer flag or an awaited flag runs to the
    end of its budget and leaves with [i == 0]. *)
Lemma ToCard_wait_exhausted (waitIRq : Z) (i : nat) (w : world) :
  (forall k, (k <= i)%nat ->
     Z.land (irq_sample w k) 0x01 = 0 /\ Z.land (irq_sample w k) waitIRq = 0) ->
  eval (ToCard_wait waitIRq i) w = (0, irq_sample w i)
  /\ ticks (exec (ToCard_wait waitIRq i) w) = (2 * S i + ticks w)%nat.
Proof.
  revert w. induction i as [|i IH]; intros w Hflags; cbn [ToCard_wait].
  - rewrite eval_bind, exec_bind. unfold eval at 1 2, exec at 1 2.
    rewrite Read_MFRC522_eq. split; reflexivity.
  - rewrite eval_bind, exec_bind.
    replace (eval (Read_MFRC522 CommIrqReg) w) with (irq_sample w 0)
      by (unfold eval; rewrite Read_MFRC522_eq; reflexivity).
    destruct (Hflags 0%nat ltac:(lia)) as [H1 H2].
    unfold truthy. rewrite H1, H2. cbn [Z.eqb negb andb].
    destruct (IH (exec (Read_MFRC522 CommIrqReg) w)) as [He Ht].
    + intros k Hk. rewrite irq_sample_after_read. apply Hflags. lia.
    + rewrite He, Ht. rewrite irq_sample_after_read. split; [reflexivity|].
      unfold exec. rewrite Read_MFRC522_eq. cbn [snd ticks]. lia.
Qed.

Lemma ticks_ClearBitMask (reg mask : Z) (w : world) :
  ticks (exec (ClearBitMask reg mask) w) = (4 + ticks w)%nat.
Proof.
  unfold ClearBitMask. rewrite exec_bind. unfold exec.
  rewrite Write_MFRC522_eq, Read_MFRC522_eq. reflexivity.
Qed.

Lemma ToCard_collect_exhausted (command irqEn n : Z) (backData : list Z)
    (backLen : Z) (w : world) :
  ToCard_collect command irqEn 0 n backData backLen w = (MI_ERR, backData, backLen, w).
Proof. reflexivity. Qed.

Lemma ToCard_collect_hw_error (command irqEn i n : Z) (backData : list Z)
    (backLen : Z) (w : world) :
  Z.land (eval (Read_MFRC522 ErrorReg) w) 0x1B <> 0 ->
  eval (ToCard_collect command irqEn i n backData backLen) w
  = (MI_ERR, backData, backLen).
Proof.
  intros Herr. unfold ToCard_collect.
  destruct (negb (i =? 0)); [|reflexivity].
  rewrite eval_bind. unfold truthy.
  apply Z.eqb_neq in Herr. rewrite Herr. reflexivity.
Qed.

(** C3. Whatever the command and its input, when none of the 2000 passes of
    the wait loop sees the timer flag or an awaited completion flag, the
    exchange makes exactly 2000 reads of the interrupt register and returns
    [MI_ERR], which is not [MI_OK]; buffer and bit count are as the caller
    passed them, which is exactly the result of the error-status path, so a
    caller cannot tell the two apart. *)
Theorem C3_budget_exhausted (command : Z) (sendData : list Z) (sendLen : Z)
    (backData : list Z) (backLen : Z) (w : world) :
  header_ok ->
  let cmd := uchar command in
  let irqEn := fst (ToCard_irq cmd) in
  let waitIRq := snd (ToCard_irq cmd) in
  let w1 := exec (ToCard_issue cmd irqEn sendData (uchar sendLen)) w in
  (forall k, (k < ToCard_budget)%nat ->
     Z.land (irq_sample w1 k) 0x01 = 0 /\ Z.land (irq_sample w1 k) waitIRq = 0) ->
  let r := eval (MFRC522_ToCard command sendData sendLen backData backLen) w in
  let w' := exec (MFRC522_ToCard command sendData sendLen backData backLen) w in
  r = (MI_ERR, backData, backLen)
  /\ MI_ERR <> MI_OK
  /\ ticks w' = (4 + 2 * ToCard_budget + ticks w1)%nat
  /\ (forall i n w2,
        Z.land (eval (Read_MFRC522 ErrorReg) w2) 0x1B <> 0 ->
        eval (ToCard_collect cmd irqEn i n backData backLen) w2 = r).
Proof.
  intros Hok cmd irqEn waitIRq w1 Hflags r w'.
  assert (Hreach : eval (ToCard_reach_collect command sendData sendLen) w
                   = (0, irq_sample w1 (Nat.pred ToCard_budget))
               /\ ticks (exec (ToCard_reach_collect command sendData sendLen) w)
                  = (4 + 2 * ToCard_budget + ticks w1)%nat).
  { unfold ToCard_reach_collect. fold cmd. fold irqEn. fold waitIRq.
    rewrite !eval_bind, !exec_bind. fold w1.
    assert (Hb : ToCard_budget = S (Nat.pred ToCard_budget)) by reflexivity.
    set (b := Nat.pred ToCard_budget) in *. clearbody b. rewrite Hb in *.
    destruct (ToCard_wait_exhausted waitIRq b w1) as [He Ht].
    { intros k Hk. apply Hflags. lia. }
    rewrite He. split; [reflexivity|].
    unfold exec at 1. cbn [ret snd].
    rewrite ticks_ClearBitMask, Ht. lia. }
  destruct Hreach as [He Ht].
  assert (Hr : r = (MI_ERR, backData, backLen)).
  { subst r. rewrite eval_MFRC522_ToCard, He. cbn [fst snd].
    unfold eval. rewrite ToCard_collect_exhausted. reflexivity. }
  assert (Hw : w' = exec (ToCard_reach_collect command sendData sendLen) w).
  { subst w'. rewrite exec_MFRC522_ToCard, He. cbn [fst snd].
    unfold exec at 1. rewrite ToCard_collect_exhausted. reflexivity. }
  rewrite Hr, Hw.
  split; [reflexivity|]. split; [intro E; apply (ok_ne_err Hok); auto|].
  split; [exact Ht|].
  intros i n w2 Herr. now apply ToCard_collect_hw_error.
Qed.

Lemma reply_after_read (addr : Z) (w : world) (k : nat) :
  reply (exec (Read_MFRC522 addr) w) k = reply w (2 + k).
Proof.
  unfold exec. rewrite Read_MFRC522_eq. unfold reply. cbn [snd miso ticks].
  do 2 f_equal. lia.
Qed.

Lemma read_frame_after_read (a addr : Z) (w : world) (k : nat) :
  read_frame a (exec (Read_MFRC522 addr) w) k = read_frame a w (2 + k).
Proof.
  unfold read_frame. rewrite !reply_after_read. reflexivity.
Qed.

Lemma drain_frames_S (w : world) (count : nat) :
  drain_frames w (S count)
  = read_frame FIFODataReg w 0
    ++ drain_frames (exec (Read_MFRC522 FIFODataReg) w) count.
Proof.
  unfold drain_frames. cbn [seq flat_map]. f_equal.
  rewrite <- seq_shift. rewrite flat_map_concat_map, map_map.
  rewrite flat_map_concat_map. f_equal. apply map_ext. intros k.
  rewrite read_frame_after_read. f_equal. lia.
Qed.

(** The drain loop: [todo] reads of [FIFODataReg], nothing else on the bus,
    and byte [i + k] of the buffer receives the value of read [k]. *)
Lemma ToCard_drain_spec (todo : nat) :
  forall (i : nat) (backData : list Z) (w : world),
    let buf := eval (ToCard_drain todo i backData) w in
    let w' := exec (ToCard_drain todo i backData) w in
    since w w' (drain_frames w todo)
    /\ ticks w' = (2 * todo + ticks w)%nat
    /\ length buf = length backData
    /\ (forall j,
          peek buf j
          = if ((i <=? j) && (j <? i + todo) && (j <? length backData))%nat
            then reply w (1 + 2 * (j - i))
            else peek backData j).
Proof.
  induction todo as [|todo IH]; intros i backData w; cbn [ToCard_drain].
  - cbn zeta. unfold since, eval, exec, ret. cbn [fst snd drain_frames].
    repeat split.
    intros j.
    replace (j <? i + 0)%nat with (j <? i)%nat by (f_equal; lia).
    destruct (Nat.leb_spec i j), (Nat.ltb_spec j i); try lia; reflexivity.
  - cbn zeta. rewrite eval_bind, exec_bind.
    set (w1 := exec (Read_MFRC522 FIFODataReg) w).
    replace (eval (Read_MFRC522 FIFODataReg) w) with (reply w 1)
      by (unfold eval; rewrite Read_MFRC522_eq; reflexivity).
    destruct (IH (S i) (poke i (reply w 1) backData) w1)
      as (Htr & Htk & Hlen & Hpeek).
    split; [|split; [|split]].
    + unfold since in *. rewrite Htr. rewrite drain_frames_S. fold w1.
      rewrite rev_app_distr, <- app_assoc. f_equal.
    + rewrite Htk. subst w1. unfold exec at 1. rewrite Read_MFRC522_eq.
      cbn [snd ticks]. lia.
    + rewrite Hlen. apply length_poke.
    + intros j. rewrite Hpeek. rewrite length_poke, peek_poke.
      subst w1. rewrite reply_after_read.
      destruct (Nat.leb_spec (S i) j), (Nat.leb_spec i j),
        (Nat.ltb_spec j (S i + todo)), (Nat.ltb_spec j (i + S todo)),
        (Nat.ltb_spec j (length backData)), (Nat.eqb_spec j i);
        cbn [andb]; try lia; try reflexivity.
      * f_equal. lia.
      * subst j. rewrite Nat.sub_diag. reflexivity.
Qed.

Lemma ToCard_irq_transceive :
  header_ok -> ToCard_irq PCD_TRANSCEIVE = (0x77, 0x30).
Proof.
  intros Hok. unfold ToCard_irq.
  destruct (Z.eqb_spec PCD_TRANSCEIVE PCD_AUTHENT) as [E|_].
  - exfalso. apply (authent_ne_transceive Hok). now symmetry.
  - now rewrite Z.eqb_refl.
Qed.

(** Status of the part after the loop when the budget was not used up and
    [ErrorReg] shows none of the fault bits. *)
Lemma ToCard_collect_status (command irqEn i n : Z) (backData : list Z)
    (backLen : Z) (w : world) :
  i <> 0 ->
  Z.land (eval (Read_MFRC522 ErrorReg) w) 0x1B = 0 ->
  fst (fst (eval (ToCard_collect command irqEn i n backData backLen) w))
  = if truthy (Z.land (Z.land n irqEn) 0x01) then MI_NOTAGERR else MI_OK.
Proof.
  intros Hi Herr. unfold ToCard_collect.
  apply Z.eqb_neq in Hi. rewrite Hi. cbn [negb].
  rewrite eval_bind. unfold truthy at 1. rewrite Herr. cbn [Z.eqb negb].
  destruct (command =? PCD_TRANSCEIVE).
  - rewrite !eval_bind. reflexivity.
  - reflexivity.
Qed.

(** C4, as the code has it. When the wait loop is left with budget remaining
    and the timer flag set, and [ErrorReg] shows no fault bit, the exchange
    returns [MI_NOTAGERR] for [PCD_TRANSCEIVE]; for every other command word
    ([PCD_AUTHENT] included, whose [irqEn = 0x12] leaves the timer interrupt
    out) it returns [MI_OK]. *)
Theorem C4_timer_expiry (command : Z) (sendData : list Z) (sendLen : Z)
    (backData : list Z) (backLen : Z) (w : world) :
  header_ok ->
  let i := fst (eval (ToCard_reach_collect command sendData sendLen) w) in
  let n := snd (eval (ToCard_reach_collect command sendData sendLen) w) in
  let w1 := exec (ToCard_reach_collect command sendData sendLen) w in
  i <> 0 ->
  Z.land n 0x01 <> 0 ->
  Z.land (eval (Read_MFRC522 ErrorReg) w1) 0x1B = 0 ->
  fst (fst (eval (MFRC522_ToCard command sendData sendLen backData backLen) w))
  = if uchar command =? PCD_TRANSCEIVE then MI_NOTAGERR else MI_OK.
Proof.
  intros Hok i n w1 Hi Hn Herr.
  rewrite eval_MFRC522_ToCard. fold i. fold n. fold w1.
  rewrite ToCard_collect_status by assumption.
  unfold ToCard_irq.
  destruct (Z.eqb_spec (uchar command) PCD_AUTHENT) as [Ea|Ea].
  - destruct (Z.eqb_spec (uchar command) PCD_TRANSCEIVE) as [Et|Et].
    + exfalso. apply (authent_ne_transceive Hok). congruence.
    + cbn [fst]. rewrite <- Z.land_assoc.
      change (Z.land 18 1) with 0. rewrite Z.land_0_r. reflexivity.
  - destruct (Z.eqb_spec (uchar command) PCD_TRANSCEIVE) as [Et|Et].
    + cbn [fst]. rewrite <- Z.land_assoc. change (Z.land 119 1) with 1.
      unfold truthy. apply Z.eqb_neq in Hn. rewrite Hn. reflexivity.
    + cbn [fst]. rewrite Z.land_0_r. reflexivity.
Qed.

(** What the part after the loop returns depends on the entry content of the
    bit count only in the bit count itself, and only where it is handed back
    unchanged: with [MI_ERR], or for a command other than [PCD_TRANSCEIVE]. *)
Lemma ToCard_collect_backLen (command irqEn i n : Z) (backData : list Z)
    (bl1 bl2 : Z) (w : world) :
  let r1 := ToCard_collect command irqEn i n backData bl1 w in
  let r2 := ToCard_collect command irqEn i n backData bl2 w in
  fst (fst (fst r1)) = fst (fst (fst r2))
  /\ snd (fst (fst r1)) = snd (fst (fst r2))
  /\ snd r1 = snd r2
  /\ (snd (fst r1) = snd (fst r2)
      \/ (snd (fst r1) = bl1 /\ snd (fst r2) = bl2
          /\ (fst (fst (fst r1)) = MI_ERR \/ command <> PCD_TRANSCEIVE))).
Proof.
  cbv zeta. unfold ToCard_collect.
  destruct (negb (i =? 0)).
  - rewrite !run_bind.
    destruct (negb (truthy (Z.land (eval (Read_MFRC522 ErrorReg) w) 27))).
    + destruct (Z.eqb_spec command PCD_TRANSCEIVE) as [Ec|Ec].
      * rewrite !run_bind. unfold ret. cbn [fst snd]. auto.
      * unfold ret. cbn [fst snd]. repeat split; auto.
    + unfold ret. cbn [fst snd]. repeat split; auto.
  - unfold ret. cbn [fst snd]. repeat split; auto.
Qed.

(** C10. The exchange stores to the caller's bit count only when the command
    is [PCD_TRANSCEIVE], the wait loop was left with budget remaining and
    [ErrorReg] shows no fault bit; in every other case the variable holds on
    return what it held on entry.  Status, data and bus traffic never depend
    on what the variable held, and after [MI_OK] for [PCD_TRANSCEIVE] neither
    does the bit count: that is when a caller may read it. *)
Theorem C10_bit_count_untouched (command : Z) (sendData : list Z) (sendLen : Z)
    (backData : list Z) (backLen : Z) (w : world) :
  header_ok ->
  let i := fst (eval (ToCard_reach_collect command sendData sendLen) w) in
  let w1 := exec (ToCard_reach_collect command sendData sendLen) w in
  let run := fun entry =>
    MFRC522_ToCard command sendData sendLen backData entry w in
  (~ (uchar command = PCD_TRANSCEIVE
      /\ i <> 0
      /\ Z.land (eval (Read_MFRC522 ErrorReg) w1) 0x1B = 0) ->
   snd (fst (run backLen)) = backLen)
  /\ (forall other,
        fst (fst (run other)) = fst (fst (run backLen))
        /\ snd (run other) = snd (run backLen))
  /\ (uchar command = PCD_TRANSCEIVE ->
      fst (fst (fst (run backLen))) = MI_OK ->
      forall other, snd (fst (run other)) = snd (fst (run backLen))).
Proof.
  intros Hok i w1 run.
  assert (Hrun : forall entry,
            run entry = ToCard_collect (uchar command)
                          (fst (ToCard_irq (uchar command))) i
                          (snd (eval (ToCard_reach_collect command sendData
                                        sendLen) w))
                          backData entry w1).
  { intros entry. subst run. cbv beta. apply MFRC522_ToCard_eq. }
  split; [|split].
  - intros Hpath. rewrite Hrun. unfold ToCard_collect.
    destruct (Z.eqb_spec i 0) as [Hi|Hi]; cbn [negb]; [reflexivity|].
    rewrite run_bind.
    destruct (Z.eqb_spec (Z.land (eval (Read_MFRC522 ErrorReg) w1) 0x1B) 0)
      as [Herr|Herr].
    + unfold truthy at 1. rewrite Herr. cbn [Z.eqb negb].
      destruct (Z.eqb_spec (uchar command) PCD_TRANSCEIVE) as [Ht|Ht].
      * exfalso. apply Hpath. auto.
      * reflexivity.
    + unfold truthy at 1. apply Z.eqb_neq in Herr. rewrite Herr. reflexivity.
  - intros other. rewrite !Hrun.
    pose proof (ToCard_collect_backLen (uchar command)
                  (fst (ToCard_irq (uchar command))) i
                  (snd (eval (ToCard_reach_collect command sendData sendLen) w))
                  backData other backLen w1) as H.
    cbv zeta in H. destruct H as (H1 & H2 & H3 & _).
    split; [|exact H3].
    rewrite (surjective_pairing (fst (fst (ToCard_collect _ _ _ _ _ other _)))).
    rewrite (surjective_pairing (fst (fst (ToCard_collect _ _ _ _ _ backLen _)))).
    now rewrite H1, H2.
  - intros Hcmd Hst other. rewrite !Hrun in *.
    pose proof (ToCard_collect_backLen (uchar command)
                  (fst (ToCard_irq (uchar command))) i
                  (snd (eval (ToCard_reach_collect command sendData sendLen) w))
                  backData other backLen w1) as H.
    cbv zeta in H. destruct H as (H1 & _ & _ & [H4|(_ & _ & [H4|H4])]).
    + exact H4.
    + exfalso. apply (ok_ne_err Hok). rewrite <- Hst, <- H1. exact H4.
    + contradiction.
Qed.

Lemma reply_range (w : world) (k : nat) : 0 <= reply w k <= 255.
Proof. apply uchar_range. Qed.

Lemma eval_Read_MFRC522 (addr : Z) (w : world) :
  eval (Read_MFRC522 addr) w = reply w 1.
Proof. unfold eval. rewrite Read_MFRC522_eq. reflexivity. Qed.

(** The response path of the part after the loop, step by step. *)
Lemma ToCard_collect_transceive (irqEn i n0 : Z) (backData : list Z)
    (backLen : Z) (w1 : world) :
  i <> 0 ->
  Z.land (eval (Read_MFRC522 ErrorReg) w1) 0x1B = 0 ->
  let w2 := exec (Read_MFRC522 ErrorReg) w1 in
  let n := eval (Read_MFRC522 FIFOLevelReg) w2 in
  let w3 := exec (Read_MFRC522 FIFOLevelReg) w2 in
  let lastBits := Z.land (eval (Read_MFRC522 ControlReg) w3) 0x07 in
  let w4 := exec (Read_MFRC522 ControlReg) w3 in
  let n1 := if n =? 0 then 1 else n in
  let n2 := if MAX_LEN <? n1 then uchar MAX_LEN else n1 in
  ToCard_collect PCD_TRANSCEIVE irqEn i n0 backData backLen w1
  = (if truthy (Z.land (Z.land n0 irqEn) 0x01) then MI_NOTAGERR else MI_OK,
     eval (ToCard_drain (Z.to_nat n2) 0 backData) w4,
     if truthy lastBits then uint ((n - 1) * 8 + lastBits) else uint (n * 8),
     exec (ToCard_drain (Z.to_nat n2) 0 backData) w4).
Proof.
  intros Hi Herr w2 n w3 lastBits w4 n1 n2.
  unfold ToCard_collect.
  apply Z.eqb_neq in Hi. rewrite Hi. cbn [negb].
  rewrite run_bind. fold w2.
  unfold truthy at 1. rewrite Herr. cbn [Z.eqb negb].
  rewrite Z.eqb_refl.
  rewrite run_bind. fold n. fold w3.
  rewrite run_bind. fold lastBits. fold w4. fold n1. fold n2.
  rewrite run_bind. reflexivity.
Qed.

(** C7, as the code has it. A [PCD_TRANSCEIVE] exchange that leaves the wait
    loop with budget remaining and finds no fault bit in [ErrorReg] reads the
    FIFO level [n] and the valid-bit count [lastBits], reports
    [(n-1)*8 + lastBits] bits when [lastBits != 0] (computed in
    [unsigned int]; exact for [n >= 1]) and [n*8] otherwise, clamps [n] into
    [1 .. MAX_LEN], a constant of the driver (the function is not told how
    long the caller's buffer is), and then makes exactly that many reads of
    [FIFODataReg].  When the buffer holds at least that many bytes, read [j]
    is stored in [backData[j]] and the rest of the buffer is left as it
    was. *)
Theorem C7_transceive_response (sendData : list Z) (sendLen : Z)
    (backData : list Z) (backLen : Z) (w : world) :
  header_ok ->
  let reach := ToCard_reach_collect PCD_TRANSCEIVE sendData sendLen in
  let w1 := exec reach w in
  fst (eval reach w) <> 0 ->
  Z.land (eval (Read_MFRC522 ErrorReg) w1) 0x1B = 0 ->
  let w2 := exec (Read_MFRC522 ErrorReg) w1 in
  let n := eval (Read_MFRC522 FIFOLevelReg) w2 in
  let w3 := exec (Read_MFRC522 FIFOLevelReg) w2 in
  let lastBits := Z.land (eval (Read_MFRC522 ControlReg) w3) 0x07 in
  let w4 := exec (Read_MFRC522 ControlReg) w3 in
  let count := Z.to_nat (Z.min (Z.max n 1) MAX_LEN) in
  let r := eval (MFRC522_ToCard PCD_TRANSCEIVE sendData sendLen backData backLen) w in
  let w' := exec (MFRC522_ToCard PCD_TRANSCEIVE sendData sendLen backData backLen) w in
  let recvBits := snd r in
  let recvData := snd (fst r) in
  recvBits = (if lastBits =? 0 then n * 8 else uint ((n - 1) * 8 + lastBits))
  /\ (1 <= n -> lastBits <> 0 -> recvBits = (n - 1) * 8 + lastBits)
  /\ (1 <= count <= Z.to_nat MAX_LEN)%nat
  /\ since w4 w' (drain_frames w4 count)
  /\ ticks w' = (2 * count + ticks w4)%nat
  /\ ((count <= length backData)%nat ->
      length recvData = length backData
      /\ forall j,
           peek recvData j
           = if (j <? count)%nat then reply w4 (1 + 2 * j)
             else peek backData j).
Proof.
  intros Hok reach w1 Hi Herr w2 n w3 lastBits w4 count r w' recvBits recvData.
  assert (Hcmd : uchar PCD_TRANSCEIVE = PCD_TRANSCEIVE)
    by (apply uchar_small, (transceive_byte Hok)).
  pose proof (max_len_range Hok) as Hmax.
  assert (Hn : 0 <= n <= 255)
    by (subst n; rewrite eval_Read_MFRC522; apply reply_range).
  assert (Hlast : 0 <= lastBits <= 7) by (apply land_mask_le; lia).
  set (n2 := if MAX_LEN <? (if n =? 0 then 1 else n) then uchar MAX_LEN
             else (if n =? 0 then 1 else n)).
  assert (Hn2 : Z.to_nat n2 = count).
  { subst n2 count. f_equal. rewrite (uchar_small MAX_LEN) by lia.
    destruct (n =? 0) eqn:E0;
      [apply Z.eqb_eq in E0 | apply Z.eqb_neq in E0];
      match goal with
      | |- context [MAX_LEN <? ?x] => destruct (Z.ltb_spec MAX_LEN x)
      end; lia. }
  set (bits := if truthy lastBits then uint ((n - 1) * 8 + lastBits)
               else uint (n * 8)).
  assert (Hrun :
    r = (fst (fst r), eval (ToCard_drain count 0 backData) w4, bits)
    /\ w' = exec (ToCard_drain count 0 backData) w4).
  { pose proof (ToCard_collect_transceive (fst (ToCard_irq PCD_TRANSCEIVE))
                  (fst (eval reach w)) (snd (eval reach w)) backData backLen
                  w1 Hi Herr) as Hc.
    cbv zeta in Hc. fold w2 in Hc. fold n in Hc. fold w3 in Hc.
    fold lastBits in Hc. fold w4 in Hc. fold n2 in Hc. fold bits in Hc.
    rewrite Hn2 in Hc.
    pose proof (eval_of_run _ _ _ _ Hc) as He.
    pose proof (exec_of_run _ _ _ _ Hc) as Hx.
    subst r w'. rewrite eval_MFRC522_ToCard, exec_MFRC522_ToCard.
    fold reach. fold w1. rewrite Hcmd. rewrite He, Hx. cbn [fst snd].
    split; reflexivity. }
  destruct Hrun as [Hr Hw].
  destruct (ToCard_drain_spec count 0 backData w4) as (Htr & Htk & Hlen & Hpeek).
  assert (HrecvBits : recvBits = bits) by (subst recvBits; rewrite Hr; reflexivity).
  assert (HrecvData : recvData = eval (ToCard_drain count 0 backData) w4)
    by (subst recvData; rewrite Hr; reflexivity).
  rewrite HrecvBits, HrecvData, Hw. subst bits. unfold truthy, uint.
  assert (Hcount : (1 <= count <= Z.to_nat MAX_LEN)%nat) by (subst count; lia).
  assert (Hstored : (count <= length backData)%nat -> forall j,
            peek (eval (ToCard_drain count 0 backData) w4) j
            = if (j <? count)%nat then reply w4 (1 + 2 * j)
              else peek backData j).
  { intros Hfit j. rewrite Hpeek. cbn [Nat.leb Nat.add andb].
    rewrite Nat.sub_0_r.
    destruct (Nat.ltb_spec j count) as [Hj|Hj]; [|reflexivity].
    replace (j <? length backData)%nat with true
      by (symmetry; apply Nat.ltb_lt; lia).
    reflexivity. }
  split; [|split; [|split; [|split; [|split]]]].
  - destruct (Z.eqb_spec lastBits 0); cbn [negb]; [|reflexivity].
    apply Z.mod_small. lia.
  - intros H1 Hl. apply Z.eqb_neq in Hl. rewrite Hl. cbn [negb].
    apply Z.mod_small. lia.
  - exact Hcount.
  - exact Htr.
  - exact Htk.
  - intros Hfit. split; [exact Hlen|now apply Hstored].
Qed.

(** ** Straight-line bus traffic *)

Lemma advance_0 (w : world) : advance w 0 [] = w.
Proof. destruct w. reflexivity. Qed.

Lemma reply_advance (w : world) (k j : nat) (evs : list event) :
  reply (advance w k evs) j = reply w (j + k).
Proof. unfold reply, advance. cbn [miso ticks]. now rewrite Nat.add_assoc. Qed.

Lemma Write_MFRC522_advance (addr val : Z) (w : world) (k : nat)
    (evs : list event) :
  Write_MFRC522 addr val (advance w k evs)
  = (tt, advance w (2 + k) (rev (write_frame addr val w k) ++ evs)).
Proof.
  rewrite Write_MFRC522_eq. unfold write_frame.
  rewrite !reply_advance. unfold advance. cbn [miso ticks trace garbage
    display_rc522_info_queue rev app Nat.add]. reflexivity.
Qed.

Lemma Write_MFRC522_start (addr val : Z) (w : world) :
  Write_MFRC522 addr val w
  = (tt, advance w 2 (rev (write_frame addr val w 0))).
Proof. rewrite Write_MFRC522_eq. reflexivity. Qed.

Lemma Read_MFRC522_advance (addr : Z) (w : world) (k : nat) (evs : list event) :
  Read_MFRC522 addr (advance w k evs)
  = (reply w (S k), advance w (2 + k) (rev (read_frame addr w k) ++ evs)).
Proof.
  rewrite Read_MFRC522_eq. unfold read_frame.
  rewrite !reply_advance. unfold advance. cbn [miso ticks trace garbage
    display_rc522_info_queue rev app Nat.add]. reflexivity.
Qed.

Lemma SetBitMask_advance (reg mask : Z) (w : world) (k : nat) (evs : list event) :
  SetBitMask reg mask (advance w k evs)
  = (tt, advance w (4 + k)
           (rev (read_frame reg w k
                 ++ write_frame reg (Z.lor (reply w (S k)) (uchar mask)) w (2 + k))
            ++ evs)).
Proof.
  unfold SetBitMask. rewrite run_bind.
  rewrite (eval_of_run _ _ _ _ (Read_MFRC522_advance reg w k evs)).
  rewrite (exec_of_run _ _ _ _ (Read_MFRC522_advance reg w k evs)).
  rewrite Write_MFRC522_advance. rewrite rev_app_distr, <- app_assoc.
  reflexivity.
Qed.

Lemma ClearBitMask_advance (reg mask : Z) (w : world) (k : nat)
    (evs : list event) :
  ClearBitMask reg mask (advance w k evs)
  = (tt, advance w (4 + k)
           (rev (read_frame reg w k
                 ++ write_frame reg (Z.land (reply w (S k)) (Z.lnot (uchar mask)))
                      w (2 + k))
            ++ evs)).
Proof.
  unfold ClearBitMask. rewrite run_bind.
  rewrite (eval_of_run _ _ _ _ (Read_MFRC522_advance reg w k evs)).
  rewrite (exec_of_run _ _ _ _ (Read_MFRC522_advance reg w k evs)).
  rewrite Write_MFRC522_advance. rewrite rev_app_distr, <- app_assoc.
  reflexivity.
Qed.

Lemma ToCard_fill_advance (sendData : list Z) (todo : nat) :
  forall (i : nat) (w : world) (k : nat) (evs : list event),
    ToCard_fill sendData todo i (advance w k evs)
    = (tt, advance w (2 * todo + k)
             (rev (fill_frames sendData todo i w k) ++ evs)).
Proof.
  induction todo as [|todo IH]; intros i w k evs;
    cbn [ToCard_fill fill_frames].
  - reflexivity.
  - rewrite run_bind.
    rewrite (exec_of_run _ _ _ _ (Write_MFRC522_advance _ _ w k evs)).
    rewrite IH. rewrite rev_app_distr, <- app_assoc.
    replace (2 * todo + (2 + k))%nat with (2 * S todo + k)%nat by lia.
    reflexivity.
Qed.

Lemma ToCard_issue_advance (command irqEn : Z) (sendData : list Z) (sendLen : Z)
    (w : world) (k : nat) (evs : list event) :
  exists k',
    ToCard_issue command irqEn sendData sendLen (advance w k evs)
    = (tt, advance w k'
             (rev (issue_frames command irqEn sendData (Z.to_nat sendLen) w k)
              ++ evs)).
Proof.
  unfold ToCard_issue, issue_frames.
  rewrite run_bind.
  rewrite (exec_of_run _ _ _ _ (Write_MFRC522_advance _ _ w k evs)).
  rewrite run_bind.
  rewrite (exec_of_run _ _ _ _ (ClearBitMask_advance _ _ w _ _)).
  rewrite run_bind.
  rewrite (exec_of_run _ _ _ _ (SetBitMask_advance _ _ w _ _)).
  rewrite run_bind.
  rewrite (exec_of_run _ _ _ _ (Write_MFRC522_advance _ _ w _ _)).
  rewrite run_bind.
  rewrite (exec_of_run _ _ _ _ (ToCard_fill_advance _ _ _ w _ _)).
  rewrite run_bind.
  rewrite (exec_of_run _ _ _ _ (Write_MFRC522_advance _ _ w _ _)).
  destruct (command =? PCD_TRANSCEIVE).
  - rewrite SetBitMask_advance. eexists. f_equal. f_equal.
    rewrite !rev_app_distr, <- !app_assoc. reflexivity.
  - eexists. unfold ret. f_equal. f_equal.
    rewrite !rev_app_distr, <- !app_assoc. reflexivity.
Qed.

(** What follows the command start of an exchange is bus traffic that comes
    after the frames of [ToCard_issue]. *)
Lemma MFRC522_ToCard_advance (command : Z) (sendData : list Z) (sendLen : Z)
    (backData : list Z) (backLen : Z) (w : world) (k : nat) (evs0 : list event) :
  exists evs,
    trace (exec (MFRC522_ToCard command sendData sendLen backData backLen)
                (advance w k evs0))
    = evs
      ++ rev (issue_frames (uchar command) (fst (ToCard_irq (uchar command)))
                sendData (Z.to_nat (uchar sendLen)) w k)
      ++ evs0 ++ trace w
    /\ Forall bus_event evs.
Proof.
  unfold MFRC522_ToCard.
  destruct (ToCard_irq (uchar command)) as [irqEn waitIRq]. cbn [fst].
  rewrite exec_bind.
  destruct (ToCard_issue_advance (uchar command) irqEn sendData (uchar sendLen)
              w k evs0) as [k' Hissue].
  rewrite (exec_of_run _ _ _ _ Hissue).
  match goal with
  | |- context [exec ?m (advance w k' ?e)] =>
      assert (Hrest : keeps bus_event m) by keeps_step;
      destruct (Hrest (advance w k' e)) as [_ _ _ _ (evs & Htr & HF)]
  end.
  exists evs. split; [|exact HF].
  rewrite Htr. unfold advance. cbn [trace]. rewrite <- app_assoc. reflexivity.
Qed.

Lemma eval_uninitialised (w : world) : eval uninitialised w = garbage w.
Proof. reflexivity. Qed.

Lemma exec_uninitialised (w : world) : exec uninitialised w = w.
Proof. reflexivity. Qed.

Lemma write_frame_uchar (addr val : Z) (w : world) (k : nat) :
  write_frame addr (uchar val) w k = write_frame addr val w k.
Proof. unfold write_frame. now rewrite uchar_idem. Qed.

Lemma MFRC522_Request_opening (reqMode : Z) (TagType : list Z) (w : world) :
  header_ok ->
  TagType <> [] ->
  exists evs,
    since w (exec (MFRC522_Request reqMode TagType) w)
          (Request_opening reqMode w ++ evs)
    /\ Forall bus_event evs.
Proof.
  intros Hok Hne. unfold MFRC522_Request.
  rewrite exec_bind, exec_uninitialised, eval_uninitialised.
  rewrite exec_bind.
  rewrite (exec_of_run _ _ _ _ (Write_MFRC522_start _ _ w)).
  rewrite exec_bind.
  match goal with
  | |- context [exec (MFRC522_ToCard ?c ?sd ?sl ?bd ?bl) (advance w ?k ?e)] =>
      destruct (MFRC522_ToCard_advance c sd sl bd bl w k e) as (evs & Htr & HF);
      set (w2 := exec (MFRC522_ToCard c sd sl bd bl) (advance w k e)) in *;
      destruct (eval (MFRC522_ToCard c sd sl bd bl) (advance w k e))
        as [[st buf] bits]
  end.
  exists (rev evs). split; [|apply Forall_rev; exact HF].
  unfold since. unfold exec at 1. cbn [ret snd]. rewrite Htr.
  rewrite rev_app_distr, rev_involutive, <- app_assoc. f_equal.
  rewrite (uchar_small PCD_TRANSCEIVE) by apply (transceive_byte Hok).
  rewrite (ToCard_irq_transceive Hok). cbn [fst].
  change (Z.to_nat (uchar 1)) with 1%nat.
  unfold issue_frames, Request_opening. rewrite Z.eqb_refl.
  cbn [fill_frames Nat.mul Nat.add].
  rewrite peek_poke.
  destruct TagType as [|t tl]; [congruence|]. cbn [length Nat.eqb Nat.ltb Nat.leb andb].
  rewrite write_frame_uchar.
  rewrite app_nil_r, !rev_app_distr, <- !app_assoc. reflexivity.
Qed.

Lemma MFRC522_Anticoll_opening (serNum : list Z) (w : world) :
  header_ok ->
  (2 <= length serNum)%nat ->
  exists evs,
    since w (exec (MFRC522_Anticoll serNum) w) (Anticoll_opening w ++ evs)
    /\ Forall bus_event evs.
Proof.
  intros Hok Hlen. unfold MFRC522_Anticoll.
  rewrite exec_bind, exec_uninitialised, eval_uninitialised.
  rewrite exec_bind.
  rewrite (exec_of_run _ _ _ _ (Write_MFRC522_start _ _ w)).
  rewrite exec_bind.
  match goal with
  | |- context [exec (MFRC522_ToCard ?c ?sd ?sl ?bd ?bl) (advance w ?k ?e)] =>
      destruct (MFRC522_ToCard_advance c sd sl bd bl w k e) as (evs & Htr & HF);
      set (w2 := exec (MFRC522_ToCard c sd sl bd bl) (advance w k e)) in *;
      destruct (eval (MFRC522_ToCard c sd sl bd bl) (advance w k e))
        as [[st buf] bits]
  end.
  exists (rev evs). split; [|apply Forall_rev; exact HF].
  unfold since. unfold exec at 1. cbn [ret snd]. rewrite Htr.
  rewrite rev_app_distr, rev_involutive, <- app_assoc. f_equal.
  rewrite (uchar_small PCD_TRANSCEIVE) by apply (transceive_byte Hok).
  rewrite (ToCard_irq_transceive Hok). cbn [fst].
  change (Z.to_nat (uchar 2)) with 2%nat.
  unfold issue_frames, Anticoll_opening. rewrite Z.eqb_refl.
  cbn [fill_frames Nat.mul Nat.add].
  rewrite !peek_poke, !length_poke.
  destruct serNum as [|s0 [|s1 tl]]; cbn [length] in Hlen; try lia.
  cbn [length Nat.eqb Nat.ltb Nat.leb andb].
  rewrite !write_frame_uchar.
  rewrite app_nil_r, !rev_app_distr, <- !app_assoc. reflexivity.
Qed.

(** ** Buffers stay arrays of bytes *)

Lemma peek_bytes (buf : list Z) (i : nat) : bytes buf -> 0 <= peek buf i <= 255.
Proof.
  intros Hb. unfold peek.
  destruct (Nat.lt_ge_cases i (length buf)) as [Hi|Hi].
  - eapply Forall_forall in Hb; [exact Hb|]. now apply nth_In.
  - rewrite nth_overflow by assumption. lia.
Qed.

Lemma ToCard_drain_bytes (todo : nat) :
  forall (i : nat) (backData : list Z) (w : world),
    bytes backData -> bytes (eval (ToCard_drain todo i backData) w).
Proof.
  induction todo as [|todo IH]; intros i backData w Hb; cbn [ToCard_drain].
  - exact Hb.
  - rewrite eval_bind. apply IH. apply Forall_poke; [|exact Hb].
    rewrite eval_Read_MFRC522. apply reply_range.
Qed.

Lemma ToCard_collect_bytes (command irqEn i n : Z) (backData : list Z)
    (backLen : Z) (w : world) :
  bytes backData ->
  bytes (snd (fst (eval (ToCard_collect command irqEn i n backData backLen) w))).
Proof.
  intros Hb. unfold ToCard_collect.
  destruct (negb (i =? 0)); [|exact Hb].
  rewrite eval_bind. destruct (negb (truthy _)); [|exact Hb].
  destruct (command =? PCD_TRANSCEIVE); [|exact Hb].
  rewrite !eval_bind. cbn [eval ret fst snd].
  now apply ToCard_drain_bytes.
Qed.

Lemma MFRC522_ToCard_bytes (command : Z) (sendData : list Z) (sendLen : Z)
    (backData : list Z) (backLen : Z) (w : world) :
  bytes backData ->
  bytes (snd (fst (eval (MFRC522_ToCard command sendData sendLen backData
                           backLen) w))).
Proof.
  intros Hb. rewrite eval_MFRC522_ToCard. now apply ToCard_collect_bytes.
Qed.

Lemma ToCard_drain_length (todo i : nat) (backData : list Z) (w : world) :
  length (eval (ToCard_drain todo i backData) w) = length backData.
Proof. apply (ToCard_drain_spec todo i backData w). Qed.

Lemma MFRC522_ToCard_length (command : Z) (sendData : list Z) (sendLen : Z)
    (backData : list Z) (backLen : Z) (w : world) :
  length (snd (fst (eval (MFRC522_ToCard command sendData sendLen backData
                            backLen) w)))
  = length backData.
Proof.
  rewrite eval_MFRC522_ToCard. unfold ToCard_collect.
  destruct (negb (_ =? 0)); [|reflexivity].
  rewrite eval_bind. destruct (negb (truthy _)); [|reflexivity].
  destruct (_ =? PCD_TRANSCEIVE); [|reflexivity].
  rewrite !eval_bind. cbn [eval ret fst snd].
  apply ToCard_drain_length.
Qed.

Lemma Anticoll_check_bytes (serNum : list Z) :
  bytes serNum ->
  Anticoll_check serNum
  = Z.lxor (Z.lxor (Z.lxor (peek serNum 0) (peek serNum 1)) (peek serNum 2))
           (peek serNum 3).
Proof.
  intros Hb. unfold Anticoll_check. cbn [seq fold_left].
  pose proof (peek_bytes serNum 0 Hb) as H0.
  pose proof (peek_bytes serNum 1 Hb) as H1.
  pose proof (peek_bytes serNum 2 Hb) as H2.
  pose proof (peek_bytes serNum 3 Hb) as H3.
  rewrite Z.lxor_0_l. rewrite (uchar_small (peek serNum 0)) by exact H0.
  pose proof (lxor_byte _ _ H0 H1) as H01.
  rewrite (uchar_small _ H01).
  pose proof (lxor_byte _ _ H01 H2) as H012.
  rewrite (uchar_small _ H012).
  apply uchar_small. now apply lxor_byte.
Qed.

(** C5. With [u0 .. u3, c] the five bytes the exchange leaves in the buffer,
    [MFRC522_Anticoll] returns [MI_OK] exactly when the exchange returned
    [MI_OK] and [c == u0 ^ u1 ^ u2 ^ u3]; after a successful exchange a
    checksum mismatch makes it return [MI_ERR]; a failed exchange is passed
    on as it is. *)
Theorem C5_anticoll_checksum (serNum : list Z) (w : world) :
  header_ok ->
  bytes serNum ->
  (5 <= length serNum)%nat ->
  let w1 := exec (Write_MFRC522 BitFramingReg 0x00) w in
  let frame := poke 1 0x20 (poke 0 (uchar PICC_ANTICOLL) serNum) in
  let exchange :=
    eval (MFRC522_ToCard PCD_TRANSCEIVE frame 2 frame (garbage w)) w1 in
  let outcome := fst (fst exchange) in
  let u := peek (snd (fst exchange)) in
  let r := eval (MFRC522_Anticoll serNum) w in
  (fst r = MI_OK <->
     outcome = MI_OK /\ u 4%nat = Z.lxor (Z.lxor (Z.lxor (u 0%nat) (u 1%nat)) (u 2%nat)) (u 3%nat))
  /\ (outcome = MI_OK ->
      u 4%nat <> Z.lxor (Z.lxor (Z.lxor (u 0%nat) (u 1%nat)) (u 2%nat)) (u 3%nat) ->
      fst r = MI_ERR)
  /\ (outcome <> MI_OK -> fst r = outcome)
  /\ snd r = snd (fst exchange)
  /\ length (snd r) = length serNum.
Proof.
  intros Hok Hb Hlen w1 frame exchange outcome u r.
  assert (Hframe : bytes frame).
  { subst frame. apply Forall_poke; [lia|].
    apply Forall_poke; [apply uchar_range|exact Hb]. }
  pose proof (MFRC522_ToCard_bytes PCD_TRANSCEIVE frame 2 frame (garbage w) w1
                Hframe) as Hbuf.
  fold exchange in Hbuf.
  assert (Hr : r = (if outcome =? MI_OK then
                      if negb (Anticoll_check (snd (fst exchange)) =? u 4%nat)
                      then MI_ERR else outcome
                    else outcome,
                    snd (fst exchange))).
  { subst r. unfold MFRC522_Anticoll.
    rewrite eval_bind, exec_uninitialised, eval_uninitialised.
    rewrite eval_bind. fold w1. fold frame.
    rewrite eval_bind. fold exchange.
    subst outcome u. destruct exchange as [[st buf] bits]. reflexivity. }
  rewrite Hr. cbn [fst snd].
  rewrite (Anticoll_check_bytes _ Hbuf). fold u.
  set (x := Z.lxor (Z.lxor (Z.lxor (u 0%nat) (u 1%nat)) (u 2%nat)) (u 3%nat)).
  pose proof (ok_ne_err Hok) as Hne.
  split; [|split; [|split; [|split]]].
  - destruct (Z.eqb_spec outcome MI_OK) as [Eo|Eo].
    + destruct (Z.eqb_spec x (u 4%nat)) as [Ec|Ec]; cbn [negb].
      * split; auto.
      * split; [intros E; congruence|intros [_ E]; congruence].
    + split; [intros E; congruence|intros [E _]; congruence].
  - intros Eo Ec. apply Z.eqb_eq in Eo. rewrite Eo.
    destruct (Z.eqb_spec x (u 4%nat)) as [E|E]; [congruence|reflexivity].
  - intros Eo. apply Z.eqb_neq in Eo. now rewrite Eo.
  - reflexivity.
  - subst exchange. rewrite MFRC522_ToCard_length.
    subst frame. now rewrite !length_poke.
Qed.

(** C8. [MFRC522_Request] starts by writing [0x07] (7-bit framing) to
    [BitFramingReg] and loads the FIFO with the single byte [reqMode] before
    it starts the transceive command; it returns [MI_OK] exactly when the
    exchange returned [MI_OK] with a bit count of 16, and [MI_ERR] in every
    other case. *)
Theorem C8_request (reqMode : Z) (TagType : list Z) (w : world) :
  header_ok ->
  TagType <> [] ->
  let w1 := exec (Write_MFRC522 BitFramingReg 0x07) w in
  let frame := poke 0 (uchar reqMode) TagType in
  let exchange :=
    eval (MFRC522_ToCard PCD_TRANSCEIVE frame 1 frame (garbage w)) w1 in
  let r := eval (MFRC522_Request reqMode TagType) w in
  let w' := exec (MFRC522_Request reqMode TagType) w in
  (exists evs, since w w' (Request_opening reqMode w ++ evs))
  /\ (fst r = MI_OK <-> fst (fst exchange) = MI_OK /\ snd exchange = 16)
  /\ (fst r <> MI_OK -> fst r = MI_ERR)
  /\ snd r = snd (fst exchange).
Proof.
  intros Hok Hne w1 frame exchange r w'.
  split.
  { destruct (MFRC522_Request_opening reqMode TagType w Hok Hne) as (evs & H1 & _).
    exists evs. exact H1. }
  assert (Hr : r = (if negb (fst (fst exchange) =? MI_OK)
                       || negb (snd exchange =? 16)
                    then MI_ERR else fst (fst exchange),
                    snd (fst exchange))).
  { subst r. unfold MFRC522_Request.
    rewrite eval_bind, exec_uninitialised, eval_uninitialised.
    rewrite eval_bind. fold w1. fold frame.
    rewrite eval_bind. fold exchange.
    destruct exchange as [[st buf] bits]. reflexivity. }
  rewrite Hr. cbn [fst snd].
  pose proof (ok_ne_err Hok) as Herr.
  destruct (Z.eqb_spec (fst (fst exchange)) MI_OK) as [Eo|Eo];
    destruct (Z.eqb_spec (snd exchange) 16) as [Eb|Eb]; cbn [negb orb].
  - repeat split; auto. intros E. congruence.
  - repeat split; auto; try congruence. intros [_ E]. congruence.
  - repeat split; auto; try congruence. intros [E _]. congruence.
  - repeat split; auto; try congruence. intros [E _]. congruence.
Qed.

(** ** The acquisition cycle *)

Lemma keeps_HAL_UART_Transmit (msg : debug_msg) :
  keeps quiet_event (HAL_UART_Transmit msg).
Proof. apply keeps_emit. exact I. Qed.

Lemma keeps_quiet_MFRC522_Request (reqMode : Z) (TagType : list Z) :
  keeps quiet_event (MFRC522_Request reqMode TagType).
Proof.
  eapply keeps_weaken; [apply bus_event_quiet|apply keeps_MFRC522_Request].
Qed.

Lemma keeps_quiet_MFRC522_Anticoll (serNum : list Z) :
  keeps quiet_event (MFRC522_Anticoll serNum).
Proof.
  eapply keeps_weaken; [apply bus_event_quiet|apply keeps_MFRC522_Anticoll].
Qed.

(** One cycle, laid out: the request ends in [w1] with result [rq], its debug
    line follows, the anticollision ends in [w3] with result [ac]; then come
    two more debug lines, the put of the record and the delay. *)
Lemma RC522_Task_cycle_eq (w w1 w3 : world) (rq ac : Z * list Z) :
  MFRC522_Request PICC_REQIDL [0; 0] w = (rq, w1) ->
  MFRC522_Anticoll (repeat 0 10)
    (exec (HAL_UART_Transmit
             (Dbg_request (fst rq) (peek (snd rq) 0) (peek (snd rq) 1))) w1)
  = (ac, w3) ->
  exists m1 m2,
    exec RC522_Task_cycle w
    = exec (osDelay 2000)
        (exec (osMessageQueuePut (cycle_record rq ac) 0 0)
           (exec (HAL_UART_Transmit m2) (exec (HAL_UART_Transmit m1) w3))).
Proof.
  intros E1 E2.
  unfold RC522_Task_cycle. cbn [uid rc522_data_zero].
  rewrite exec_bind.
  rewrite (eval_of_run _ _ _ _ E1), (exec_of_run _ _ _ _ E1).
  destruct rq as [status0 tagType0]. cbn [fst snd] in E2.
  rewrite exec_bind, exec_bind.
  rewrite (eval_of_run _ _ _ _ E2), (exec_of_run _ _ _ _ E2).
  destruct ac as [anticoll_status uid0].
  rewrite exec_bind, exec_bind.
  unfold cycle_record. cbn [fst snd].
  destruct (Z.eqb_spec status0 MI_OK) as [Es|Es];
    destruct (Z.eqb_spec anticoll_status MI_OK) as [Ea|Ea];
    cbn [andb]; rewrite !eval_bind, !exec_bind, !eval_ret, !exec_ret;
    do 2 eexists; reflexivity.
Qed.

Lemma put_then_delay (r : RC522_Data_t) (w : world) :
  let q := display_rc522_info_queue w in
  let w' := exec (osDelay 2000) (exec (osMessageQueuePut r 0 0) w) in
  if (length (pending q) <? msg_count q)%nat then
    trace w' = Delay 2000 :: Put r 0 osOK :: trace w
    /\ display_rc522_info_queue w'
       = {| msg_count := msg_count q; pending := pending q ++ [r] |}
  else
    trace w' = Delay 2000 :: Put r 0 osErrorResource :: trace w
    /\ display_rc522_info_queue w' = q.
Proof.
  cbv zeta. unfold exec, osDelay, emit, osMessageQueuePut.
  destruct (length _ <? _)%nat; cbn; split; reflexivity.
Qed.

(** The cycle as a whole: the discovery steps leave the queue alone and never
    wait; then the record is offered once and the task sleeps. *)
Lemma RC522_Task_cycle_offer (w w1 w3 : world) (rq ac : Z * list Z) :
  MFRC522_Request PICC_REQIDL [0; 0] w = (rq, w1) ->
  MFRC522_Anticoll (repeat 0 10)
    (exec (HAL_UART_Transmit
             (Dbg_request (fst rq) (peek (snd rq) 0) (peek (snd rq) 1))) w1)
  = (ac, w3) ->
  let r := cycle_record rq ac in
  let q := display_rc522_info_queue w in
  let w' := exec RC522_Task_cycle w in
  exists evs3 evs,
    Forall quiet_event evs3
    /\ Forall quiet_event evs
    /\ evs ++ trace w = evs3 ++ trace w3
    /\ if (length (pending q) <? msg_count q)%nat then
         trace w' = Delay 2000 :: Put r 0 osOK :: evs ++ trace w
         /\ display_rc522_info_queue w'
            = {| msg_count := msg_count q; pending := pending q ++ [r] |}
       else
         trace w' = Delay 2000 :: Put r 0 osErrorResource :: evs ++ trace w
         /\ display_rc522_info_queue w' = q.
Proof.
  intros E1 E2. cbv zeta.
  destruct (RC522_Task_cycle_eq w w1 w3 rq ac E1 E2) as (m1 & m2 & Hrun).
  rewrite Hrun. clear Hrun.
  pose proof (keeps_run _ _ _ _ _ (keeps_quiet_MFRC522_Request _ _) E1) as H01.
  pose proof (keeps_run _ _ _ _ _ (keeps_quiet_MFRC522_Anticoll _) E2) as H23.
  set (w2 := exec (HAL_UART_Transmit _) w1) in *.
  assert (H12 : only quiet_event w1 w2) by apply keeps_HAL_UART_Transmit.
  set (w4 := exec (HAL_UART_Transmit m1) w3).
  assert (H34 : only quiet_event w3 w4) by apply keeps_HAL_UART_Transmit.
  set (w5 := exec (HAL_UART_Transmit m2) w4).
  assert (H45 : only quiet_event w4 w5) by apply keeps_HAL_UART_Transmit.
  clearbody w2 w4 w5.
  pose proof (only_trans _ _ _ _ H34 H45) as H35.
  pose proof (only_trans _ _ _ _ (only_trans _ _ _ _ H01 H12)
                (only_trans _ _ _ _ H23 H35)) as H05.
  destruct H05 as [_ _ Hq _ (evs & Htr & HF)].
  destruct H35 as [_ _ _ _ (evs3 & Htr3 & HF3)].
  exists evs3, evs. split; [exact HF3|]. split; [exact HF|].
  split; [congruence|].
  pose proof (put_then_delay (cycle_record rq ac) w5) as Hput. cbv zeta in Hput.
  rewrite <- Hq, <- Htr. exact Hput.
Qed.

Lemma offered_of_offer (w w' : world) (r : RC522_Data_t) (evs : list event)
    (b : bool) (q1 q2 q3 : osMessageQueue) :
  Forall quiet_event evs ->
  (if b then
     trace w' = Delay 2000 :: Put r 0 osOK :: evs ++ trace w /\ q1 = q2
   else
     trace w' = Delay 2000 :: Put r 0 osErrorResource :: evs ++ trace w
     /\ q1 = q3) ->
  offered w w' r.
Proof.
  intros HF H. unfold offered.
  destruct b; destruct H as [Htr _]; do 2 eexists; (split; [exact Htr|exact HF]).
Qed.



Lemma keeps_MFRC522_Init : keeps quiet_event MFRC522_Init.
Proof.
  unfold MFRC522_Init, AntennaOn, MFRC522_Reset.
  repeat match goal with
         | |- keeps _ (bind _ _) => apply keeps_bind; [|intros ?]
         | |- keeps _ (HAL_GPIO_WritePin_CS _) => apply keeps_emit; exact I
         | |- keeps _ (HAL_GPIO_WritePin_RST _) => apply keeps_emit; exact I
         | |- keeps quiet_event _ =>
             apply (keeps_weaken bus_event quiet_event _ bus_event_quiet);
             auto with keeps
         end.
Qed.


(** C1, as the code has it. In a cycle whose two exchanges store within the
    arrays the task passes, when [MFRC522_Request] does not return [MI_OK]
    the record offered to the channel has status [RC522_STATUS_UNSUCCESSFUL]
    and [uid_length = 0]; the anticollision is run all the same: what follows
    the request's debug line on the bus begins with the opening traffic of
    [MFRC522_Anticoll]. *)
Theorem C1_request_failed (w : world) :
  header_ok ->
  let rq := eval (MFRC522_Request PICC_REQIDL [0; 0]) w in
  let w1 := exec (MFRC522_Request PICC_REQIDL [0; 0]) w in
  let w2 := exec (HAL_UART_Transmit
                    (Dbg_request (fst rq) (peek (snd rq) 0) (peek (snd rq) 1)))
                 w1 in
  let w' := exec RC522_Task_cycle w in
  Request_fits PICC_REQIDL [0; 0] w ->
  Anticoll_fits (repeat 0 10) w2 ->
  fst rq <> MI_OK ->
  (exists r,
     offered w w' r
     /\ status r = RC522_STATUS_UNSUCCESSFUL
     /\ uid_length r = 0)
  /\ (exists after, since w2 w' (Anticoll_opening w2 ++ after)).
Proof.
  intros Hok. cbv zeta. intros _ _. unfold eval, exec.
  destruct (MFRC522_Request PICC_REQIDL [0; 0] w) as [rq w1] eqn:E1.
  cbn [fst snd]. intros Hrq.
  set (w2 := snd (HAL_UART_Transmit
                    (Dbg_request (fst rq) (peek (snd rq) 0) (peek (snd rq) 1))
                    w1)).
  destruct (MFRC522_Anticoll (repeat 0 10) w2) as [ac w3] eqn:E2.
  destruct (RC522_Task_cycle_offer w w1 w3 rq ac E1 E2)
    as (evs3 & evs & HF3 & HF & Hevs & H).
  cbv zeta in H. unfold exec in H.
  split.
  - exists (cycle_record rq ac).
    split; [eapply offered_of_offer; [exact HF|exact H]|].
    unfold cycle_record. cbn [status uid_length].
    apply Z.eqb_neq in Hrq. rewrite Hrq. cbn [andb]. split; reflexivity.
  - destruct (MFRC522_Anticoll_opening (repeat 0 10) w2 Hok)
      as (evsA & HsA & _); [cbn; lia|].
    unfold since in *. unfold exec in HsA. rewrite E2 in HsA. cbn [snd] in HsA.
    assert (Htr : exists st,
               trace (snd (RC522_Task_cycle w))
               = Delay 2000 :: Put (cycle_record rq ac) 0 st :: evs ++ trace w).
    { destruct (length _ <? _)%nat; destruct H as [Htr _]; eauto. }
    destruct Htr as (st & Htr).
    exists (evsA ++ rev (Delay 2000 :: Put (cycle_record rq ac) 0 st :: evs3)).
    rewrite Htr, Hevs, HsA.
    rewrite !rev_app_distr, rev_involutive, <- !app_assoc.
    reflexivity.
Qed.

(** C9. The put is made with timeout 0.  In a cycle that finds the queue
    with its 3 slots taken, the put returns [osErrorResource] at once, the
    queue is exactly as it was (same records, same order), the next thing the
    task does is its 2000 ms delay, and nothing before the put touched the
    queue or waited; this stays so for any number of further cycles while
    nothing is taken from the queue. *)
Theorem C9_drop_on_full (w : world) :
  msg_count (display_rc522_info_queue w) = RC522_QUEUE_SIZE ->
  length (pending (display_rc522_info_queue w)) = 3%nat ->
  let w' := exec RC522_Task_cycle w in
  display_rc522_info_queue w' = display_rc522_info_queue w
  /\ (exists r evs,
        trace w' = Delay 2000 :: Put r 0 osErrorResource :: evs ++ trace w
        /\ Forall quiet_event evs)
  /\ (forall cycles,
        display_rc522_info_queue (exec (RC522_Task_loop cycles) w)
        = display_rc522_info_queue w).
Proof.
  intros Hcap Hlen. cbv zeta.
  assert (Hcycle : forall w0,
            msg_count (display_rc522_info_queue w0) = RC522_QUEUE_SIZE ->
            length (pending (display_rc522_info_queue w0)) = 3%nat ->
            display_rc522_info_queue (exec RC522_Task_cycle w0)
            = display_rc522_info_queue w0
            /\ exists r evs,
                trace (exec RC522_Task_cycle w0)
                = Delay 2000 :: Put r 0 osErrorResource :: evs ++ trace w0
                /\ Forall quiet_event evs).
  { intros w0 Hc Hl.
    destruct (MFRC522_Request PICC_REQIDL [0; 0] w0) as [rq w1] eqn:E1.
    destruct (MFRC522_Anticoll (repeat 0 10)
                (exec (HAL_UART_Transmit
                         (Dbg_request (fst rq) (peek (snd rq) 0)
                            (peek (snd rq) 1))) w1)) as [ac w3] eqn:E2.
    destruct (RC522_Task_cycle_offer w0 w1 w3 rq ac E1 E2)
      as (evs3 & evs & _ & HF & _ & H).
    cbv zeta in H. rewrite Hc, Hl in H.
    change (3 <? RC522_QUEUE_SIZE)%nat with false in H.
    destruct H as [Htr Hq]. split; [exact Hq|]. eauto. }
  destruct (Hcycle w Hcap Hlen) as [Hq Htr].
  split; [exact Hq|]. split; [exact Htr|].
  intros cycles. clear Hq Htr. revert w Hcap Hlen.
  induction cycles as [|c IH]; intros w Hcap Hlen; cbn [RC522_Task_loop].
  - reflexivity.
  - rewrite exec_bind.
    destruct (Hcycle w Hcap Hlen) as [Hq _].
    rewrite IH; [exact Hq| |]; rewrite Hq; assumption.
Qed.

End Driver_facts.

(** ** The theorems at concrete chips *)

Lemma mfrc522_ok : header_ok (hdr := mfrc522_h).
Proof. split; cbn; lia. Qed.

Lemma C3_budget_exhausted_witness :
  eval (MFRC522_ToCard (hdr := mfrc522_h) 0x0C [0x26; 0] 1 [0x26; 0] 7)
       (power_on silent)
  = (MI_ERR (RC522_h := mfrc522_h), [0x26; 0], 7).
Proof.
  refine (proj1 (C3_budget_exhausted (hdr := mfrc522_h) 0x0C [0x26; 0] 1
                   [0x26; 0] 7 (power_on silent) mfrc522_ok _)).
  intros k _. split; reflexivity.
Defined.

(** C4 as stated fails for the authentication command: with the timer flag
    set at the first poll, budget remaining and a clean [ErrorReg],
    [MFRC522_ToCard(PCD_AUTHENT, buff, 12, buff, &recvBits)] returns [MI_OK],
    not [MI_NOTAGERR]. *)
Lemma C4_counterexample :
  let buff := [0x60; 4; 255; 255; 255; 255; 255; 255; 1; 2; 3; 4] in
  let w := power_on (answers [(39, 0x01)]) in
  let reach := ToCard_reach_collect (hdr := mfrc522_h) 0x0E buff 12 in
  fst (eval reach w) <> 0
  /\ Z.land (snd (eval reach w)) 0x01 <> 0
  /\ Z.land (eval (Read_MFRC522 (ErrorReg (RC522_h := mfrc522_h))) (exec reach w))
            0x1B = 0
  /\ fst (fst (eval (MFRC522_ToCard (hdr := mfrc522_h) 0x0E buff 12 buff 0) w))
     = MI_OK (RC522_h := mfrc522_h)
  /\ MI_OK (RC522_h := mfrc522_h) <> MI_NOTAGERR (RC522_h := mfrc522_h).
Proof. vm_compute. repeat split; discriminate. Qed.

Lemma C4_timer_expiry_witness :
  fst (fst (eval (MFRC522_ToCard (hdr := mfrc522_h) 0x0C [0x26; 0] 1 [0x26; 0] 0)
                 (power_on (answers [(21, 0x01)]))))
  = MI_NOTAGERR (RC522_h := mfrc522_h).
Proof.
  apply (C4_timer_expiry (hdr := mfrc522_h) 0x0C [0x26; 0] 1 [0x26; 0] 0
           (power_on (answers [(21, 0x01)])) mfrc522_ok);
    vm_compute; congruence.
Defined.

Lemma C10_bit_count_untouched_witness :
  snd (fst (MFRC522_ToCard (hdr := mfrc522_h) 0x0C [0x26; 0] 1 [0x26; 0] 7
              (power_on silent)))
  = 7.
Proof.
  refine (proj1 (C10_bit_count_untouched (hdr := mfrc522_h) 0x0C [0x26; 0] 1
                   [0x26; 0] 7 (power_on silent) mfrc522_ok) _).
  vm_compute. intros [_ [Hi _]]. apply Hi. reflexivity.
Defined.

Lemma C7_transceive_response_witness :
  snd (eval (MFRC522_ToCard (hdr := mfrc522_h) (PCD_TRANSCEIVE (RC522_h := mfrc522_h))
               [0x26; 0] 1 [0x26; 0] 0)
            (power_on (answers [(21, 0x30); (29, 2); (33, 0x04)])))
  = 16.
Proof.
  refine (proj1 (C7_transceive_response (hdr := mfrc522_h) [0x26; 0] 1 [0x26; 0] 0
                   (power_on (answers [(21, 0x30); (29, 2); (33, 0x04)]))
                   mfrc522_ok _ _));
    vm_compute; congruence.
Defined.

Lemma C5_anticoll_checksum_witness :
  length (snd (eval (MFRC522_Anticoll (hdr := mfrc522_h) (repeat 0 10))
                    (power_on silent)))
  = length (repeat 0 10).
Proof.
  refine (proj2 (proj2 (proj2 (proj2
            (C5_anticoll_checksum (hdr := mfrc522_h) (repeat 0 10)
               (power_on silent) mfrc522_ok _ _))))).
  - unfold bytes. cbn [repeat]. repeat constructor; lia.
  - cbn. lia.
Defined.

Lemma C8_request_witness :
  exists evs,
    since (power_on card_12345678)
          (exec (MFRC522_Request (hdr := mfrc522_h) 0x26 [0; 0])
                (power_on card_12345678))
          (Request_opening (hdr := mfrc522_h) 0x26 (power_on card_12345678) ++ evs).
Proof.
  refine (proj1 (C8_request (hdr := mfrc522_h) 0x26 [0; 0]
                   (power_on card_12345678) mfrc522_ok _)).
  discriminate.
Defined.

Lemma C9_drop_on_full_witness :
  display_rc522_info_queue
    (exec (RC522_Task_cycle (hdr := mfrc522_h))
          (World card_12345678 0 [] 0 three_pending))
  = three_pending.
Proof.
  refine (proj1 (C9_drop_on_full (hdr := mfrc522_h)
                   (World card_12345678 0 [] 0 three_pending) _ _));
    reflexivity.
Defined.

Lemma C1_request_failed_witness :
  exists r,
    offered (power_on silent)
            (exec (RC522_Task_cycle (hdr := mfrc522_h)) (power_on silent)) r
    /\ status r = RC522_STATUS_UNSUCCESSFUL
    /\ uid_length r = 0.
Proof.
  refine (proj1 (C1_request_failed (hdr := mfrc522_h) (power_on silent)
                   mfrc522_ok _ _ _)).
  - vm_compute. lia.
  - vm_compute. lia.
  - vm_compute. discriminate.
Defined.


(** C7 as stated fails: on a chip that reports 16 bytes in the FIFO, an
    exchange that was handed a 2-byte buffer completes without error and
    makes 16 reads of [FIFODataReg], not the 2 a clamp to the buffer's
    capacity would leave. *)
Lemma C7_counterexample :
  let backData := [0x26; 0] in
  let w := power_on (answers [(21, 0x30); (29, 16)]) in
  let reach := ToCard_reach_collect (hdr := mfrc522_h) 0x0C backData 1 in
  let w2 := exec (Read_MFRC522 (ErrorReg (RC522_h := mfrc522_h))) (exec reach w) in
  let n := eval (Read_MFRC522 (FIFOLevelReg (RC522_h := mfrc522_h))) w2 in
  let w4 := exec (Read_MFRC522 (ControlReg (RC522_h := mfrc522_h)))
              (exec (Read_MFRC522 (FIFOLevelReg (RC522_h := mfrc522_h))) w2) in
  let w' := exec (MFRC522_ToCard (hdr := mfrc522_h) 0x0C backData 1 backData 0)
              w in
  let capacity := Z.of_nat (length backData) in
  fst (fst (eval (MFRC522_ToCard (hdr := mfrc522_h) 0x0C backData 1 backData 0)
                 w)) = MI_OK (RC522_h := mfrc522_h)
  /\ n = 16
  /\ Z.min (Z.max n 1) capacity = 2
  /\ since w4 w' (drain_frames (hdr := mfrc522_h) w4 16)
  /\ ~ since w4 w' (drain_frames (hdr := mfrc522_h) w4 2)
  /\ ToCard_stores (hdr := mfrc522_h) 0x0C backData 1 w = 16%nat.
Proof.
  split; [|split; [|split; [|split; [|split]]]].
  - vm_compute. reflexivity.
  - vm_compute. reflexivity.
  - vm_compute. reflexivity.
  - unfold since. vm_compute. reflexivity.
  - unfold since. intros H. apply (f_equal (@length event)) in H.
    vm_compute in H. discriminate H.
  - vm_compute. reflexivity.
Qed.

(** C1 as stated fails: on a bus where nothing answers, the request runs out
    of budget and returns [MI_ERR], and the cycle goes on to run the
    anticollision: after the request's debug line the bus carries the opening
    traffic of [MFRC522_Anticoll], with the command byte [PICC_ANTICOLL]
    written to the FIFO. *)
Lemma C1_counterexample :
  let w := power_on silent in
  let rq := eval (MFRC522_Request (hdr := mfrc522_h) 0x26 [0; 0]) w in
  let w1 := exec (MFRC522_Request (hdr := mfrc522_h) 0x26 [0; 0]) w in
  let w2 := exec (HAL_UART_Transmit
                    (Dbg_request (fst rq) (peek (snd rq) 0) (peek (snd rq) 1)))
                 w1 in
  let w' := exec (RC522_Task_cycle (hdr := mfrc522_h)) w in
  let opening := Anticoll_opening (hdr := mfrc522_h) w2 in
  fst rq <> MI_OK (RC522_h := mfrc522_h)
  /\ since w2 w'
        (opening ++ skipn (length opening) (skipn (length (trace w2)) (rev (trace w'))))
  /\ In (SPI 0x93 0) opening.
Proof.
  split; [|split].
  - vm_compute. discriminate.
  - unfold since. vm_compute. reflexivity.
  - vm_compute. tauto.
Qed.

(** ** The scenarios of the design notes, evaluated *)

Example scenario_A_card_detected :
  published (exec (RC522_Task_cycle (hdr := mfrc522_h)) (power_on card_12345678))
  = [ {| uid := [0x12; 0x34; 0x56; 0x78; 0x08; 0; 0; 0; 0; 0];
         uid_length := 4;
         tagType := (0x04, 0x00);
         status := RC522_STATUS_SUCCESS |} ].
Proof. vm_compute. reflexivity. Qed.

Example scenario_B_request_times_out :
  published (exec (RC522_Task_cycle (hdr := mfrc522_h)) (power_on silent))
  = [ {| uid := [0x93; 0x20; 0; 0; 0; 0; 0; 0; 0; 0];
         uid_length := 0;
         tagType := (0x26, 0x00);
         status := RC522_STATUS_UNSUCCESSFUL |} ]
  /\ ticks (exec (RC522_Task_cycle (hdr := mfrc522_h)) (power_on silent))
     = (2 * (2 * 2000) + 54)%nat.
Proof. vm_compute. split; reflexivity. Qed.

Example scenario_C_checksum_mismatch :
  published (exec (RC522_Task_cycle (hdr := mfrc522_h)) (power_on card_bad_checksum))
  = [ {| uid := [0x12; 0x34; 0x56; 0x78; 0x09; 0; 0; 0; 0; 0];
         uid_length := 0;
         tagType := (0x04, 0x00);
         status := RC522_STATUS_UNSUCCESSFUL |} ].
Proof. vm_compute. reflexivity. Qed.

(** * Further properties of the driver *)

(** ** Bit masks *)

Ltac bitwise :=
  apply Z.bits_inj'; intros ?n ?Hn;
  repeat first
    [ rewrite Z.land_spec | rewrite Z.lor_spec
    | rewrite Z.lnot_spec by assumption | rewrite Z.bits_0 ];
  repeat match goal with
         | |- context [Z.testbit ?a ?n] =>
             is_var a; destruct (Z.testbit a n)
         end;
  try reflexivity.

Lemma lor_byte (a b : Z) :
  0 <= a <= 255 -> 0 <= b <= 255 -> 0 <= Z.lor a b <= 255.
Proof.
  intros Ha Hb.
  assert (Hnn : 0 <= Z.lor a b) by (apply Z.lor_nonneg; lia).
  split; [exact Hnn|].
  destruct (Z.eq_dec (Z.lor a b) 0) as [->|Hne]; [lia|].
  assert (Hlog : forall x, 0 <= x <= 255 -> Z.log2 x < 8).
  { intros x Hx. destruct (Z.eq_dec x 0) as [->|Hx0]; [reflexivity|].
    apply Z.log2_lt_pow2; lia. }
  assert (Z.lor a b < 2 ^ 8); [|lia].
  apply Z.log2_lt_pow2; [lia|].
  rewrite Z.log2_lor by lia.
  pose proof (Hlog a Ha). pose proof (Hlog b Hb). lia.
Qed.

Lemma lor_sets (t m : Z) : Z.land (Z.lor t m) m = m.
Proof. bitwise. Qed.

Lemma lor_keeps (t m : Z) :
  Z.land (Z.lor t m) (Z.lnot m) = Z.land t (Z.lnot m).
Proof. bitwise. Qed.

Lemma ldiff_clears (t m : Z) : Z.land (Z.land t (Z.lnot m)) m = 0.
Proof. bitwise. Qed.

Lemma ldiff_keeps (t m : Z) :
  Z.lor (Z.land t (Z.lnot m)) (Z.land t m) = t.
Proof. bitwise. Qed.

Lemma ldiff_byte (t m : Z) : 0 <= t <= 255 -> 0 <= Z.land t (Z.lnot m) <= 255.
Proof.
  intros Ht. rewrite Z.land_comm.
  pose proof (land_mask_le (Z.lnot m) t ltac:(lia)). lia.
Qed.

(** The address byte depends on the low six bits of the address only. *)
Lemma write_address_mod64 (a : Z) : write_address a = write_address (a mod 64).
Proof.
  unfold write_address. apply Z.bits_inj'. intros n Hn.
  rewrite !Z.land_spec.
  destruct (Z.lt_ge_cases n 7) as [Hlt|Hge].
  - destruct (Z.eq_dec n 0) as [->|Hn0].
    + rewrite !Z.shiftl_spec_low by lia. reflexivity.
    + rewrite !Z.shiftl_spec by lia. f_equal.
      change 64 with (2 ^ 6). now rewrite Z.mod_pow2_bits_low by lia.
  - assert (Hz : Z.testbit 126 n = false).
    { apply Z.bits_above_log2; [lia|]. change (Z.log2 126) with 6. lia. }
    now rewrite Hz, !Bool.andb_false_r.
Qed.

Lemma write_address_bits (a : Z) :
  Z.testbit (write_address a) 0 = false /\ Z.testbit (write_address a) 7 = false.
Proof.
  unfold write_address. rewrite !Z.land_spec.
  split; apply Bool.andb_false_iff; right; reflexivity.
Qed.

Lemma read_address_bits (a : Z) :
  Z.testbit (read_address a) 0 = false /\ Z.testbit (read_address a) 7 = true.
Proof.
  unfold read_address. rewrite !Z.lor_spec, !Z.land_spec. split.
  - change (Z.testbit 126 0) with false. change (Z.testbit 128 0) with false.
    now rewrite Bool.andb_false_r.
  - change (Z.testbit 128 7) with true. apply Bool.orb_true_r.
Qed.

Lemma uchar_add_64_mod64 (a : Z) : uchar (a + 64) mod 64 = uchar a mod 64.
Proof.
  unfold uchar.
  rewrite !(Z.mod_mod_divide _ 256 64) by (exists 4; reflexivity).
  rewrite <- Z.add_mod_idemp_r by lia. rewrite Z.mod_same by lia.
  now rewrite Z.add_0_r.
Qed.

(** X1. Whatever the address argument, the address byte of a write has bits 0
    and 7 clear and that of a read has bit 0 clear and bit 7 set; an address
    outside [0, 0x3F] is taken modulo 64: it reaches the register with the
    same low six bits, with the very same effect on the world. *)
Theorem register_address_aliasing (addr val : Z) (w : world) :
  (exists a,
     since w (exec (Write_MFRC522 addr val) w)
           [CS false; SPI a (reply w 0); SPI (uchar val) (reply w 1); CS true]
     /\ Z.testbit a 0 = false /\ Z.testbit a 7 = false)
  /\ (exists a,
        since w (exec (Read_MFRC522 addr) w)
              [CS false; SPI a (reply w 0); SPI 0 (reply w 1); CS true]
        /\ Z.testbit a 0 = false /\ Z.testbit a 7 = true)
  /\ Write_MFRC522 (addr + 64) val w = Write_MFRC522 addr val w
  /\ Read_MFRC522 (addr + 64) w = Read_MFRC522 addr w.
Proof.
  split; [|split; [|split]].
  - exists (write_address (uchar addr)). split.
    + unfold since, exec. rewrite Write_MFRC522_eq. unfold write_frame.
      rewrite write_address_byte. reflexivity.
    + apply write_address_bits.
  - exists (read_address (uchar addr)). split.
    + unfold since, exec. rewrite Read_MFRC522_eq. unfold read_frame.
      rewrite read_address_byte. reflexivity.
    + apply read_address_bits.
  - rewrite !Write_MFRC522_eq. unfold write_frame.
    rewrite (write_address_mod64 (uchar (addr + 64))).
    rewrite (write_address_mod64 (uchar addr)).
    now rewrite uchar_add_64_mod64.
  - rewrite !Read_MFRC522_eq. unfold read_frame, read_address.
    fold (write_address (uchar (addr + 64))). fold (write_address (uchar addr)).
    rewrite (write_address_mod64 (uchar (addr + 64))).
    rewrite (write_address_mod64 (uchar addr)).
    now rewrite uchar_add_64_mod64.
Qed.

(** X2. [SetBitMask] is one read followed by one write of the same register; the
    byte written has every bit of the mask set and all other bits as read. *)
Theorem SetBitMask_read_modify_write (reg mask : Z) (w : world) :
  let tmp := reply w 1 in
  let m := uchar mask in
  let v := Z.lor tmp m in
  since w (exec (SetBitMask reg mask) w)
        (read_frame reg w 0 ++ write_frame reg v w 2)
  /\ uchar v = v
  /\ Z.land v m = m
  /\ Z.land v (Z.lnot m) = Z.land tmp (Z.lnot m).
Proof.
  intros tmp m v.
  split; [|split; [|split]].
  - unfold since, exec.
    rewrite <- (advance_0 w) at 1. rewrite SetBitMask_advance.
    cbn [snd advance trace]. rewrite app_nil_r. reflexivity.
  - apply uchar_small. apply lor_byte; [apply reply_range|apply uchar_range].
  - apply lor_sets.
  - apply lor_keeps.
Qed.

(** X3. [ClearBitMask] is one read followed by one write of the same register;
    the byte written has every bit of the mask clear and all other bits as
    read. *)
Theorem ClearBitMask_read_modify_write (reg mask : Z) (w : world) :
  let tmp := reply w 1 in
  let m := uchar mask in
  let v := Z.land tmp (Z.lnot m) in
  since w (exec (ClearBitMask reg mask) w)
        (read_frame reg w 0 ++ write_frame reg v w 2)
  /\ uchar v = v
  /\ Z.land v m = 0
  /\ Z.lor v (Z.land tmp m) = tmp.
Proof.
  intros tmp m v.
  split; [|split; [|split]].
  - unfold since, exec.
    rewrite <- (advance_0 w) at 1. rewrite ClearBitMask_advance.
    cbn [snd advance trace]. rewrite app_nil_r. reflexivity.
  - apply uchar_small. apply ldiff_byte. apply reply_range.
  - apply ldiff_clears.
  - apply ldiff_keeps.
Qed.

(** ** Transfer counts *)

Lemma within_ret {A} (a : A) : within 0 0 (ret a).
Proof. intros w. rewrite exec_ret. lia. Qed.

Lemma within_bind {A B} (m : M A) (k : A -> M B) (a b c d : nat) :
  within a b m -> (forall x, within c d (k x)) ->
  within (a + c) (b + d) (bind m k).
Proof.
  intros Hm Hk w. rewrite exec_bind.
  specialize (Hm w). specialize (Hk (eval m w) (exec m w)). lia.
Qed.

Lemma within_weaken {A} (m : M A) (a b a' b' : nat) :
  (a' <= a)%nat -> (b <= b')%nat -> within a b m -> within a' b' m.
Proof. intros Ha Hb Hm w. specialize (Hm w). lia. Qed.

Lemma within_emit (e : event) : within 0 0 (emit e).
Proof. intros w. cbn. lia. Qed.

Lemma within_uninitialised : within 0 0 uninitialised.
Proof. intros w. cbn. lia. Qed.

Lemma within_Write_MFRC522 (addr val : Z) : within 2 2 (Write_MFRC522 addr val).
Proof. intros w. unfold exec. rewrite Write_MFRC522_eq. cbn. lia. Qed.

Lemma within_Read_MFRC522 (addr : Z) : within 2 2 (Read_MFRC522 addr).
Proof. intros w. unfold exec. rewrite Read_MFRC522_eq. cbn. lia. Qed.

Lemma within_SetBitMask (reg mask : Z) : within 4 4 (SetBitMask reg mask).
Proof.
  apply (within_bind _ _ 2 2 2 2); [apply within_Read_MFRC522|].
  intros tmp. apply within_Write_MFRC522.
Qed.

Lemma within_ClearBitMask (reg mask : Z) : within 4 4 (ClearBitMask reg mask).
Proof.
  apply (within_bind _ _ 2 2 2 2); [apply within_Read_MFRC522|].
  intros tmp. apply within_Write_MFRC522.
Qed.

Section More_facts.

Context {hdr : RC522_h} {blk : RC522_h_block}.

Lemma within_ToCard_fill (sendData : list Z) (todo : nat) :
  forall i, within (2 * todo) (2 * todo) (ToCard_fill sendData todo i).
Proof.
  induction todo as [|todo IH]; intros i; cbn [ToCard_fill].
  - apply within_ret.
  - eapply within_weaken;
      [| |apply (within_bind _ _ 2 2 (2 * todo) (2 * todo));
          [apply within_Write_MFRC522|intros _; apply IH]]; lia.
Qed.

Lemma within_ToCard_wait (waitIRq : Z) (i : nat) :
  within 2 (2 * S i) (ToCard_wait waitIRq i).
Proof.
  induction i as [|i IH]; cbn [ToCard_wait].
  - eapply within_weaken;
      [| |apply (within_bind _ _ 2 2 0 0);
          [apply within_Read_MFRC522|intros n; apply within_ret]]; lia.
  - eapply within_weaken;
      [| |apply (within_bind _ _ 2 2 0 (2 * S i)); [apply within_Read_MFRC522|]].
    + lia.
    + lia.
    + intros n. destruct (_ && _).
      * eapply within_weaken; [| |apply IH]; lia.
      * eapply within_weaken; [| |apply within_ret]; lia.
Qed.

Lemma within_ToCard_drain (todo : nat) :
  forall i backData,
    within (2 * todo) (2 * todo) (ToCard_drain todo i backData).
Proof.
  induction todo as [|todo IH]; intros i backData; cbn [ToCard_drain].
  - apply within_ret.
  - eapply within_weaken;
      [| |apply (within_bind _ _ 2 2 (2 * todo) (2 * todo));
          [apply within_Read_MFRC522|intros v; apply IH]]; lia.
Qed.

Lemma within_ToCard_issue (command irqEn : Z) (sendData : list Z) (sendLen : Z) :
  within (14 + 2 * Z.to_nat sendLen) (18 + 2 * Z.to_nat sendLen)
         (ToCard_issue command irqEn sendData sendLen).
Proof.
  unfold ToCard_issue.
  eapply within_weaken;
    [| |apply (within_bind _ _ 2 2 (12 + 2 * Z.to_nat sendLen)
                 (16 + 2 * Z.to_nat sendLen));
        [apply within_Write_MFRC522|intros _]]; [lia|lia|].
  eapply within_weaken;
    [| |apply (within_bind _ _ 4 4 (8 + 2 * Z.to_nat sendLen)
                 (12 + 2 * Z.to_nat sendLen));
        [apply within_ClearBitMask|intros _]]; [lia|lia|].
  eapply within_weaken;
    [| |apply (within_bind _ _ 4 4 (4 + 2 * Z.to_nat sendLen)
                 (8 + 2 * Z.to_nat sendLen));
        [apply within_SetBitMask|intros _]]; [lia|lia|].
  eapply within_weaken;
    [| |apply (within_bind _ _ 2 2 (2 + 2 * Z.to_nat sendLen)
                 (6 + 2 * Z.to_nat sendLen));
        [apply within_Write_MFRC522|intros _]]; [lia|lia|].
  eapply within_weaken;
    [| |apply (within_bind _ _ (2 * Z.to_nat sendLen) (2 * Z.to_nat sendLen) 2 6);
        [apply within_ToCard_fill|intros _]]; [lia|lia|].
  eapply within_weaken;
    [| |apply (within_bind _ _ 2 2 0 4);
        [apply within_Write_MFRC522|intros _]]; [lia|lia|].
  destruct (command =? PCD_TRANSCEIVE).
  - eapply within_weaken; [| |apply within_SetBitMask]; lia.
  - eapply within_weaken; [| |apply within_ret]; lia.
Qed.

Lemma within_ToCard_collect (command irqEn i n : Z) (backData : list Z)
    (backLen : Z) :
  header_ok ->
  within 0 (6 + 2 * Z.to_nat MAX_LEN)
         (ToCard_collect command irqEn i n backData backLen).
Proof.
  intros Hok. pose proof (max_len_range Hok) as Hmax.
  unfold ToCard_collect.
  destruct (negb (i =? 0));
    [|eapply within_weaken; [| |apply within_ret]; lia].
  eapply within_weaken;
    [| |apply (within_bind _ _ 2 2 0 (4 + 2 * Z.to_nat MAX_LEN));
        [apply within_Read_MFRC522|intros err]]; [lia|lia|].
  destruct (negb (truthy _));
    [|eapply within_weaken; [| |apply within_ret]; lia].
  destruct (command =? PCD_TRANSCEIVE);
    [|eapply within_weaken; [| |apply within_ret]; lia].
  intros w. rewrite exec_bind.
  pose proof (within_Read_MFRC522 FIFOLevelReg w) as H1.
  set (lvl := eval (Read_MFRC522 FIFOLevelReg) w).
  assert (Hlvl : 0 <= lvl <= 255)
    by (subst lvl; rewrite eval_Read_MFRC522; apply reply_range).
  set (w1 := exec (Read_MFRC522 FIFOLevelReg) w) in *.
  rewrite exec_bind.
  pose proof (within_Read_MFRC522 ControlReg w1) as H2.
  set (w2 := exec (Read_MFRC522 ControlReg) w1) in *.
  rewrite exec_bind, exec_ret.
  match goal with
  | |- context [ToCard_drain ?c ?k ?b] =>
      pose proof (within_ToCard_drain c k b w2) as H3;
      assert (Hc : (c <= Z.to_nat MAX_LEN)%nat)
  end.
  { rewrite (uchar_small MAX_LEN) by lia.
    destruct (lvl =? 0) eqn:E0;
      [apply Z.eqb_eq in E0 | apply Z.eqb_neq in E0];
      match goal with
      | |- context [MAX_LEN <? ?x] => destruct (Z.ltb_spec MAX_LEN x)
      end; lia. }
  clearbody w1 w2. lia.
Qed.

Lemma within_MFRC522_ToCard (command : Z) (sendData : list Z) (sendLen : Z)
    (backData : list Z) (backLen : Z) :
  header_ok ->
  within (20 + 2 * Z.to_nat (uchar sendLen))
         (28 + 2 * ToCard_budget + 2 * Z.to_nat (uchar sendLen)
          + 2 * Z.to_nat MAX_LEN)
         (MFRC522_ToCard command sendData sendLen backData backLen).
Proof.
  intros Hok. unfold MFRC522_ToCard.
  destruct (ToCard_irq (uchar command)) as [irqEn waitIRq].
  assert (Hb : ToCard_budget = S (Nat.pred ToCard_budget)) by reflexivity.
  set (b := Nat.pred ToCard_budget) in *. clearbody b. rewrite Hb.
  set (len := Z.to_nat (uchar sendLen)).
  eapply within_weaken;
    [| |apply (within_bind _ _ (14 + 2 * len) (18 + 2 * len) 6
                 (2 * S b + 10 + 2 * Z.to_nat MAX_LEN));
        [apply within_ToCard_issue|intros _]]; [lia|lia|].
  eapply within_weaken;
    [| |apply (within_bind _ _ 2 (2 * S b) 4 (10 + 2 * Z.to_nat MAX_LEN));
        [apply within_ToCard_wait|intros [i n]]]; [lia|lia|].
  eapply within_weaken;
    [| |apply (within_bind _ _ 4 4 0 (6 + 2 * Z.to_nat MAX_LEN));
        [apply within_ClearBitMask|intros _]]; [lia|lia|].
  now apply within_ToCard_collect.
Qed.

(** X4. Whatever the chip does, an exchange returns after a bounded number of
    transfers: at least [20 + 2 * sendLen], at most
    [4028 + 2 * sendLen + 2 * MAX_LEN]; the 2000-pass wait loop is the only
    part that depends on the chip by more than the drained bytes. *)
Theorem MFRC522_ToCard_bus_time (command : Z) (sendData : list Z) (sendLen : Z)
    (backData : list Z) (backLen : Z) (w : world) :
  header_ok ->
  let w' := exec (MFRC522_ToCard command sendData sendLen backData backLen) w in
  let len := Z.to_nat (uchar sendLen) in
  (ticks w + (20 + 2 * len) <= ticks w'
   <= ticks w + (28 + 2 * ToCard_budget + 2 * len + 2 * Z.to_nat MAX_LEN))%nat.
Proof.
  intros Hok. cbv zeta.
  exact (within_MFRC522_ToCard command sendData sendLen backData backLen Hok w).
Qed.

(** ** The wait loop *)

Lemma flagged_stop (waitIRq n : Z) :
  flagged waitIRq n ->
  negb (truthy (Z.land n 0x01)) && negb (truthy (Z.land n waitIRq)) = false.
Proof.
  unfold flagged, truthy. intros [H|H]; apply Z.eqb_neq in H; rewrite H.
  - reflexivity.
  - apply andb_false_r.
Qed.

Lemma unflagged_continue (waitIRq n : Z) :
  ~ flagged waitIRq n ->
  negb (truthy (Z.land n 0x01)) && negb (truthy (Z.land n waitIRq)) = true.
Proof.
  unfold flagged, truthy. intros H.
  destruct (Z.eqb_spec (Z.land n 1) 0) as [E1|E1];
    [|exfalso; apply H; now left].
  destruct (Z.eqb_spec (Z.land n waitIRq) 0) as [E2|E2];
    [|exfalso; apply H; now right].
  reflexivity.
Qed.

Lemma eval_Read_CommIrqReg (w : world) :
  eval (Read_MFRC522 CommIrqReg) w = irq_sample w 0.
Proof. unfold eval. rewrite Read_MFRC522_eq. reflexivity. Qed.

Lemma ticks_Read_MFRC522 (addr : Z) (w : world) :
  ticks (exec (Read_MFRC522 addr) w) = (2 + ticks w)%nat.
Proof. unfold exec. rewrite Read_MFRC522_eq. reflexivity. Qed.

(** The loop leaves at the first pass that reads a flag, with the budget
    that is left. *)
Lemma ToCard_wait_first_flag (waitIRq : Z) (k : nat) :
  forall (i : nat) (w : world),
    (k < i)%nat ->
    (forall j, (j < k)%nat -> ~ flagged waitIRq (irq_sample w j)) ->
    flagged waitIRq (irq_sample w k) ->
    eval (ToCard_wait waitIRq i) w = (Z.of_nat (i - k), irq_sample w k)
    /\ ticks (exec (ToCard_wait waitIRq i) w) = (2 * S k + ticks w)%nat.
Proof.
  induction k as [|k IH]; intros i w Hk Hbefore Hflag;
    (destruct i as [|i]; [lia|]); cbn [ToCard_wait];
    rewrite eval_bind, exec_bind, eval_Read_CommIrqReg.
  - rewrite (flagged_stop _ _ Hflag). rewrite eval_ret, exec_ret.
    split; [reflexivity|]. rewrite ticks_Read_MFRC522. lia.
  - rewrite (unflagged_continue _ _ (Hbefore 0%nat ltac:(lia))).
    destruct (IH i (exec (Read_MFRC522 CommIrqReg) w)) as [He Ht].
    + lia.
    + intros j Hj. rewrite irq_sample_after_read. apply Hbefore. lia.
    + rewrite irq_sample_after_read. exact Hflag.
    + rewrite He, Ht, irq_sample_after_read, ticks_Read_MFRC522.
      split; [reflexivity|lia].
Qed.

(** The last pass leaves with [i == 0] whatever it reads. *)
Lemma ToCard_wait_last_pass (waitIRq : Z) (i : nat) :
  forall (w : world),
    (forall j, (j < i)%nat -> ~ flagged waitIRq (irq_sample w j)) ->
    eval (ToCard_wait waitIRq i) w = (0, irq_sample w i)
    /\ ticks (exec (ToCard_wait waitIRq i) w) = (2 * S i + ticks w)%nat.
Proof.
  induction i as [|i IH]; intros w Hbefore; cbn [ToCard_wait];
    rewrite eval_bind, exec_bind, eval_Read_CommIrqReg.
  - rewrite eval_ret, exec_ret, ticks_Read_MFRC522. split; [reflexivity|lia].
  - rewrite (unflagged_continue _ _ (Hbefore 0%nat ltac:(lia))).
    destruct (IH (exec (Read_MFRC522 CommIrqReg) w)) as [He Ht].
    + intros j Hj. rewrite irq_sample_after_read. apply Hbefore. lia.
    + rewrite He, Ht, irq_sample_after_read, ticks_Read_MFRC522.
      split; [reflexivity|lia].
Qed.

Lemma ToCard_reach_collect_wait (command : Z) (sendData : list Z) (sendLen : Z)
    (w : world) :
  let cmd := uchar command in
  let w1 := exec (ToCard_issue cmd (fst (ToCard_irq cmd)) sendData
                    (uchar sendLen)) w in
  let wait := ToCard_wait (snd (ToCard_irq cmd)) (Nat.pred ToCard_budget) in
  eval (ToCard_reach_collect command sendData sendLen) w = eval wait w1
  /\ ticks (exec (ToCard_reach_collect command sendData sendLen) w)
     = (4 + ticks (exec wait w1))%nat.
Proof.
  intros cmd w1 wait. unfold ToCard_reach_collect. fold cmd.
  rewrite !eval_bind, !exec_bind. fold w1. subst wait.
  set (b := Nat.pred ToCard_budget). clearbody b.
  rewrite eval_ret, exec_ret, ticks_ClearBitMask. split; reflexivity.
Qed.

Lemma ToCard_irq_timer (cmd n : Z) :
  header_ok ->
  Z.land (Z.land n (fst (ToCard_irq cmd))) 0x01
  = if cmd =? PCD_TRANSCEIVE then Z.land n 0x01 else 0.
Proof.
  intros Hok. unfold ToCard_irq.
  destruct (Z.eqb_spec cmd PCD_AUTHENT) as [Ea|Ea];
    destruct (Z.eqb_spec cmd PCD_TRANSCEIVE) as [Et|Et];
    cbn [fst]; rewrite <- ?Z.land_assoc.
  - exfalso. apply (authent_ne_transceive Hok). congruence.
  - change (Z.land 18 1) with 0. apply Z.land_0_r.
  - reflexivity.
  - apply Z.land_0_r.
Qed.

(** The status of the part after the loop, case by case. *)
Lemma ToCard_collect_outcome (command irqEn i n : Z) (backData : list Z)
    (backLen : Z) (w : world) :
  let st := fst (fst (eval (ToCard_collect command irqEn i n backData backLen) w)) in
  (i = 0 /\ st = MI_ERR)
  \/ (i <> 0 /\ Z.land (eval (Read_MFRC522 ErrorReg) w) 0x1B <> 0 /\ st = MI_ERR)
  \/ (i <> 0 /\ Z.land (eval (Read_MFRC522 ErrorReg) w) 0x1B = 0
      /\ st = if truthy (Z.land (Z.land n irqEn) 0x01) then MI_NOTAGERR
              else MI_OK).
Proof.
  intros st. subst st.
  destruct (Z.eq_dec i 0) as [Ei|Ei].
  - left. subst i. unfold eval. rewrite ToCard_collect_exhausted. now split.
  - right.
    destruct (Z.eq_dec (Z.land (eval (Read_MFRC522 ErrorReg) w) 0x1B) 0)
      as [Ee|Ee].
    + right. rewrite ToCard_collect_status by assumption. now repeat split.
    + left. rewrite ToCard_collect_hw_error by assumption. now repeat split.
Qed.

(** X5. An exchange whose wait loop reads its first flag on pass [k] (from 0)
    with budget to spare stops polling there: [k + 1] reads of [CommIrqReg],
    [i] left at [2000 - (k + 1)].  From then on the status is [MI_ERR] exactly
    when [ErrorReg] shows one of the fault bits [0x1B]. *)
Theorem MFRC522_ToCard_first_flag (command : Z) (sendData : list Z) (sendLen : Z)
    (backData : list Z) (backLen : Z) (w : world) (k : nat) :
  header_ok ->
  let cmd := uchar command in
  let waitIRq := snd (ToCard_irq cmd) in
  let w1 := exec (ToCard_issue cmd (fst (ToCard_irq cmd)) sendData
                    (uchar sendLen)) w in
  let reach := ToCard_reach_collect command sendData sendLen in
  (S k < ToCard_budget)%nat ->
  (forall j, (j < k)%nat -> ~ flagged waitIRq (irq_sample w1 j)) ->
  flagged waitIRq (irq_sample w1 k) ->
  eval reach w = (Z.of_nat (ToCard_budget - S k), irq_sample w1 k)
  /\ ticks (exec reach w) = (4 + 2 * S k + ticks w1)%nat
  /\ (fst (fst (eval (MFRC522_ToCard command sendData sendLen backData backLen) w))
      = MI_ERR
      <-> Z.land (eval (Read_MFRC522 ErrorReg) (exec reach w)) 0x1B <> 0).
Proof.
  intros Hok cmd waitIRq w1 reach Hk Hbefore Hflag.
  destruct (ToCard_reach_collect_wait command sendData sendLen w) as [He Ht].
  fold cmd in He, Ht. fold w1 in He, Ht. fold waitIRq in He, Ht.
  fold reach in He, Ht.
  assert (Hb : ToCard_budget = S (Nat.pred ToCard_budget)) by reflexivity.
  set (b := Nat.pred ToCard_budget) in *. clearbody b. rewrite Hb in *.
  destruct (ToCard_wait_first_flag waitIRq k b w1 ltac:(lia) Hbefore Hflag)
    as [He' Ht'].
  rewrite He' in He. rewrite Ht' in Ht.
  split; [|split].
  - rewrite He. reflexivity.
  - rewrite Ht. clearbody w1. lia.
  - rewrite eval_MFRC522_ToCard. fold reach. rewrite He. cbn [fst snd].
    set (w2 := exec reach w). clearbody w2.
    destruct (ToCard_collect_outcome cmd (fst (ToCard_irq cmd))
                (Z.of_nat (b - k)) (irq_sample w1 k) backData backLen w2)
      as [[Hi _]|[(_ & Herr & Hst)|(_ & Herr & Hst)]].
    + lia.
    + fold cmd. rewrite Hst. tauto.
    + fold cmd. rewrite Hst. split; [|tauto].
      intros E. exfalso.
      destruct (truthy _);
        [apply (notag_ne_err Hok)|apply (ok_ne_err Hok)]; exact E.
Qed.

(** X6. A completion flag that shows only on the 2000th pass comes too late: the
    loop has used its budget, and the exchange returns [MI_ERR] with buffer
    and bit count as the caller passed them, after exactly 2000 reads of
    [CommIrqReg], whatever the last read returned. *)
Theorem MFRC522_ToCard_last_pass_too_late (command : Z) (sendData : list Z)
    (sendLen : Z) (backData : list Z) (backLen : Z) (w : world) :
  let cmd := uchar command in
  let waitIRq := snd (ToCard_irq cmd) in
  let w1 := exec (ToCard_issue cmd (fst (ToCard_irq cmd)) sendData
                    (uchar sendLen)) w in
  (forall j, (S j < ToCard_budget)%nat -> ~ flagged waitIRq (irq_sample w1 j)) ->
  eval (MFRC522_ToCard command sendData sendLen backData backLen) w
  = (MI_ERR, backData, backLen)
  /\ ticks (exec (MFRC522_ToCard command sendData sendLen backData backLen) w)
     = (4 + 2 * ToCard_budget + ticks w1)%nat.
Proof.
  intros cmd waitIRq w1 Hbefore.
  destruct (ToCard_reach_collect_wait command sendData sendLen w) as [He Ht].
  fold cmd in He, Ht. fold w1 in He, Ht. fold waitIRq in He, Ht.
  assert (Hb : ToCard_budget = S (Nat.pred ToCard_budget)) by reflexivity.
  set (b := Nat.pred ToCard_budget) in *. clearbody b. rewrite Hb in *.
  destruct (ToCard_wait_last_pass waitIRq b w1) as [He' Ht'].
  { intros j Hj. apply Hbefore. lia. }
  rewrite He' in He. rewrite Ht' in Ht.
  rewrite eval_MFRC522_ToCard, exec_MFRC522_ToCard, He. cbn [fst snd].
  split.
  - unfold eval at 1. rewrite ToCard_collect_exhausted. reflexivity.
  - unfold exec at 1. rewrite ToCard_collect_exhausted. cbn [snd].
    rewrite Ht. clearbody w1. lia.
Qed.

(** X7. The three outcomes of an exchange and when each is returned: [MI_ERR]
    when the loop used up its budget or [ErrorReg] shows a fault bit;
    [MI_NOTAGERR] only for [PCD_TRANSCEIVE], with budget left, no fault bit
    and the timer flag in the last value read from [CommIrqReg]; [MI_OK]
    otherwise. *)
Theorem MFRC522_ToCard_status (command : Z) (sendData : list Z) (sendLen : Z)
    (backData : list Z) (backLen : Z) (w : world) :
  header_ok ->
  let reach := ToCard_reach_collect command sendData sendLen in
  let i := fst (eval reach w) in
  let n := snd (eval reach w) in
  let err := eval (Read_MFRC522 ErrorReg) (exec reach w) in
  let st :=
    fst (fst (eval (MFRC522_ToCard command sendData sendLen backData backLen) w)) in
  (st = MI_OK \/ st = MI_NOTAGERR \/ st = MI_ERR)
  /\ (st = MI_ERR <-> i = 0 \/ Z.land err 0x1B <> 0)
  /\ (st = MI_NOTAGERR <->
        i <> 0 /\ Z.land err 0x1B = 0 /\ uchar command = PCD_TRANSCEIVE
        /\ Z.land n 0x01 <> 0).
Proof.
  intros Hok reach i n err st.
  pose proof (ok_ne_err Hok) as H1. pose proof (ok_ne_notag Hok) as H2.
  pose proof (notag_ne_err Hok) as H3.
  subst st. rewrite eval_MFRC522_ToCard. fold reach. fold i. fold n.
  subst err. set (w2 := exec reach w). clearbody w2. clearbody i n.
  destruct (ToCard_collect_outcome (uchar command)
              (fst (ToCard_irq (uchar command))) i n backData backLen w2)
    as [[Hi Hst]|[(Hi & Herr & Hst)|(Hi & Herr & Hst)]];
    rewrite Hst; clear Hst.
  - split; [tauto|]. split; [tauto|]. split; [congruence|tauto].
  - split; [tauto|]. split; [tauto|]. split; [congruence|tauto].
  - rewrite ToCard_irq_timer by assumption. unfold truthy.
    destruct (Z.eqb_spec (uchar command) PCD_TRANSCEIVE) as [Et|Et].
    + destruct (Z.eqb_spec (Z.land n 1) 0) as [En|En]; cbn [negb].
      * split; [tauto|]. split; [split; [congruence|tauto]|].
        split; [congruence|tauto].
      * split; [tauto|]. split; [split; [congruence|tauto]|].
        split; [tauto|tauto].
    + cbn [Z.eqb negb].
      split; [tauto|]. split; [split; [congruence|tauto]|].
      split; [congruence|tauto].
Qed.

(** ** What an exchange leaves alone *)

Lemma ToCard_collect_untouched (command irqEn i n : Z) (backData : list Z)
    (backLen : Z) (w : world) :
  header_ok ->
  fst (fst (eval (ToCard_collect command irqEn i n backData backLen) w)) = MI_ERR
  \/ command <> PCD_TRANSCEIVE ->
  snd (fst (eval (ToCard_collect command irqEn i n backData backLen) w))
  = backData
  /\ snd (eval (ToCard_collect command irqEn i n backData backLen) w) = backLen
  /\ (since w (exec (ToCard_collect command irqEn i n backData backLen) w) []
      \/ since w (exec (ToCard_collect command irqEn i n backData backLen) w)
                 (read_frame ErrorReg w 0)).
Proof.
  intros Hok. unfold ToCard_collect.
  assert (Hr : since w (exec (Read_MFRC522 ErrorReg) w) (read_frame ErrorReg w 0))
    by (unfold since, exec; rewrite Read_MFRC522_eq; reflexivity).
  assert (H0 : since w w []) by reflexivity.
  destruct (negb (i =? 0));
    [|intros _; rewrite eval_ret, exec_ret; cbn [fst snd]; auto].
  rewrite eval_bind, exec_bind.
  destruct (negb (truthy _));
    [|intros _; rewrite eval_ret, exec_ret; cbn [fst snd]; auto].
  destruct (Z.eqb_spec command PCD_TRANSCEIVE) as [Et|Et];
    [|intros _; rewrite eval_ret, exec_ret; cbn [fst snd]; auto].
  rewrite !eval_bind, eval_ret. cbn [fst snd].
  intros [E|E]; [|contradiction]. exfalso.
  destruct (truthy _);
    [apply (notag_ne_err Hok)|apply (ok_ne_err Hok)]; exact E.
Qed.

(** X8. An exchange that returns [MI_ERR], and every exchange of a command other
    than [PCD_TRANSCEIVE], hands buffer and bit count back as they were
    passed, and after the wait loop touches the chip at most to read
    [ErrorReg]: the FIFO is never read. *)
Theorem MFRC522_ToCard_failure_leaves_buffer (command : Z) (sendData : list Z)
    (sendLen : Z) (backData : list Z) (backLen : Z) (w : world) :
  header_ok ->
  let r := eval (MFRC522_ToCard command sendData sendLen backData backLen) w in
  let w1 := exec (ToCard_reach_collect command sendData sendLen) w in
  let w' := exec (MFRC522_ToCard command sendData sendLen backData backLen) w in
  fst (fst r) = MI_ERR \/ uchar command <> PCD_TRANSCEIVE ->
  snd (fst r) = backData /\ snd r = backLen
  /\ (since w1 w' [] \/ since w1 w' (read_frame ErrorReg w1 0)).
Proof.
  intros Hok. cbv zeta.
  rewrite eval_MFRC522_ToCard, exec_MFRC522_ToCard.
  apply ToCard_collect_untouched. exact Hok.
Qed.

Lemma ToCard_collect_beyond (command irqEn i n : Z) (backData : list Z)
    (backLen : Z) (w : world) (j : nat) :
  header_ok ->
  (Z.to_nat MAX_LEN <= j)%nat ->
  peek (snd (fst (eval (ToCard_collect command irqEn i n backData backLen) w))) j
  = peek backData j.
Proof.
  intros Hok Hj. pose proof (max_len_range Hok) as Hmax.
  unfold ToCard_collect.
  destruct (negb (i =? 0)); [|reflexivity].
  rewrite eval_bind.
  destruct (negb (truthy _)); [|reflexivity].
  destruct (command =? PCD_TRANSCEIVE); [|reflexivity].
  rewrite !eval_bind, eval_ret. cbn [fst snd].
  set (w1 := exec (Read_MFRC522 ErrorReg) w).
  set (lvl := eval (Read_MFRC522 FIFOLevelReg) w1).
  assert (Hlvl : 0 <= lvl <= 255)
    by (subst lvl; rewrite eval_Read_MFRC522; apply reply_range).
  clearbody lvl.
  match goal with
  | |- context [ToCard_drain ?c ?k ?b] =>
      set (count := c); assert (Hc : (count <= Z.to_nat MAX_LEN)%nat)
  end.
  { subst count. rewrite (uchar_small MAX_LEN) by lia.
    destruct (lvl =? 0) eqn:E0;
      [apply Z.eqb_eq in E0 | apply Z.eqb_neq in E0];
      match goal with
      | |- context [MAX_LEN <? ?x] => destruct (Z.ltb_spec MAX_LEN x)
      end; lia. }
  clearbody count.
  match goal with
  | |- context [eval (ToCard_drain count 0 backData) ?w2] =>
      destruct (ToCard_drain_spec count 0 backData w2) as (_ & _ & _ & Hpeek)
  end.
  rewrite Hpeek.
  replace (j <? 0 + count)%nat with false by (symmetry; apply Nat.ltb_ge; lia).
  rewrite andb_false_r. reflexivity.
Qed.

Lemma MFRC522_ToCard_untouched (command : Z) (sendData : list Z) (sendLen : Z)
    (backData : list Z) (backLen : Z) (w : world) :
  header_ok ->
  fst (fst (eval (MFRC522_ToCard command sendData sendLen backData backLen) w))
  = MI_ERR ->
  snd (fst (eval (MFRC522_ToCard command sendData sendLen backData backLen) w))
  = backData
  /\ snd (eval (MFRC522_ToCard command sendData sendLen backData backLen) w)
     = backLen.
Proof.
  intros Hok. rewrite eval_MFRC522_ToCard. intros H.
  match type of H with
  | fst (fst (eval (ToCard_collect ?c ?e ?i ?n _ _) ?w1)) = _ =>
      destruct (ToCard_collect_untouched c e i n backData backLen w1 Hok
                  (or_introl H)) as (Hb & Hl & _)
  end.
  now split.
Qed.

Lemma MFRC522_ToCard_beyond (command : Z) (sendData : list Z) (sendLen : Z)
    (backData : list Z) (backLen : Z) (w : world) (j : nat) :
  header_ok ->
  (Z.to_nat MAX_LEN <= j)%nat ->
  peek (snd (fst (eval (MFRC522_ToCard command sendData sendLen backData
                          backLen) w))) j
  = peek backData j.
Proof.
  intros Hok Hj. rewrite eval_MFRC522_ToCard. now apply ToCard_collect_beyond.
Qed.

Lemma ToCard_stores_le (command : Z) (sendData : list Z) (sendLen : Z)
    (w : world) :
  header_ok ->
  (ToCard_stores command sendData sendLen w <= Z.to_nat MAX_LEN)%nat.
Proof.
  intros Hok. pose proof (max_len_range Hok) as Hmax.
  unfold ToCard_stores. cbv zeta.
  destruct (_ && _); [|lia].
  match goal with
  | |- context [eval (Read_MFRC522 FIFOLevelReg) ?w2] =>
      set (lvl := eval (Read_MFRC522 FIFOLevelReg) w2);
      assert (Hlvl : 0 <= lvl <= 255)
        by (subst lvl; rewrite eval_Read_MFRC522; apply reply_range);
      clearbody lvl
  end.
  rewrite (uchar_small MAX_LEN) by lia.
  destruct (lvl =? 0) eqn:E0;
    [apply Z.eqb_eq in E0 | apply Z.eqb_neq in E0];
    match goal with
    | |- context [MAX_LEN <? ?x] => destruct (Z.ltb_spec MAX_LEN x)
    end; lia.
Qed.

Lemma ToCard_collect_drain (command irqEn i n0 : Z) (backData : list Z)
    (backLen : Z) (w1 : world) :
  exists w4,
    snd (fst (eval (ToCard_collect command irqEn i n0 backData backLen) w1))
    = eval (ToCard_drain
              (if (command =? PCD_TRANSCEIVE) && negb (i =? 0)
                  && negb (truthy (Z.land (eval (Read_MFRC522 ErrorReg) w1) 27))
               then
                 Z.to_nat
                   (if MAX_LEN
                       <? (if eval (Read_MFRC522 FIFOLevelReg)
                                (exec (Read_MFRC522 ErrorReg) w1) =? 0
                           then 1
                           else eval (Read_MFRC522 FIFOLevelReg)
                                  (exec (Read_MFRC522 ErrorReg) w1))
                    then uchar MAX_LEN
                    else if eval (Read_MFRC522 FIFOLevelReg)
                              (exec (Read_MFRC522 ErrorReg) w1) =? 0
                         then 1
                         else eval (Read_MFRC522 FIFOLevelReg)
                                (exec (Read_MFRC522 ErrorReg) w1))
               else 0%nat) 0 backData) w4
    /\ exec (ToCard_collect command irqEn i n0 backData backLen) w1
       = exec (ToCard_drain
                 (if (command =? PCD_TRANSCEIVE) && negb (i =? 0)
                     && negb (truthy (Z.land (eval (Read_MFRC522 ErrorReg) w1) 27))
                  then
                    Z.to_nat
                      (if MAX_LEN
                          <? (if eval (Read_MFRC522 FIFOLevelReg)
                                   (exec (Read_MFRC522 ErrorReg) w1) =? 0
                              then 1
                              else eval (Read_MFRC522 FIFOLevelReg)
                                     (exec (Read_MFRC522 ErrorReg) w1))
                       then uchar MAX_LEN
                       else if eval (Read_MFRC522 FIFOLevelReg)
                                 (exec (Read_MFRC522 ErrorReg) w1) =? 0
                            then 1
                            else eval (Read_MFRC522 FIFOLevelReg)
                                   (exec (Read_MFRC522 ErrorReg) w1))
                  else 0%nat) 0 backData) w4.
Proof.
  unfold ToCard_collect.
  destruct (negb (i =? 0)).
  - rewrite eval_bind, exec_bind.
    destruct (negb (truthy (Z.land (eval (Read_MFRC522 ErrorReg) w1) 27))).
    + destruct (command =? PCD_TRANSCEIVE).
      * cbn [andb]. rewrite !eval_bind, !exec_bind, eval_ret, exec_ret.
        cbn [fst snd]. eexists. split; reflexivity.
      * cbn [andb]. rewrite eval_ret, exec_ret.
        eexists. split; reflexivity.
    + rewrite !andb_false_r. rewrite eval_ret, exec_ret.
      eexists. split; reflexivity.
  - rewrite !andb_false_r. cbn [andb]. rewrite eval_ret, exec_ret.
    eexists. split; reflexivity.
Qed.

(** [ToCard_stores] is the number of passes of the receive loop: what an
    exchange returns in the buffer and the world it ends in are those of
    that many passes from index 0. *)
Lemma ToCard_stores_drain (command : Z) (sendData : list Z) (sendLen : Z)
    (backData : list Z) (backLen : Z) (w : world) :
  exists w4,
    snd (fst (eval (MFRC522_ToCard command sendData sendLen backData backLen) w))
    = eval (ToCard_drain (ToCard_stores command sendData sendLen w) 0 backData)
           w4
    /\ exec (MFRC522_ToCard command sendData sendLen backData backLen) w
       = exec (ToCard_drain (ToCard_stores command sendData sendLen w) 0
                 backData) w4.
Proof.
  rewrite eval_MFRC522_ToCard, exec_MFRC522_ToCard.
  unfold ToCard_stores. cbv zeta.
  apply ToCard_collect_drain.
Qed.

(** X9. A buffer of [MAX_LEN] bytes is always enough: whatever FIFO level
    the chip reports, the bytes an exchange stores fit such a buffer, no
    byte at index [MAX_LEN] or beyond is changed, and a buffer of byte values
    stays one. *)
Theorem MFRC522_ToCard_store_bound (command : Z) (sendData : list Z)
    (sendLen : Z) (backData : list Z) (backLen : Z) (w : world) :
  header_ok ->
  (Z.to_nat MAX_LEN <= length backData)%nat ->
  let buf :=
    snd (fst (eval (MFRC522_ToCard command sendData sendLen backData backLen) w)) in
  (ToCard_stores command sendData sendLen w <= length backData)%nat
  /\ (forall j, (Z.to_nat MAX_LEN <= j)%nat -> peek buf j = peek backData j)
  /\ (bytes backData -> bytes buf).
Proof.
  intros Hok Hcap buf. subst buf.
  split.
  { pose proof (ToCard_stores_le command sendData sendLen w Hok). lia. }
  split; [|apply MFRC522_ToCard_bytes].
  intros j Hj. rewrite eval_MFRC522_ToCard.
  now apply ToCard_collect_beyond.
Qed.

(** ** [CalulateCRC] *)

Lemma within_if {A} (c : bool) (m1 m2 : M A) (a b a' b' : nat) :
  within a b m1 -> within a' b' m2 ->
  within (Nat.min a a') (Nat.max b b') (if c then m1 else m2).
Proof.
  intros H1 H2 w. destruct c; [specialize (H1 w)|specialize (H2 w)]; lia.
Qed.

Lemma only_exec (P : event -> Prop) {A} (m : M A) (w0 w : world) :
  keeps P m -> only P w0 w -> only P w0 (exec m w).
Proof. intros Hm Hw. eapply only_trans; [exact Hw|apply Hm]. Qed.

Lemma CalulateCRC_fill_eq (pIndata : list Z) (todo : nat) :
  forall i, CalulateCRC_fill pIndata todo i = ToCard_fill pIndata todo i.
Proof.
  induction todo as [|todo IH]; intros i; cbn [CalulateCRC_fill ToCard_fill].
  - reflexivity.
  - now rewrite IH.
Qed.

Lemma keeps_CalulateCRC_wait (i : nat) : keeps bus_event (CalulateCRC_wait i).
Proof.
  induction i as [|i IH]; cbn [CalulateCRC_wait].
  - apply keeps_bind; [apply keeps_Read_MFRC522|]. intros n. apply keeps_ret.
  - apply keeps_bind; [apply keeps_Read_MFRC522|]. intros n.
    destruct (negb _); [apply IH | apply keeps_ret].
Qed.

Lemma within_CalulateCRC_wait (i : nat) : within 2 (2 * S i) (CalulateCRC_wait i).
Proof.
  induction i as [|i IH]; cbn [CalulateCRC_wait].
  - eapply within_weaken;
      [| |apply (within_bind _ _ 2 2 0 0);
          [apply within_Read_MFRC522|intros n; apply within_ret]]; lia.
  - eapply within_weaken;
      [| |apply (within_bind _ _ 2 2 0 (2 * S i)); [apply within_Read_MFRC522|]].
    + lia.
    + lia.
    + intros n. destruct (negb _).
      * eapply within_weaken; [| |apply IH]; lia.
      * eapply within_weaken; [| |apply within_ret]; lia.
Qed.

Hint Resolve keeps_ToCard_fill keeps_ToCard_wait keeps_ToCard_drain
  keeps_ToCard_issue keeps_ToCard_collect keeps_MFRC522_ToCard
  keeps_CalulateCRC_wait : keeps.

Lemma keeps_CalulateCRC (pIndata : list Z) (len : Z) (out : nat) :
  keeps bus_event (CalulateCRC pIndata len out).
Proof.
  unfold CalulateCRC. rewrite CalulateCRC_fill_eq.
  generalize (Nat.pred CalulateCRC_budget). intros b. keeps_step.
Qed.

Hint Resolve keeps_CalulateCRC : keeps.

(** Bounds of a sequence from the bounds of its parts; [leaf] bounds the
    calls. *)
Ltac within_chain_with leaf :=
  cbv zeta;
  lazymatch goal with
  | |- within _ _ (bind _ _) =>
      eapply within_bind;
      [within_chain_with leaf | intros ?; within_chain_with leaf]
  | |- within _ _ (if _ then _ else _) =>
      eapply within_if; within_chain_with leaf
  | |- within _ _ (match ?x with _ => _ end) =>
      destruct x; within_chain_with leaf
  | |- within _ _ (ret _) => apply within_ret
  | |- within _ _ (emit _) => apply within_emit
  | |- within _ _ uninitialised => apply within_uninitialised
  | |- within _ _ (Write_MFRC522 _ _) => apply within_Write_MFRC522
  | |- within _ _ (Read_MFRC522 _) => apply within_Read_MFRC522
  | |- within _ _ (SetBitMask _ _) => apply within_SetBitMask
  | |- within _ _ (ClearBitMask _ _) => apply within_ClearBitMask
  | |- within _ _ (ToCard_fill _ _ _) => apply within_ToCard_fill
  | |- within _ _ (CalulateCRC_wait _) => apply within_CalulateCRC_wait
  | |- _ => leaf
  end.

Ltac within_chain := within_chain_with ltac:(fail).

Lemma within_CalulateCRC (pIndata : list Z) (len : Z) (out : nat) :
  within (16 + 2 * Z.to_nat (uchar len))
         (14 + 2 * CalulateCRC_budget + 2 * Z.to_nat (uchar len))
         (CalulateCRC pIndata len out).
Proof.
  unfold CalulateCRC. rewrite CalulateCRC_fill_eq.
  assert (Hb : CalulateCRC_budget = S (Nat.pred CalulateCRC_budget))
    by reflexivity.
  set (b := Nat.pred CalulateCRC_budget) in *. clearbody b. rewrite Hb.
  eapply within_weaken; [| |within_chain]; lia.
Qed.

Lemma CalulateCRC_advance (pIndata : list Z) (len : Z) (out : nat) (w : world)
    (k : nat) (evs0 : list event) :
  exists evs,
    trace (exec (CalulateCRC pIndata len out) (advance w k evs0))
    = evs ++ rev (CalulateCRC_opening pIndata (Z.to_nat (uchar len)) w k)
      ++ evs0 ++ trace w
    /\ Forall bus_event evs.
Proof.
  unfold CalulateCRC, CalulateCRC_opening. rewrite CalulateCRC_fill_eq.
  generalize (Nat.pred CalulateCRC_budget). intros b.
  rewrite exec_bind.
  rewrite (exec_of_run _ _ _ _ (ClearBitMask_advance _ _ w _ _)).
  rewrite exec_bind.
  rewrite (exec_of_run _ _ _ _ (SetBitMask_advance _ _ w _ _)).
  rewrite exec_bind.
  rewrite (exec_of_run _ _ _ _ (ToCard_fill_advance _ _ _ w _ _)).
  rewrite exec_bind.
  rewrite (exec_of_run _ _ _ _ (Write_MFRC522_advance _ _ w _ _)).
  match goal with
  | |- context [exec ?m (advance w ?k' ?e)] =>
      assert (Hrest : keeps bus_event m) by keeps_step;
      destruct (Hrest (advance w k' e)) as [_ _ _ _ (evs & Htr & HF)]
  end.
  exists evs. split; [|exact HF].
  rewrite Htr. unfold advance. cbn [trace].
  rewrite !rev_app_distr, <- !app_assoc. reflexivity.
Qed.

(** X10. [CalulateCRC] clears the CRC interrupt flag and the FIFO, writes the
    first [len] bytes of its input to the FIFO in order, then starts the
    coprocessor; what follows is bus traffic only. *)
Theorem CalulateCRC_frames (pIndata : list Z) (len : Z) (out : nat) (w : world) :
  exists evs,
    since w (exec (CalulateCRC pIndata len out) w)
          (CalulateCRC_opening pIndata (Z.to_nat (uchar len)) w 0 ++ evs)
    /\ Forall bus_event evs.
Proof.
  destruct (CalulateCRC_advance pIndata len out w 0 []) as (evs & Htr & HF).
  rewrite advance_0 in Htr.
  exists (rev evs). split; [|apply Forall_rev; exact HF].
  unfold since. rewrite Htr.
  rewrite rev_app_distr, rev_involutive, <- app_assoc. reflexivity.
Qed.


Lemma CalulateCRC_eval (pIndata : list Z) (len : Z) (out : nat) (w : world) :
  eval (CalulateCRC pIndata len out) w
  = poke (S out)
      (uchar (miso w (ticks (exec (CalulateCRC pIndata len out) w) - 1)))
      (poke out
         (uchar (miso w (ticks (exec (CalulateCRC pIndata len out) w) - 3)))
         pIndata).
Proof.
  unfold CalulateCRC.
  generalize (Nat.pred CalulateCRC_budget). intros b.
  rewrite !eval_bind, !exec_bind, eval_ret, exec_ret.
  match goal with
  | |- context [exec (CalulateCRC_wait b) ?w1] =>
      set (w2 := exec (CalulateCRC_wait b) w1);
      assert (Hm : miso w2 = miso w)
        by (apply (only_miso bus_event); subst w2;
            repeat (apply only_exec; [solve [auto with keeps]|]);
            apply only_refl)
  end.
  clearbody w2.
  rewrite !eval_Read_MFRC522, reply_after_read, !ticks_Read_MFRC522.
  unfold reply. rewrite Hm.
  replace (2 + (2 + ticks w2) - 1)%nat with (2 + 1 + ticks w2)%nat by lia.
  replace (2 + (2 + ticks w2) - 3)%nat with (1 + ticks w2)%nat by lia.
  reflexivity.
Qed.

Lemma CalulateCRC_length (pIndata : list Z) (len : Z) (out : nat) (w : world) :
  length (eval (CalulateCRC pIndata len out) w) = length pIndata.
Proof. rewrite CalulateCRC_eval. now rewrite !length_poke. Qed.

Lemma CalulateCRC_peek (pIndata : list Z) (len : Z) (out : nat) (w : world)
    (j : nat) :
  j <> out -> j <> S out ->
  peek (eval (CalulateCRC pIndata len out) w) j = peek pIndata j.
Proof.
  intros Ho Hs. rewrite CalulateCRC_eval, !peek_poke.
  replace (j =? S out)%nat with false by (symmetry; now apply Nat.eqb_neq).
  replace (j =? out)%nat with false by (symmetry; now apply Nat.eqb_neq).
  reflexivity.
Qed.

(** X11. [CalulateCRC] has no failure path: it returns after at most 255 polls of
    [DivIrqReg] whether or not the coprocessor signalled completion, and
    stores whatever the last two transfers returned as the two result bytes,
    low byte first.  No other byte of the buffer changes. *)
Theorem CalulateCRC_result (pIndata : list Z) (len : Z) (out : nat) (w : world) :
  let buf := eval (CalulateCRC pIndata len out) w in
  let w' := exec (CalulateCRC pIndata len out) w in
  let n := Z.to_nat (uchar len) in
  (ticks w + (16 + 2 * n) <= ticks w'
   <= ticks w + (14 + 2 * CalulateCRC_budget + 2 * n))%nat
  /\ buf = poke (S out) (uchar (miso w (ticks w' - 1)))
             (poke out (uchar (miso w (ticks w' - 3))) pIndata)
  /\ length buf = length pIndata
  /\ (forall j, j <> out -> j <> S out -> peek buf j = peek pIndata j).
Proof.
  cbv zeta.
  split; [exact (within_CalulateCRC pIndata len out w)|].
  split; [apply CalulateCRC_eval|].
  split; [apply CalulateCRC_length|].
  intros j. apply CalulateCRC_peek.
Qed.

(** ** Transfer counts of the card functions *)

Lemma within_uninitialised_array (n : nat) : within 0 0 (uninitialised_array n).
Proof. intros w. cbn. lia. Qed.

Lemma within_osMessageQueuePut (msg : RC522_Data_t) (prio timeout : Z) :
  within 0 0 (osMessageQueuePut msg prio timeout).
Proof.
  intros w. unfold exec, osMessageQueuePut.
  destruct (_ <? _)%nat; [|destruct (timeout =? 0)]; cbn [snd ticks]; lia.
Qed.

Ltac within_calls Hok :=
  idtac;
  lazymatch goal with
  | |- within _ _ (MFRC522_ToCard _ _ _ _ _) =>
      apply within_MFRC522_ToCard; exact Hok
  | |- within _ _ (CalulateCRC _ _ _) => apply within_CalulateCRC
  | |- within _ _ (uninitialised_array _) => apply within_uninitialised_array
  | |- within _ _ (HAL_UART_Transmit _) => apply within_emit
  | |- within _ _ (osDelay _) => apply within_emit
  | |- within _ _ (osMessageQueuePut _ _ _) => apply within_osMessageQueuePut
  end.

Ltac literal_lengths :=
  repeat match goal with
         | |- context [Z.to_nat (uchar ?z)] =>
             let v := eval vm_compute in (Z.to_nat (uchar z)) in
             change (Z.to_nat (uchar z)) with v
         end.

Ltac within_solve Hok :=
  eapply within_weaken;
  [| |within_chain_with ltac:(within_calls Hok)]; literal_lengths; lia.

Lemma within_MFRC522_Request (reqMode : Z) (TagType : list Z) :
  header_ok ->
  within 24 (32 + 2 * ToCard_budget + 2 * Z.to_nat MAX_LEN)
         (MFRC522_Request reqMode TagType).
Proof. intros Hok. unfold MFRC522_Request. within_solve Hok. Qed.

Lemma within_MFRC522_Anticoll (serNum : list Z) :
  header_ok ->
  within 26 (34 + 2 * ToCard_budget + 2 * Z.to_nat MAX_LEN)
         (MFRC522_Anticoll serNum).
Proof. intros Hok. unfold MFRC522_Anticoll. within_solve Hok. Qed.

Lemma within_RC522_Task_cycle :
  header_ok ->
  within 50 (66 + 4 * ToCard_budget + 4 * Z.to_nat MAX_LEN) RC522_Task_cycle.
Proof.
  intros Hok. unfold RC522_Task_cycle. cbv zeta.
  eapply within_weaken;
    [| |eapply within_bind; [apply (within_MFRC522_Request _ _ Hok)|];
        intros [status0 tagType0];
        eapply within_bind; [apply within_emit|]; intros _;
        eapply within_bind; [apply (within_MFRC522_Anticoll _ Hok)|];
        intros [anticoll_status uid0];
        within_chain_with ltac:(within_calls Hok)]; lia.
Qed.

Lemma within_MFRC522_Init : within 20 20 MFRC522_Init.
Proof.
  unfold MFRC522_Init, MFRC522_Reset, AntennaOn, HAL_GPIO_WritePin_CS,
    HAL_GPIO_WritePin_RST.
  eapply within_weaken; [| |within_chain]; lia.
Qed.

Lemma within_RC522_Task_loop (cycles : nat) :
  header_ok ->
  within (50 * cycles)
         (cycles * (66 + 4 * ToCard_budget + 4 * Z.to_nat MAX_LEN))
         (RC522_Task_loop cycles).
Proof.
  intros Hok. induction cycles as [|c IH]; cbn [RC522_Task_loop].
  - eapply within_weaken; [| |apply within_ret]; lia.
  - eapply within_weaken;
      [| |eapply within_bind;
          [apply (within_RC522_Task_cycle Hok)|intros _; exact IH]]; lia.
Qed.

(** X12. The acquisition task never hangs on the chip: start-up makes exactly 20
    transfers, and each cycle makes at least 50 and at most
    [66 + 4 * 2000 + 4 * MAX_LEN] of them, whatever the chip answers. *)
Theorem RC522_Task_bus_time (cycles : nat) :
  header_ok ->
  within (20 + 50 * cycles)
         (20 + cycles * (66 + 4 * ToCard_budget + 4 * Z.to_nat MAX_LEN))
         (RC522_Task cycles).
Proof.
  intros Hok. unfold RC522_Task.
  apply within_bind; [apply within_MFRC522_Init|].
  intros _. now apply within_RC522_Task_loop.
Qed.

(** X13. Worst-case transfer counts of the card functions: each returns after a
    number of transfers bounded by the two polling budgets (2000 for an
    exchange, 255 for a CRC) and [MAX_LEN], whatever the chip answers. *)
Theorem card_functions_bus_time :
  header_ok ->
  (forall reqMode TagType,
     within 24 (32 + 2 * ToCard_budget + 2 * Z.to_nat MAX_LEN)
            (MFRC522_Request reqMode TagType))
  /\ (forall serNum,
        within 26 (34 + 2 * ToCard_budget + 2 * Z.to_nat MAX_LEN)
               (MFRC522_Anticoll serNum))
  /\ (forall serNum,
        within 68 (74 + 2 * CalulateCRC_budget + 2 * ToCard_budget
                   + 2 * Z.to_nat MAX_LEN)
               (MFRC522_SelectTag serNum))
  /\ (forall authMode BlockAddr Sectorkey serNum,
        within 44 (54 + 2 * ToCard_budget + 2 * Z.to_nat MAX_LEN)
               (MFRC522_Auth authMode BlockAddr Sectorkey serNum))
  /\ (forall blockAddr recvData,
        within 48 (54 + 2 * CalulateCRC_budget + 2 * ToCard_budget
                   + 2 * Z.to_nat MAX_LEN)
               (MFRC522_Read blockAddr recvData))
  /\ (forall blockAddr writeData,
        within 48 (164 + 4 * CalulateCRC_budget + 4 * ToCard_budget
                   + 4 * Z.to_nat MAX_LEN)
               (MFRC522_Write blockAddr writeData))
  /\ within 48 (54 + 2 * CalulateCRC_budget + 2 * ToCard_budget
                + 2 * Z.to_nat MAX_LEN)
            MFRC522_Halt.
Proof.
  intros Hok.
  split; [intros; now apply within_MFRC522_Request|].
  split; [intros; now apply within_MFRC522_Anticoll|].
  split; [intros; unfold MFRC522_SelectTag; within_solve Hok|].
  split; [intros; unfold MFRC522_Auth; within_solve Hok|].
  split; [intros; unfold MFRC522_Read; within_solve Hok|].
  split; [intros; unfold MFRC522_Write; within_solve Hok|].
  unfold MFRC522_Halt. within_solve Hok.
Qed.


(** ** Authentication *)

Lemma eval_uninitialised_array (n : nat) (w : world) :
  eval (uninitialised_array n) w = repeat (uchar (garbage w)) n.
Proof. reflexivity. Qed.

Lemma exec_uninitialised_array (n : nat) (w : world) :
  exec (uninitialised_array n) w = w.
Proof. reflexivity. Qed.

(** X14. [MFRC522_Auth] sends the twelve bytes mode, block address, key and
    serial number in one [PCD_AUTHENT] exchange.  It returns [MI_OK] exactly
    when the exchange returned [MI_OK] and [Status2Reg] then shows the crypto
    bit [0x08], and [MI_ERR] otherwise; [Status2Reg] is read only after an
    exchange that returned [MI_OK]. *)
Theorem MFRC522_Auth_outcome (authMode BlockAddr : Z) (Sectorkey serNum : list Z)
    (w : world) :
  header_ok ->
  let frame :=
    [uchar authMode; uchar BlockAddr;
     peek Sectorkey 0; peek Sectorkey 1; peek Sectorkey 2;
     peek Sectorkey 3; peek Sectorkey 4; peek Sectorkey 5;
     peek serNum 0; peek serNum 1; peek serNum 2; peek serNum 3] in
  let exchange := MFRC522_ToCard PCD_AUTHENT frame 12 frame (garbage w) in
  let outcome := fst (fst (eval exchange w)) in
  let w1 := exec exchange w in
  let st := eval (MFRC522_Auth authMode BlockAddr Sectorkey serNum) w in
  let w' := exec (MFRC522_Auth authMode BlockAddr Sectorkey serNum) w in
  (st = MI_OK \/ st = MI_ERR)
  /\ (st = MI_OK <-> outcome = MI_OK /\ Z.land (reply w1 1) 0x08 <> 0)
  /\ (outcome <> MI_OK -> w' = w1)
  /\ (outcome = MI_OK -> since w1 w' (read_frame Status2Reg w1 0)).
Proof.
  intros Hok. cbv zeta.
  pose proof (ok_ne_err Hok) as Hne.
  unfold MFRC522_Auth.
  rewrite !eval_bind, !exec_bind.
  rewrite !eval_uninitialised, !exec_uninitialised,
    !eval_uninitialised_array, !exec_uninitialised_array.
  cbn [copy_bytes fold_left seq poke repeat Nat.add].
  match goal with
  | |- context [exec (MFRC522_ToCard ?c ?sd ?sl ?bd ?bl) w] =>
      set (w1 := exec (MFRC522_ToCard c sd sl bd bl) w);
      destruct (eval (MFRC522_ToCard c sd sl bd bl) w) as [[st0 buf] bits]
  end.
  clearbody w1. cbn [fst].
  assert (Hs : since w1 (exec (Read_MFRC522 Status2Reg) w1)
                     (read_frame Status2Reg w1 0))
    by (unfold since, exec; rewrite Read_MFRC522_eq; reflexivity).
  destruct (Z.eqb_spec st0 MI_OK) as [Eo|Eo]; cbn [negb].
  - rewrite eval_bind, exec_bind, eval_Read_MFRC522. unfold truthy.
    destruct (Z.eqb_spec (Z.land (reply w1 1) 8) 0) as [Es|Es]; cbn [negb];
      rewrite eval_ret, exec_ret.
    + split; [now right|]. split; [|split; [congruence|auto]].
      split; [congruence|]. intros [_ E]. contradiction.
    + split; [now left|]. split; [tauto|]. split; [congruence|auto].
  - rewrite eval_ret, exec_ret.
    split; [now right|]. split; [|split; [auto|congruence]].
    split; [congruence|]. intros [E _]. contradiction.
Qed.


(** ** Frames built in automatic buffers *)

Lemma copy_bytes_S (n at_ : nat) (src dst : list Z) :
  copy_bytes (S n) at_ src dst
  = poke (n + at_) (peek src n) (copy_bytes n at_ src dst).
Proof.
  unfold copy_bytes. rewrite seq_S, fold_left_app. reflexivity.
Qed.

Lemma length_copy_bytes (n at_ : nat) (src dst : list Z) :
  length (copy_bytes n at_ src dst) = length dst.
Proof.
  induction n as [|n IH]; [reflexivity|].
  now rewrite copy_bytes_S, length_poke.
Qed.

Lemma peek_copy_bytes (n at_ : nat) (src dst : list Z) (j : nat) :
  peek (copy_bytes n at_ src dst) j
  = if ((at_ <=? j) && (j <? at_ + n) && (j <? length dst))%nat
    then peek src (j - at_) else peek dst j.
Proof.
  induction n as [|n IH].
  - destruct (Nat.leb_spec at_ j) as [A|A]; [|reflexivity].
    destruct (Nat.ltb_spec j (at_ + 0)) as [B|B]; [lia|reflexivity].
  - rewrite copy_bytes_S, peek_poke, length_copy_bytes, IH.
    destruct (Nat.eqb_spec j (n + at_)) as [E|E];
      destruct (Nat.ltb_spec j (length dst)) as [L|L];
      destruct (Nat.leb_spec at_ j) as [A|A];
      destruct (Nat.ltb_spec j (at_ + n)) as [B|B];
      destruct (Nat.ltb_spec j (at_ + S n)) as [C|C];
      cbn [andb]; try lia; try reflexivity.
    f_equal. lia.
Qed.

(** ** Block read *)

(** X15. [MFRC522_Read] stores the read command, the block address and their CRC
    in the first four bytes of the caller's buffer and exchanges them.  It
    returns [MI_OK] exactly when the exchange returned [MI_OK] with a bit
    count of [0x90] (18 bytes), and [MI_ERR] otherwise.  The buffer handed
    back is the one of the exchange: after a failed exchange it holds the
    command frame, and no byte at index 4 or more that is at or beyond
    [MAX_LEN] is ever changed. *)
Theorem MFRC522_Read_outcome (blockAddr : Z) (recvData : list Z) (w : world) :
  header_ok ->
  let cmd := poke 1 (uchar blockAddr) (poke 0 (uchar PICC_READ) recvData) in
  let crc := CalulateCRC cmd 2 2 in
  let frame := eval crc w in
  let exchange :=
    eval (MFRC522_ToCard PCD_TRANSCEIVE frame 4 frame (garbage w)) (exec crc w) in
  let r := eval (MFRC522_Read blockAddr recvData) w in
  (fst r = MI_OK \/ fst r = MI_ERR)
  /\ (fst r = MI_OK <-> fst (fst exchange) = MI_OK /\ snd exchange = 0x90)
  /\ snd r = snd (fst exchange)
  /\ length (snd r) = length recvData
  /\ (fst (fst exchange) = MI_ERR -> snd r = frame)
  /\ (forall j, (4 <= j)%nat -> (Z.to_nat MAX_LEN <= j)%nat ->
        peek (snd r) j = peek recvData j).
Proof.
  intros Hok. cbv zeta.
  pose proof (ok_ne_err Hok) as Hne.
  unfold MFRC522_Read.
  rewrite !eval_bind, ?exec_bind.
  rewrite ?eval_uninitialised, ?exec_uninitialised.
  set (cmd := poke 1 (uchar blockAddr) (poke 0 (uchar PICC_READ) recvData)).
  assert (Hlen : length (eval (CalulateCRC cmd 2 2) w) = length recvData).
  { rewrite CalulateCRC_length. subst cmd. now rewrite !length_poke. }
  assert (Hpeek : forall j, (4 <= j)%nat ->
            peek (eval (CalulateCRC cmd 2 2) w) j = peek recvData j).
  { intros j Hj. rewrite CalulateCRC_peek by lia. subst cmd.
    rewrite !peek_poke.
    replace (j =? 1)%nat with false by (symmetry; apply Nat.eqb_neq; lia).
    replace (j =? 0)%nat with false by (symmetry; apply Nat.eqb_neq; lia).
    reflexivity. }
  set (frame := eval (CalulateCRC cmd 2 2) w) in *.
  set (w1 := exec (CalulateCRC cmd 2 2) w).
  clearbody frame w1.
  pose proof (MFRC522_ToCard_length PCD_TRANSCEIVE frame 4 frame (garbage w) w1)
    as Hl.
  pose proof (MFRC522_ToCard_untouched PCD_TRANSCEIVE frame 4 frame (garbage w)
                w1 Hok) as Hu.
  pose proof (fun j => MFRC522_ToCard_beyond PCD_TRANSCEIVE frame 4 frame
                         (garbage w) w1 j Hok) as Hb.
  destruct (eval (MFRC522_ToCard PCD_TRANSCEIVE frame 4 frame (garbage w)) w1)
    as [[st buf] bits].
  rewrite eval_ret. cbn [fst snd] in *.
  split; [|split; [|split; [|split; [|split]]]].
  - destruct (negb (st =? MI_OK) || negb (bits =? 144)) eqn:E; [now right|].
    left. apply orb_false_elim in E. destruct E as [E _].
    apply negb_false_iff, Z.eqb_eq in E. exact E.
  - destruct (Z.eqb_spec st MI_OK) as [Es|Es];
      destruct (Z.eqb_spec bits 144) as [Eb|Eb]; cbn [negb orb];
      split; try tauto; try congruence;
      intros [E1 E2]; contradiction.
  - reflexivity.
  - congruence.
  - intros E. now apply Hu.
  - intros j H4 Hj. rewrite Hb by exact Hj. now apply Hpeek.
Qed.

(** ** Select *)

(** X16. [MFRC522_SelectTag] sends [PICC_SElECTTAG], [0x70], the five bytes of the
    serial number and their CRC in one transceive exchange of nine bytes.
    When what the exchange stores fits those nine bytes, it returns the first
    byte received if the exchange returned [MI_OK] with 24 bits, and 0 in
    every other case. *)
Theorem MFRC522_SelectTag_outcome (serNum : list Z) (w : world) :
  let g := uchar (garbage w) in
  let cmd :=
    [uchar PICC_SElECTTAG; 0x70; peek serNum 0; peek serNum 1; peek serNum 2;
     peek serNum 3; peek serNum 4; g; g] in
  let crc := CalulateCRC cmd 7 7 in
  let frame := eval crc w in
  let exchange :=
    eval (MFRC522_ToCard PCD_TRANSCEIVE frame 9 frame (garbage w)) (exec crc w) in
  let size := eval (MFRC522_SelectTag serNum) w in
  (ToCard_stores PCD_TRANSCEIVE frame 9 (exec crc w) <= 9)%nat ->
  firstn 7 frame = firstn 7 cmd
  /\ length frame = 9%nat
  /\ size = (if (fst (fst exchange) =? MI_OK) && (snd exchange =? 0x18)
             then peek (snd (fst exchange)) 0 else 0)
  /\ (size <> 0 -> fst (fst exchange) = MI_OK /\ snd exchange = 0x18).
Proof.
  cbv zeta. intros _. unfold MFRC522_SelectTag.
  rewrite !eval_bind, ?exec_bind.
  change (eval uninitialised w) with (garbage w).
  rewrite ?exec_uninitialised,
    ?eval_uninitialised_array, ?exec_uninitialised_array.
  cbn [copy_bytes fold_left seq poke repeat Nat.add].
  match goal with
  | |- context [CalulateCRC ?c 7 7] => set (cmd := c)
  end.
  split; [rewrite CalulateCRC_eval; reflexivity|].
  split; [rewrite CalulateCRC_length; reflexivity|].
  set (frame := eval (CalulateCRC cmd 7 7) w).
  set (w1 := exec (CalulateCRC cmd 7 7) w).
  clearbody frame w1.
  destruct (eval (MFRC522_ToCard PCD_TRANSCEIVE frame 9 frame (garbage w)) w1)
    as [[st buf] bits].
  rewrite eval_ret. cbn [fst snd].
  split; [reflexivity|].
  destruct (Z.eqb_spec st MI_OK) as [Es|Es];
    destruct (Z.eqb_spec bits 24) as [Eb|Eb]; cbn [andb]; try tauto.
Qed.


(** ** Block write *)

Lemma Write_nack_false (status recvBits : Z) (buff : list Z) :
  Write_nack status recvBits buff = false ->
  status = MI_OK /\ recvBits = 4 /\ Z.land (peek buff 0) 0x0F = 0x0A.
Proof.
  unfold Write_nack. intros H.
  apply orb_false_elim in H. destruct H as [H H3].
  apply orb_false_elim in H. destruct H as [H1 H2].
  apply negb_false_iff, Z.eqb_eq in H1, H2, H3. auto.
Qed.

(** X17. [MFRC522_Write] works in two phases.  It first sends the write command,
    the block address and their CRC; only when the card acknowledges (status
    [MI_OK], 4 bits, low nibble [0xA]) does it send the sixteen data bytes
    and their CRC.  A first phase that is not acknowledged ends the call with
    [MI_ERR] and no further transfer; the result is [MI_OK] exactly when both
    phases were acknowledged, and [MI_ERR] otherwise. *)
Theorem MFRC522_Write_outcome (blockAddr : Z) (writeData : list Z) (w : world) :
  header_ok ->
  let cmd := uchar PICC_WRITE :: uchar blockAddr
             :: repeat (uchar (garbage w)) 16 in
  let crc1 := CalulateCRC cmd 2 2 in
  let frame1 := eval crc1 w in
  let x1 := MFRC522_ToCard PCD_TRANSCEIVE frame1 4 frame1 (garbage w) in
  let r1 := eval x1 (exec crc1 w) in
  let w1 := exec x1 (exec crc1 w) in
  let nack1 := Write_nack (fst (fst r1)) (snd r1) (snd (fst r1)) in
  let crc2 := CalulateCRC (copy_bytes 16 0 writeData (snd (fst r1))) 16 16 in
  let frame2 := eval crc2 w1 in
  let x2 := MFRC522_ToCard PCD_TRANSCEIVE frame2 18 frame2 (snd r1) in
  let r2 := eval x2 (exec crc2 w1) in
  let nack2 := Write_nack (fst (fst r2)) (snd r2) (snd (fst r2)) in
  let st := eval (MFRC522_Write blockAddr writeData) w in
  let w' := exec (MFRC522_Write blockAddr writeData) w in
  (st = MI_OK \/ st = MI_ERR)
  /\ (nack1 = true -> st = MI_ERR /\ w' = w1)
  /\ (nack1 = false -> w' = exec x2 (exec crc2 w1))
  /\ (st = MI_OK <-> nack1 = false /\ nack2 = false)
  /\ length frame2 = 18%nat
  /\ (forall j, (j < 16)%nat -> peek frame2 j = peek writeData j).
Proof.
  intros Hok. cbv zeta.
  pose proof (ok_ne_err Hok) as Hne.
  unfold MFRC522_Write.
  rewrite !eval_bind, !exec_bind.
  change (eval uninitialised w) with (garbage w).
  rewrite ?exec_uninitialised,
    ?eval_uninitialised_array, ?exec_uninitialised_array.
  cbn [poke repeat].
  match goal with
  | |- context [CalulateCRC ?c 2 2] => set (cmd := c)
  end.
  assert (Hl1 : length (eval (CalulateCRC cmd 2 2) w) = 18%nat)
    by (rewrite CalulateCRC_length; reflexivity).
  set (frame1 := eval (CalulateCRC cmd 2 2) w) in *.
  set (w0 := exec (CalulateCRC cmd 2 2) w).
  clearbody frame1 w0.
  pose proof (MFRC522_ToCard_length PCD_TRANSCEIVE frame1 4 frame1 (garbage w) w0)
    as Hl.
  set (w1 := exec (MFRC522_ToCard PCD_TRANSCEIVE frame1 4 frame1 (garbage w)) w0).
  destruct (eval (MFRC522_ToCard PCD_TRANSCEIVE frame1 4 frame1 (garbage w)) w0)
    as [[st1 buf1] bits1].
  clearbody w1. cbn [fst snd] in *.
  set (data := copy_bytes 16 0 writeData buf1).
  assert (Hl2 : length (eval (CalulateCRC data 16 16) w1) = 18%nat).
  { rewrite CalulateCRC_length. subst data.
    rewrite length_copy_bytes. congruence. }
  assert (Hp2 : forall j, (j < 16)%nat ->
            peek (eval (CalulateCRC data 16 16) w1) j = peek writeData j).
  { intros j Hj. rewrite CalulateCRC_peek by lia. subst data.
    rewrite peek_copy_bytes, Hl, Hl1.
    replace (0 <=? j)%nat with true by (symmetry; apply Nat.leb_le; lia).
    replace (j <? 0 + 16)%nat with true by (symmetry; apply Nat.ltb_lt; lia).
    replace (j <? 18)%nat with true by (symmetry; apply Nat.ltb_lt; lia).
    cbn [andb]. f_equal. lia. }
  set (frame2 := eval (CalulateCRC data 16 16) w1) in *.
  set (w2 := exec (CalulateCRC data 16 16) w1).
  destruct (Write_nack st1 bits1 buf1) eqn:N1.
  - assert (E : (MI_ERR =? MI_OK) = false) by (apply Z.eqb_neq; congruence).
    rewrite E, eval_ret, exec_ret.
    split; [now right|]. split; [auto|]. split; [discriminate|].
    split; [|split; [exact Hl2|exact Hp2]].
    split; [congruence|]. intros [E1 _]. discriminate.
  - destruct (Write_nack_false _ _ _ N1) as (E1 & _). subst st1.
    rewrite Z.eqb_refl.
    rewrite !eval_bind, !exec_bind.
    fold data. fold frame2. fold w2. clearbody frame2 w2.
    set (w3 := exec (MFRC522_ToCard PCD_TRANSCEIVE frame2 18 frame2 bits1) w2).
    destruct (eval (MFRC522_ToCard PCD_TRANSCEIVE frame2 18 frame2 bits1) w2)
      as [[st2 buf2] bits2].
    clearbody w3. cbn [fst snd].
    rewrite eval_ret, exec_ret.
    split.
    { destruct (Write_nack st2 bits2 buf2) eqn:N2; [now right|].
      left. now destruct (Write_nack_false _ _ _ N2). }
    split; [discriminate|]. split; [reflexivity|].
    split; [|split; [exact Hl2|exact Hp2]].
    destruct (Write_nack st2 bits2 buf2) eqn:N2.
    + split; [congruence|]. intros [_ E]. discriminate.
    + split; [auto|]. intros _. now destruct (Write_nack_false _ _ _ N2).
Qed.


(** ** Buffers after a failed discovery *)

(** X18. After an exchange that returned [MI_ERR], [MFRC522_Request] and
    [MFRC522_Anticoll] return [MI_ERR], and the buffer they hand back is the
    caller's with the command bytes stored over its first bytes: the request
    mode in [TagType[0]], [PICC_ANTICOLL] and [0x20] in [serNum[0..1]]. *)
Theorem failed_discovery_leaves_command_bytes (reqMode : Z)
    (TagType serNum : list Z) (w : world) :
  header_ok ->
  (let frame := poke 0 (uchar reqMode) TagType in
   fst (fst (eval (MFRC522_ToCard PCD_TRANSCEIVE frame 1 frame (garbage w))
                  (exec (Write_MFRC522 BitFramingReg 0x07) w))) = MI_ERR ->
   eval (MFRC522_Request reqMode TagType) w = (MI_ERR, frame))
  /\ (let frame := poke 1 0x20 (poke 0 (uchar PICC_ANTICOLL) serNum) in
      fst (fst (eval (MFRC522_ToCard PCD_TRANSCEIVE frame 2 frame (garbage w))
                     (exec (Write_MFRC522 BitFramingReg 0x00) w))) = MI_ERR ->
      eval (MFRC522_Anticoll serNum) w = (MI_ERR, frame)).
Proof.
  intros Hok. cbv zeta.
  assert (E : (MI_ERR =? MI_OK) = false)
    by (apply Z.eqb_neq; intros E; apply (ok_ne_err Hok); congruence).
  split.
  - unfold MFRC522_Request.
    rewrite !eval_bind, ?exec_bind.
    change (eval uninitialised w) with (garbage w).
    rewrite ?exec_uninitialised.
    set (frame := poke 0 (uchar reqMode) TagType).
    set (w1 := exec (Write_MFRC522 BitFramingReg 7) w). clearbody w1.
    pose proof (MFRC522_ToCard_untouched PCD_TRANSCEIVE frame 1 frame (garbage w)
                  w1 Hok) as Hu.
    destruct (eval (MFRC522_ToCard PCD_TRANSCEIVE frame 1 frame (garbage w)) w1)
      as [[st buf] bits].
    cbn [fst snd] in *. intros Hst. destruct (Hu Hst) as [Hb _].
    rewrite eval_ret. subst st buf. rewrite E. reflexivity.
  - unfold MFRC522_Anticoll.
    rewrite !eval_bind, ?exec_bind.
    change (eval uninitialised w) with (garbage w).
    rewrite ?exec_uninitialised.
    set (frame := poke 1 32 (poke 0 (uchar PICC_ANTICOLL) serNum)).
    set (w1 := exec (Write_MFRC522 BitFramingReg 0) w). clearbody w1.
    pose proof (MFRC522_ToCard_untouched PCD_TRANSCEIVE frame 2 frame (garbage w)
                  w1 Hok) as Hu.
    destruct (eval (MFRC522_ToCard PCD_TRANSCEIVE frame 2 frame (garbage w)) w1)
      as [[st buf] bits].
    cbn [fst snd] in *. intros Hst. destruct (Hu Hst) as [Hb _].
    rewrite eval_ret. subst st buf. rewrite E. reflexivity.
Qed.

(** ** The antenna *)

(** X19. [AntennaOn] reads [TxControlReg] twice and writes it back with the two
    driver bits set; [AntennaOff] reads it once and writes it back with the
    two driver bits clear.  All other bits are written as read. *)
Theorem antenna_switch (w : world) :
  (let v := Z.lor (reply w 3) 0x03 in
   since w (exec AntennaOn w)
         (read_frame TxControlReg w 0 ++ read_frame TxControlReg w 2
          ++ write_frame TxControlReg v w 4)
   /\ Z.land v 0x03 = 0x03
   /\ Z.land v (Z.lnot 0x03) = Z.land (reply w 3) (Z.lnot 0x03))
  /\ (let v := Z.land (reply w 1) (Z.lnot 0x03) in
      since w (exec AntennaOff w)
            (read_frame TxControlReg w 0 ++ write_frame TxControlReg v w 2)
      /\ Z.land v 0x03 = 0
      /\ Z.lor v (Z.land (reply w 1) 0x03) = reply w 1).
Proof.
  cbv zeta. split; (split; [|split]).
  - unfold since, AntennaOn. rewrite exec_bind.
    unfold exec at 2. rewrite <- (advance_0 w) at 1.
    rewrite Read_MFRC522_advance. cbn [snd].
    unfold exec. rewrite SetBitMask_advance.
    cbn [snd advance trace]. rewrite !app_nil_r.
    rewrite !rev_app_distr, <- !app_assoc. reflexivity.
  - apply lor_sets.
  - apply lor_keeps.
  - unfold since, AntennaOff, exec.
    rewrite <- (advance_0 w) at 1. rewrite ClearBitMask_advance.
    cbn [snd advance trace]. rewrite app_nil_r. reflexivity.
  - apply ldiff_clears.
  - apply ldiff_keeps.
Qed.


(** ** The queue over many cycles *)

Lemma count_events_app (p : event -> bool) (a b : list event) :
  count_events p (a ++ b) = (count_events p a + count_events p b)%nat.
Proof. unfold count_events. now rewrite filter_app, length_app. Qed.

Lemma count_events_quiet (p : event -> bool) (evs : list event) :
  (forall e, quiet_event e -> p e = false) ->
  Forall quiet_event evs -> count_events p evs = 0%nat.
Proof.
  intros Hp Hq. unfold count_events.
  induction Hq as [|e evs He _ IH]; [reflexivity|].
  cbn [filter]. now rewrite (Hp e He).
Qed.

Lemma is_put_quiet (e : event) : quiet_event e -> is_put e = false.
Proof. destruct e; cbn; tauto. Qed.

Lemma is_delay_quiet (e : event) : quiet_event e -> is_delay_2000 e = false.
Proof. destruct e; cbn; tauto. Qed.

Lemma is_blocked_quiet (e : event) : quiet_event e -> is_blocked e = false.
Proof. destruct e; cbn; tauto. Qed.

Lemma put_records_app (a b : list event) :
  put_records (a ++ b) = put_records a ++ put_records b.
Proof. unfold put_records. apply flat_map_app. Qed.

Lemma put_records_quiet (evs : list event) :
  Forall quiet_event evs -> put_records evs = [].
Proof.
  intros Hq. unfold put_records.
  induction Hq as [|e evs He _ IH]; [reflexivity|].
  cbn [flat_map]. rewrite IH. destruct e; cbn in He; tauto.
Qed.

Lemma record_ok_cycle_record (rq ac : Z * list Z) :
  record_ok (cycle_record rq ac).
Proof.
  unfold record_ok, cycle_record. cbn [status uid_length].
  destruct (_ && _); [left|right]; split; reflexivity.
Qed.

(** One cycle, as a step on trace and queue. *)
Lemma RC522_Task_cycle_step (w : world) :
  exists r st evs,
    record_ok r /\ Forall quiet_event evs
    /\ trace (exec RC522_Task_cycle w)
       = Delay 2000 :: Put r 0 st :: evs ++ trace w
    /\ msg_count (display_rc522_info_queue (exec RC522_Task_cycle w))
       = msg_count (display_rc522_info_queue w)
    /\ pending (display_rc522_info_queue (exec RC522_Task_cycle w))
       = if (length (pending (display_rc522_info_queue w))
             <? msg_count (display_rc522_info_queue w))%nat
         then pending (display_rc522_info_queue w) ++ [r]
         else pending (display_rc522_info_queue w).
Proof.
  destruct (MFRC522_Request PICC_REQIDL [0; 0] w) as [rq w1] eqn:E1.
  destruct (MFRC522_Anticoll (repeat 0 10)
              (exec (HAL_UART_Transmit
                       (Dbg_request (fst rq) (peek (snd rq) 0) (peek (snd rq) 1)))
                    w1)) as [ac w3] eqn:E2.
  destruct (RC522_Task_cycle_offer w w1 w3 rq ac E1 E2)
    as (evs3 & evs & _ & HF & _ & H).
  cbv zeta in H.
  exists (cycle_record rq ac).
  destruct (length _ <? _)%nat; destruct H as [Ht Hq];
    [exists osOK|exists osErrorResource]; exists evs;
    (split; [apply record_ok_cycle_record|]); (split; [exact HF|]);
    (split; [exact Ht|]); rewrite Hq; split; reflexivity.
Qed.

Lemma RC522_Task_loop_queue (cycles : nat) :
  forall (w : world),
    exists evs,
      since w (exec (RC522_Task_loop cycles) w) evs
      /\ count_events is_put evs = cycles
      /\ count_events is_delay_2000 evs = cycles
      /\ count_events is_blocked evs = 0%nat
      /\ Forall record_ok (put_records evs)
      /\ msg_count (display_rc522_info_queue (exec (RC522_Task_loop cycles) w))
         = msg_count (display_rc522_info_queue w)
      /\ pending (display_rc522_info_queue (exec (RC522_Task_loop cycles) w))
         = pending (display_rc522_info_queue w)
           ++ firstn (msg_count (display_rc522_info_queue w)
                      - length (pending (display_rc522_info_queue w)))
                (put_records evs).
Proof.
  induction cycles as [|c IH]; intros w; cbn [RC522_Task_loop].
  - exists []. rewrite exec_ret. unfold since. cbn [rev app].
    repeat split; try reflexivity; [constructor|].
    rewrite firstn_nil, app_nil_r. reflexivity.
  - rewrite exec_bind.
    destruct (RC522_Task_cycle_step w) as (r & st & evs & Hr & HF & Ht & Hc & Hp).
    set (w1 := exec RC522_Task_cycle w) in *. clearbody w1.
    destruct (IH w1) as (evs' & Hs & Hput & Hdel & Hblk & Hok' & Hc' & Hp').
    set (w' := exec (RC522_Task_loop c) w1) in *. clearbody w'.
    assert (HFr : Forall quiet_event (rev evs)) by now apply Forall_rev.
    exists ((rev evs ++ [Put r 0 st; Delay 2000]) ++ evs').
    split; [|split; [|split; [|split; [|split; [|split]]]]].
    + unfold since in *. rewrite Hs, Ht.
      rewrite !rev_app_distr, rev_involutive, <- !app_assoc. reflexivity.
    + rewrite !count_events_app, Hput.
      rewrite (count_events_quiet _ _ is_put_quiet HFr). reflexivity.
    + rewrite !count_events_app, Hdel.
      rewrite (count_events_quiet _ _ is_delay_quiet HFr). reflexivity.
    + rewrite !count_events_app, Hblk.
      rewrite (count_events_quiet _ _ is_blocked_quiet HFr). reflexivity.
    + rewrite !put_records_app, (put_records_quiet _ HFr).
      cbn [put_records flat_map app]. now constructor.
    + congruence.
    + rewrite Hp', Hc, Hp.
      rewrite !put_records_app, (put_records_quiet _ HFr).
      cbn [put_records flat_map app].
      fold (put_records evs').
      destruct (Nat.ltb_spec (length (pending (display_rc522_info_queue w)))
                  (msg_count (display_rc522_info_queue w))) as [L|L].
      * rewrite length_app. cbn [length].
        replace (msg_count (display_rc522_info_queue w)
                 - length (pending (display_rc522_info_queue w)))%nat
          with (S (msg_count (display_rc522_info_queue w)
                   - (length (pending (display_rc522_info_queue w)) + 1)))
          by lia.
        cbn [firstn]. rewrite <- app_assoc. reflexivity.
      * replace (msg_count (display_rc522_info_queue w)
                 - length (pending (display_rc522_info_queue w)))%nat
          with 0%nat by lia.
        reflexivity.
Qed.

(** X20. However many cycles the acquisition task runs, it makes exactly one put
    attempt and one 2000 ms delay per cycle and never waits on the queue.
    The queue keeps its capacity; the records already pending stay in front,
    in order, and of the records offered since, the oldest are taken until
    the queue is full and all later ones are dropped. *)
Theorem RC522_Task_queue_policy (cycles : nat) (w : world) :
  let q := display_rc522_info_queue w in
  let w' := exec (RC522_Task cycles) w in
  let q' := display_rc522_info_queue w' in
  exists evs,
    since w w' evs
    /\ count_events is_put evs = cycles
    /\ count_events is_delay_2000 evs = cycles
    /\ count_events is_blocked evs = 0%nat
    /\ Forall record_ok (put_records evs)
    /\ msg_count q' = msg_count q
    /\ pending q'
       = pending q ++ firstn (msg_count q - length (pending q)) (put_records evs).
Proof.
  cbv zeta. unfold RC522_Task. rewrite exec_bind.
  destruct (keeps_MFRC522_Init w) as [_ _ Hq _ (evs0 & Ht0 & HF0)].
  set (w0 := exec MFRC522_Init w) in *. clearbody w0.
  destruct (RC522_Task_loop_queue cycles w0)
    as (evs & Hs & Hput & Hdel & Hblk & Hok' & Hc & Hp).
  set (w' := exec (RC522_Task_loop cycles) w0) in *. clearbody w'.
  assert (HFr : Forall quiet_event (rev evs0)) by now apply Forall_rev.
  exists (rev evs0 ++ evs).
  split; [|split; [|split; [|split; [|split; [|split]]]]].
  - unfold since in *. rewrite Hs, Ht0.
    rewrite rev_app_distr, rev_involutive, <- app_assoc. reflexivity.
  - rewrite count_events_app, Hput.
    now rewrite (count_events_quiet _ _ is_put_quiet HFr).
  - rewrite count_events_app, Hdel.
    now rewrite (count_events_quiet _ _ is_delay_quiet HFr).
  - rewrite count_events_app, Hblk.
    now rewrite (count_events_quiet _ _ is_blocked_quiet HFr).
  - now rewrite put_records_app, (put_records_quiet _ HFr).
  - now rewrite Hc, Hq.
  - rewrite Hp, Hq, put_records_app, (put_records_quiet _ HFr). reflexivity.
Qed.

End More_facts.

(** ** The display task *)

Lemma OLED_Display_pass_none (w : world) :
  pending (display_rc522_info_queue w) = [] ->
  OLED_Display_pass w = (None, w).
Proof.
  intros H. unfold OLED_Display_pass, bind, osMessageQueueGet.
  rewrite H. reflexivity.
Qed.

Lemma OLED_Display_pass_some (r : RC522_Data_t) (rest : list RC522_Data_t)
    (w : world) :
  pending (display_rc522_info_queue w) = r :: rest ->
  exists calls,
    OLED_Display_pass w
    = (Some calls,
       World (miso w) (ticks w) (Delay 100 :: trace w) (garbage w)
             {| msg_count := msg_count (display_rc522_info_queue w);
                pending := rest |})
    /\ shows r calls.
Proof.
  intros H. unfold OLED_Display_pass, bind, osMessageQueueGet.
  rewrite H. eexists. split; [reflexivity|].
  unfold shows. destruct (status r =? RC522_STATUS_SUCCESS);
    repeat split; reflexivity.
Qed.

(** X21. The display task shows the pending records oldest first, one per pass
    with the LED lit exactly for a record of status [RC522_STATUS_SUCCESS],
    removes each record it shows, waits 100 ms after each, and stays
    suspended once the queue is empty. *)
Theorem OLED_Display_Task_order (passes : nat) (w : world) :
  let q := display_rc522_info_queue w in
  let shown := eval (OLED_Display_Task_loop passes) w in
  let w' := exec (OLED_Display_Task_loop passes) w in
  Forall2 shows (firstn passes (pending q)) shown
  /\ pending (display_rc522_info_queue w') = skipn passes (pending q)
  /\ msg_count (display_rc522_info_queue w') = msg_count q
  /\ trace w' = repeat (Delay 100) (length shown) ++ trace w.
Proof.
  cbv zeta. revert w.
  induction passes as [|p IH]; intros w; cbn [OLED_Display_Task_loop].
  - rewrite eval_ret, exec_ret. repeat split. constructor.
  - rewrite eval_bind, exec_bind.
    destruct (pending (display_rc522_info_queue w)) as [|r rest] eqn:Hq.
    + rewrite (eval_of_run _ _ _ _ (OLED_Display_pass_none w Hq)).
      rewrite (exec_of_run _ _ _ _ (OLED_Display_pass_none w Hq)).
      rewrite eval_ret, exec_ret, Hq. repeat split. constructor.
    + destruct (OLED_Display_pass_some r rest w Hq) as (calls & Hrun & Hshow).
      rewrite (eval_of_run _ _ _ _ Hrun), (exec_of_run _ _ _ _ Hrun).
      rewrite eval_bind, exec_bind, eval_ret, exec_ret.
      match goal with
      | |- context [exec (OLED_Display_Task_loop p) ?w1] =>
          destruct (IH w1) as (H1 & H2 & H3 & H4)
      end.
      cbn [display_rc522_info_queue pending msg_count trace] in H1, H2, H3, H4.
      cbn [firstn skipn length repeat].
      split; [constructor; assumption|].
      split; [exact H2|]. split; [exact H3|].
      rewrite H4, repeat_cons, <- app_assoc. reflexivity.
Qed.

Section Display_facts.

Context {hdr : RC522_h}.

(** X22. From acquisition to display: when the queue is empty and has room and
    the two exchanges of the cycle store within the arrays the task passes,
    the record of the cycle is what the next display pass shows.  The
    LED is lit exactly when both [MFRC522_Request] and [MFRC522_Anticoll]
    returned [MI_OK]; the identifier drawn is then the first four bytes the
    anticollision left in its buffer, and the queue is empty again. *)
Theorem acquisition_to_display (w : world) :
  pending (display_rc522_info_queue w) = [] ->
  (0 < msg_count (display_rc522_info_queue w))%nat ->
  let rq := eval (MFRC522_Request PICC_REQIDL [0; 0]) w in
  let w1 := exec (MFRC522_Request PICC_REQIDL [0; 0]) w in
  let w2 := exec (HAL_UART_Transmit
                    (Dbg_request (fst rq) (peek (snd rq) 0) (peek (snd rq) 1)))
                 w1 in
  let ac := eval (MFRC522_Anticoll (repeat 0 10)) w2 in
  let detected := (fst rq =? MI_OK) && (fst ac =? MI_OK) in
  let w' := exec RC522_Task_cycle w in
  Request_fits PICC_REQIDL [0; 0] w ->
  Anticoll_fits (repeat 0 10) w2 ->
  exists calls,
    eval OLED_Display_pass w' = Some calls
    /\ led_level calls = Some detected
    /\ text_at 28 calls
       = [if detected
          then Txt_tag (peek (snd ac) 0) (peek (snd ac) 1) (peek (snd ac) 2)
                       (peek (snd ac) 3)
          else Txt_not_detected]
    /\ text_at 46 calls = [if detected then Txt_success else Txt_unsuccessful]
    /\ pending (display_rc522_info_queue (exec OLED_Display_pass w')) = [].
Proof.
  intros Hempty Hroom. cbv zeta. intros _ _.
  destruct (MFRC522_Request PICC_REQIDL [0; 0] w) as [rq w1] eqn:E1.
  rewrite !(eval_of_run _ _ _ _ E1), !(exec_of_run _ _ _ _ E1).
  destruct (MFRC522_Anticoll (repeat 0 10)
              (exec (HAL_UART_Transmit
                       (Dbg_request (fst rq) (peek (snd rq) 0) (peek (snd rq) 1)))
                    w1)) as [ac w3] eqn:E2.
  rewrite !(eval_of_run _ _ _ _ E2).
  destruct (RC522_Task_cycle_offer w w1 w3 rq ac E1 E2)
    as (evs3 & evs & _ & _ & _ & H).
  cbv zeta in H. rewrite Hempty in H.
  replace (length (@nil RC522_Data_t) <? msg_count (display_rc522_info_queue w))%nat
    with true in H by (symmetry; apply Nat.ltb_lt; exact Hroom).
  destruct H as [_ Hq].
  set (w' := exec RC522_Task_cycle w) in *. clearbody w'.
  destruct (OLED_Display_pass_some (cycle_record rq ac) [] w')
    as (calls & Hrun & Hl & H28 & H46 & _).
  { rewrite Hq. reflexivity. }
  exists calls.
  rewrite (eval_of_run _ _ _ _ Hrun), (exec_of_run _ _ _ _ Hrun).
  unfold cycle_record in Hl, H28, H46. cbn [status uid] in Hl, H28, H46.
  split; [reflexivity|].
  destruct ((fst rq =? MI_OK) && (fst ac =? MI_OK)); auto.
Qed.

End Display_facts.

Section Exchange_frames.

Context {hdr : RC522_h}.

(** X23. Every exchange opens the same way: it enables the interrupts of the
    command, clears the interrupt flags and the FIFO, idles the chip, writes
    the first [sendLen] bytes of [sendData] to the FIFO in order, and only
    then writes the command word, followed by the start-send bit for
    [PCD_TRANSCEIVE] alone.  What follows is bus traffic only. *)
Theorem MFRC522_ToCard_frames (command : Z) (sendData : list Z) (sendLen : Z)
    (backData : list Z) (backLen : Z) (w : world) :
  exists evs,
    since w (exec (MFRC522_ToCard command sendData sendLen backData backLen) w)
          (issue_frames (uchar command) (fst (ToCard_irq (uchar command)))
             sendData (Z.to_nat (uchar sendLen)) w 0
           ++ evs)
    /\ Forall bus_event evs.
Proof.
  destruct (MFRC522_ToCard_advance command sendData sendLen backData backLen
              w 0 []) as (evs & Htr & HF).
  rewrite advance_0 in Htr.
  exists (rev evs). split; [|apply Forall_rev; exact HF].
  unfold since. rewrite Htr.
  rewrite rev_app_distr, rev_involutive, <- app_assoc. reflexivity.
Qed.

End Exchange_frames.

(** * The further properties at concrete chips *)

Lemma MFRC522_ToCard_bus_time_witness :
  (ticks (power_on silent) + (20 + 2 * Z.to_nat (uchar 1))
   <= ticks (exec (MFRC522_ToCard (hdr := mfrc522_h) 0x0C%Z [0x26; 0]%Z 1%Z
                     [0x26; 0]%Z 0%Z) (power_on silent))
   <= ticks (power_on silent)
      + (28 + 2 * ToCard_budget + 2 * Z.to_nat (uchar 1)
         + 2 * Z.to_nat (MAX_LEN (RC522_h := mfrc522_h))))%nat.
Proof.
  exact (MFRC522_ToCard_bus_time (hdr := mfrc522_h) 0x0C [0x26; 0] 1 [0x26; 0] 0
           (power_on silent) mfrc522_ok).
Defined.

Lemma MFRC522_ToCard_first_flag_witness :
  ticks (exec (ToCard_reach_collect (hdr := mfrc522_h) 0x0C [0x26; 0] 1)
              (power_on (answers [(21, 0x30)])))
  = (4 + 2 * 1
     + ticks (exec (ToCard_issue (hdr := mfrc522_h) (uchar 0x0C%Z)
                      (fst (ToCard_irq (hdr := mfrc522_h) (uchar 0x0C%Z)))
                      [0x26; 0]%Z (uchar 1%Z))
                   (power_on (answers [(21, 0x30)]%Z))))%nat.
Proof.
  refine (proj1 (proj2 (MFRC522_ToCard_first_flag (hdr := mfrc522_h) 0x0C
                          [0x26; 0] 1 [0x26; 0] 0
                          (power_on (answers [(21, 0x30)])) 0 mfrc522_ok _ _ _))).
  - unfold ToCard_budget. lia.
  - intros j Hj. lia.
  - right. vm_compute. lia.
Defined.

Lemma MFRC522_ToCard_last_pass_too_late_witness :
  eval (MFRC522_ToCard (hdr := mfrc522_h) 0x0C [0x26; 0] 1 [0x26; 0] 7)
       (power_on (answers [(4019, 0x30)]))
  = (MI_ERR (RC522_h := mfrc522_h), [0x26; 0], 7).
Proof.
  refine (proj1 (MFRC522_ToCard_last_pass_too_late (hdr := mfrc522_h) 0x0C
                   [0x26; 0] 1 [0x26; 0] 7
                   (power_on (answers [(4019, 0x30)])) _)).
  intros j Hj.
  assert (Hb : Z.of_nat ToCard_budget = 2000) by reflexivity.
  unfold flagged, irq_sample, reply.
  match goal with
  | |- context [miso ?w1 (_ + ticks ?w1)] =>
      replace (miso w1) with (answers [(4019, 0x30)]) by reflexivity;
      replace (ticks w1) with 20%nat by (vm_compute; reflexivity)
  end.
  cbn [answers].
  destruct (Z.eqb_spec (Z.of_nat (1 + 2 * j + 20)) 4019) as [E|E]; [lia|].
  intros [H|H]; apply H; reflexivity.
Defined.

Lemma MFRC522_ToCard_status_witness :
  fst (fst (eval (MFRC522_ToCard (hdr := mfrc522_h) 0x0C [0x26; 0] 1 [0x26; 0] 0)
                 (power_on silent))) = MI_OK (RC522_h := mfrc522_h)
  \/ fst (fst (eval (MFRC522_ToCard (hdr := mfrc522_h) 0x0C [0x26; 0] 1
                       [0x26; 0] 0) (power_on silent)))
     = MI_NOTAGERR (RC522_h := mfrc522_h)
  \/ fst (fst (eval (MFRC522_ToCard (hdr := mfrc522_h) 0x0C [0x26; 0] 1
                       [0x26; 0] 0) (power_on silent)))
     = MI_ERR (RC522_h := mfrc522_h).
Proof.
  exact (proj1 (MFRC522_ToCard_status (hdr := mfrc522_h) 0x0C [0x26; 0] 1
                  [0x26; 0] 0 (power_on silent) mfrc522_ok)).
Defined.

Lemma MFRC522_ToCard_failure_leaves_buffer_witness :
  snd (fst (eval (MFRC522_ToCard (hdr := mfrc522_h) 0x0C [0x26; 0] 1 [0x26; 0] 7)
                 (power_on silent)))
  = [0x26; 0].
Proof.
  refine (proj1 (MFRC522_ToCard_failure_leaves_buffer (hdr := mfrc522_h) 0x0C
                   [0x26; 0] 1 [0x26; 0] 7 (power_on silent) mfrc522_ok _)).
  left. vm_compute. reflexivity.
Defined.

Lemma MFRC522_ToCard_store_bound_witness :
  peek (snd (fst (eval (MFRC522_ToCard (hdr := mfrc522_h) 0x0C [0x30; 4; 0; 0] 4
                          (repeat 0xEE 18) 0)
                       (power_on (answers [(27, 0x30); (35, 255); (39, 0x5A)])))))
       17
  = 0xEE.
Proof.
  refine (proj1 (proj2 (MFRC522_ToCard_store_bound (hdr := mfrc522_h) 0x0C
                          [0x30; 4; 0; 0] 4 (repeat 0xEE 18) 0
                          (power_on (answers [(27, 0x30); (35, 255); (39, 0x5A)]))
                          mfrc522_ok _)) 17%nat _).
  - vm_compute. lia.
  - vm_compute. lia.
Defined.

Lemma MFRC522_SelectTag_outcome_witness :
  eval (MFRC522_SelectTag (hdr := mfrc522_h) (blk := mfrc522_h_block)
          [0x12; 0x34; 0x56; 0x78; 0x08])
       (power_on (answers [(25, 0x04); (67, 0x30); (75, 3); (79, 0x08)]))
  = 0x08.
Proof.
  destruct (MFRC522_SelectTag_outcome (hdr := mfrc522_h)
              (blk := mfrc522_h_block) [0x12; 0x34; 0x56; 0x78; 0x08]
              (power_on (answers [(25, 0x04); (67, 0x30); (75, 3); (79, 0x08)])))
    as (_ & _ & Hs & _).
  - vm_compute. lia.
  - rewrite Hs. vm_compute. reflexivity.
Defined.

Lemma RC522_Task_bus_time_witness :
  (ticks (power_on card_12345678) + (20 + 50 * 3)
   <= ticks (exec (RC522_Task (hdr := mfrc522_h) 3) (power_on card_12345678))
   <= ticks (power_on card_12345678)
      + (20 + 3 * (66 + 4 * ToCard_budget
                   + 4 * Z.to_nat (MAX_LEN (RC522_h := mfrc522_h)))))%nat.
Proof.
  exact (RC522_Task_bus_time (hdr := mfrc522_h) 3 mfrc522_ok
           (power_on card_12345678)).
Defined.

Lemma card_functions_bus_time_witness :
  (ticks (power_on silent) + 48
   <= ticks (exec (MFRC522_Halt (hdr := mfrc522_h) (blk := mfrc522_h_block))
                  (power_on silent))
   <= ticks (power_on silent)
      + (54 + 2 * CalulateCRC_budget + 2 * ToCard_budget
         + 2 * Z.to_nat (MAX_LEN (RC522_h := mfrc522_h))))%nat.
Proof.
  exact (proj2 (proj2 (proj2 (proj2 (proj2 (proj2
           (card_functions_bus_time (hdr := mfrc522_h)
              (blk := mfrc522_h_block) mfrc522_ok))))))
           (power_on silent)).
Defined.

Lemma MFRC522_Auth_outcome_witness :
  eval (MFRC522_Auth (hdr := mfrc522_h) (blk := mfrc522_h_block) 0x60 4
          [255; 255; 255; 255; 255; 255] [1; 2; 3; 4]) (power_on silent)
  = MI_OK (RC522_h := mfrc522_h)
  \/ eval (MFRC522_Auth (hdr := mfrc522_h) (blk := mfrc522_h_block) 0x60 4
             [255; 255; 255; 255; 255; 255] [1; 2; 3; 4]) (power_on silent)
     = MI_ERR (RC522_h := mfrc522_h).
Proof.
  exact (proj1 (MFRC522_Auth_outcome (hdr := mfrc522_h) (blk := mfrc522_h_block)
                  0x60 4 [255; 255; 255; 255; 255; 255] [1; 2; 3; 4]
                  (power_on silent) mfrc522_ok)).
Defined.

Lemma MFRC522_Read_outcome_witness :
  fst (eval (MFRC522_Read (hdr := mfrc522_h) (blk := mfrc522_h_block) 4
               (repeat 0 18)) (power_on silent))
  = MI_OK (RC522_h := mfrc522_h)
  \/ fst (eval (MFRC522_Read (hdr := mfrc522_h) (blk := mfrc522_h_block) 4
                  (repeat 0 18)) (power_on silent))
     = MI_ERR (RC522_h := mfrc522_h).
Proof.
  exact (proj1 (MFRC522_Read_outcome (hdr := mfrc522_h) (blk := mfrc522_h_block)
                  4 (repeat 0 18) (power_on silent) mfrc522_ok)).
Defined.

Lemma MFRC522_Write_outcome_witness :
  eval (MFRC522_Write (hdr := mfrc522_h) (blk := mfrc522_h_block) 4
          (repeat 0xA5 16)) (power_on silent)
  = MI_OK (RC522_h := mfrc522_h)
  \/ eval (MFRC522_Write (hdr := mfrc522_h) (blk := mfrc522_h_block) 4
             (repeat 0xA5 16)) (power_on silent)
     = MI_ERR (RC522_h := mfrc522_h).
Proof.
  exact (proj1 (MFRC522_Write_outcome (hdr := mfrc522_h) (blk := mfrc522_h_block)
                  4 (repeat 0xA5 16) (power_on silent) mfrc522_ok)).
Defined.

Lemma failed_discovery_leaves_command_bytes_witness :
  eval (MFRC522_Anticoll (hdr := mfrc522_h) (repeat 0 10)) (power_on silent)
  = (MI_ERR (RC522_h := mfrc522_h),
     poke 1 0x20
       (poke 0 (uchar (PICC_ANTICOLL (RC522_h := mfrc522_h))) (repeat 0 10))).
Proof.
  refine (proj2 (failed_discovery_leaves_command_bytes (hdr := mfrc522_h) 0x26
                   [0; 0] (repeat 0 10) (power_on silent) mfrc522_ok) _).
  vm_compute. reflexivity.
Defined.

Lemma acquisition_to_display_witness :
  exists calls,
    eval OLED_Display_pass
         (exec (RC522_Task_cycle (hdr := mfrc522_h)) (power_on card_12345678))
    = Some calls
    /\ led_level calls = Some true
    /\ text_at 28 calls = [Txt_tag 0x12 0x34 0x56 0x78].
Proof.
  destruct (acquisition_to_display (hdr := mfrc522_h) (power_on card_12345678))
    as (calls & Hc & Hl & Ht & _).
  - reflexivity.
  - vm_compute. lia.
  - vm_compute. lia.
  - vm_compute. lia.
  - exists calls. split; [exact Hc|]. split.
    + rewrite Hl. vm_compute. reflexivity.
    + rewrite Ht. vm_compute. reflexivity.
Defined.
